(** * cmany: build tags, the CMake cache mirror and the build lifecycle

    A shallow embedding of
    - [src/c4/cmany/build.py]          (class [Build] of cmany),
    - [src/c4/cmany/cmake_sysinfo.py]  (class [CMakeCache] and the
      [CMakeCache.txt] readers and writers),
    - [c4/pycmake/pycmake.py]          (class [Build] of the older pycmake
      tool, with its axis classes and its [Generator]),
    followed by the properties of these programs. *)

From Stdlib Require Import String Ascii List Bool Arith Lia.
Import ListNotations.
Local Open Scope list_scope.
Local Open Scope string_scope.

Set Implicit Arguments.

(* ================================================================= *)
(** ** Python strings and paths *)

Module Py.

(** The empty string, a one-character string, and the two characters
    the sources rely on that have no plain notation. *)
Definition empty : string := EmptyString.
Definition chr (c : ascii) : string := String c EmptyString.
Definition newline : ascii := ascii_of_nat 10.
Definition cr : ascii := ascii_of_nat 13.
Definition backslash : ascii := ascii_of_nat 92.
Definition dquote : ascii := ascii_of_nat 34.
Definition nl : string := chr newline.

(** [bool(s)] of a string: non-empty. *)
Definition truthy (s : string) : bool :=
  match s with EmptyString => false | String _ _ => true end.

(** [s.startswith(p)] *)
Definition startswith (s p : string) : bool := String.prefix p s.

(** [s.split(c)] for a one-character separator: never the empty list. *)
Fixpoint split (c : ascii) (s : string) : list string :=
  match s with
  | EmptyString => [EmptyString]
  | String a s' =>
      if Ascii.eqb a c then EmptyString :: split c s'
      else match split c s' with
           | [] => [chr a]
           | h :: t => String a h :: t
           end
  end.

(** [sep.join(l)] *)
Definition join (sep : string) (l : list string) : string :=
  String.concat sep l.

(** [re.sub(r'\\', '/', s)]: every backslash becomes a slash. *)
Fixpoint slashes (s : string) : string :=
  match s with
  | EmptyString => EmptyString
  | String a s' =>
      String (if Ascii.eqb a backslash then "/"%char else a) (slashes s')
  end.

(** [c in s] for a character. *)
Fixpoint mem (c : ascii) (s : string) : bool :=
  match s with
  | EmptyString => false
  | String a s' => Ascii.eqb a c || mem c s'
  end.

(** [s.endswith(p)] *)
Definition endswith (s p : string) : bool :=
  let n := String.length s in
  let m := String.length p in
  Nat.leb m n && String.eqb (String.substring (n - m) m s) p.

(** [s] with every [c] dropped. *)
Fixpoint without (c : ascii) (s : string) : string :=
  match s with
  | EmptyString => EmptyString
  | String a s' =>
      if Ascii.eqb a c then without c s' else String a (without c s')
  end.

(** [os.path.join(a, b)] on a POSIX system, for two components. *)
Definition path_join (a b : string) : string :=
  if startswith b "/" then b
  else if negb (truthy a) || endswith a "/" then a ++ b
  else a ++ "/" ++ b.

End Py.

(* ================================================================= *)
(** ** Exceptions, ordered dictionaries and the file system *)

Module Sys.
Import Py.

(** The exceptions that the modelled code raises or lets through. *)
Inductive exn : Type :=
| TypeError (msg : string)            (* a call that misses an argument *)
| Exception (msg : string)            (* [raise Exception(msg)] *)
| re_error (template : string)        (* [re.error]: bad replacement *)
| IOError (path : string)             (* [open] of something not a file *)
| AttributeError (msg : string)       (* an attribute of [None] *)
| CalledProcessError (cmd : list string)
| ConanError.

(** [collections.OrderedDict] with string keys: insertion order is kept,
    assigning to a present key keeps its place. *)
Definition odict (V : Type) : Type := list (string * V).

Fixpoint get {V} (d : odict V) (k : string) : option V :=
  match d with
  | [] => None
  | (k', v) :: t => if String.eqb k' k then Some v else get t k
  end.

Fixpoint set {V} (d : odict V) (k : string) (v : V) : odict V :=
  match d with
  | [] => [(k, v)]
  | (k', v') :: t =>
      if String.eqb k' k then (k, v) :: t else (k', v') :: set t k v
  end.

(** The part of the file system the programs look at: which paths are
    directories, the text of the regular files, and the log of the files
    that the program itself has written, oldest first.  The model does not
    track parent directories: [os.makedirs] marks the directory it is asked
    for, and [open(p, 'w')] creates or replaces [p].  The system is a POSIX
    one, as it is for [path_join]: a file holds the text that was written
    to it, with a line feed where the program wrote one. *)
Record FS : Type := mkFS {
  dirs : string -> bool;
  files : string -> option string;
  written : list string
}.

Definition empty_fs : FS := mkFS (fun _ => false) (fun _ => None) [].

(** [os.path.exists(p)] *)
Definition exists_ (fs : FS) (p : string) : bool :=
  dirs fs p || match files fs p with Some _ => true | None => false end.

(** [os.makedirs(p)] *)
Definition makedirs (fs : FS) (p : string) : FS :=
  mkFS (fun q => if String.eqb q p then true else dirs fs q) (files fs)
       (written fs).

(** [open(p, 'w').write(text)], on a system whose [os.linesep] is a line
    feed, where a text is stored as it is written. *)
Definition write_text (fs : FS) (p text : string) : FS :=
  mkFS (dirs fs) (fun q => if String.eqb q p then Some text else files fs q)
       (written fs ++ [p]).

(** [os.remove(p)] of a regular file. *)
Definition remove (fs : FS) (p : string) : FS :=
  mkFS (dirs fs) (fun q => if String.eqb q p then None else files fs q)
       (written fs).

(** What a child process leaves behind: whether it exited with status 0
    and the directories and files afterwards.  The log of the program's
    own writes is not the child's to change. *)
Definition after_child (fs : FS) (r : bool * FS) : bool * FS :=
  (fst r, mkFS (dirs (snd r)) (files (snd r)) (written fs)).

(** What a file opened in text mode gives to its reader (universal
    newlines): a carriage return together with the line feed that follows
    it, and a carriage return on its own, are read as one line feed. *)
Fixpoint universal (text : string) : string :=
  match text with
  | EmptyString => EmptyString
  | String a s' =>
      if Ascii.eqb a cr then
        match s' with
        | String b _ =>
            if Ascii.eqb b newline then universal s'
            else String newline (universal s')
        | EmptyString => nl
        end
      else String a (universal s')
  end.

(** The lines of a text that has been read: every line keeps its line
    feed; the last line has none when the text does not end in one. *)
Fixpoint lines (text : string) : list string :=
  match text with
  | EmptyString => []
  | String a s' =>
      if Ascii.eqb a newline then nl :: lines s'
      else match lines s' with
           | [] => [chr a]
           | h :: t => String a h :: t
           end
  end.

(** [f.readlines()], and [for line in f], of a file opened with
    [open(p)] or [open(p, 'r')] whose text is [text]. *)
Definition readlines (text : string) : list string :=
  lines (universal text).

(** [f.writelines(lines)] *)
Definition writelines (lines : list string) : string :=
  String.concat EmptyString lines.

End Sys.

(* ================================================================= *)
(** ** Methods that change the world and may raise *)

Module Run.
Import Sys.

Section Monad.
Variable World : Type.

(** A method either returns or raises; the world it leaves is there in
    both cases, which is what an [except] clause carries on with. *)
Inductive Res (A : Type) : Type :=
| Ok (a : A) (w : World)
| Raise (e : exn) (w : World).

Definition M (A : Type) : Type := World -> Res A.

Definition ret {A} (a : A) : M A := fun w => Ok a w.

Definition bind {A B} (m : M A) (k : A -> M B) : M B :=
  fun w => match m w with
           | Ok a w' => k a w'
           | Raise _ e w' => Raise _ e w'
           end.

Definition raise {A} (e : exn) : M A := fun w => Raise _ e w.

(** [try: m  except: pass] *)
Definition try_pass {A} (m : M A) : M unit :=
  fun w => match m w with
           | Ok _ w' => Ok tt w'
           | Raise _ _ w' => Ok tt w'
           end.

Definition when (c : bool) (m : M unit) : M unit :=
  if c then m else ret tt.

(** [for x in l: body(x)] *)
Fixpoint for_each {A} (l : list A) (body : A -> M unit) : M unit :=
  match l with
  | [] => ret tt
  | x :: rest => bind (body x) (fun _ => for_each rest body)
  end.
End Monad.

(** What a run left behind, whether it returned, and what it returned. *)
Definition world_of {World A} (r : Res World A) : World :=
  match r with Ok _ w => w | Raise _ _ w => w end.

Definition succeeded {World A} (r : Res World A) : bool :=
  match r with Ok _ _ => true | Raise _ _ _ => false end.

Definition value_of {World A} (r : Res World A) : option A :=
  match r with Ok a _ => Some a | Raise _ _ _ => None end.

Arguments Ok {World A} a w.
Arguments Raise {World A} e w.
Arguments ret {World A} a _.
Arguments bind {World A B} m k _.
Arguments raise {World A} e _.
Arguments try_pass {World A} m _.
Arguments when {World} c m _.
Arguments for_each {World A} l body _.

Declare Scope py_scope.
Delimit Scope py_scope with py.
Notation "x <- m ;; k" := (bind m (fun x => k))
  (at level 61, m at next level, right associativity) : py_scope.
Notation "m ;; k" := (bind m (fun _ => k))
  (at level 61, right associativity) : py_scope.

End Run.

(* ================================================================= *)
(** ** pycmake.py: [Build] of pycmake *)

Module Pycmake.
Import Py Sys Run.
Local Open Scope py_scope.

(** [BuildItem]: an item is identified by its name, and [__str__] and
    [__repr__] return that name. *)
Record BuildItem : Type := mkItem { name : string }.

(** [str(item)], which [str.format] applies to every field. *)
Definition str (i : BuildItem) : string := name i.

(** [Compiler]: a [BuildItem] with the attributes read here. *)
Record Compiler : Type := mkCompiler {
  cname : string;        (* [BuildItem.name] *)
  shortname : string;
  is_msvc : bool;        (* [shortname.startswith('vs')] *)
  path : string;
  c_compiler : string;
  msbuild : string       (* [self.vs.msbuild], for Visual Studio *)
}.

Definition cstr (c : Compiler) : string := cname c.

(** [Generator]; [sln] is the attribute that [cmd] sets on first use. *)
Record Generator : Type := mkGenerator {
  gname : string;
  num_jobs : string;             (* [str(self.num_jobs)] *)
  is_makefile : bool;
  is_ninja : bool;
  g_is_msvc : bool;
  sln : option string
}.

(** The attributes of a [Build], as they stand once [__init__] is through
    ([Generator.create_default] may have given the name of a Visual Studio
    compiler a suffix by then). *)
Record Build : Type := mkBuild {
  generator : Generator;
  system : BuildItem;
  architecture : BuildItem;
  buildtype : BuildItem;
  compiler : Compiler;
  variant : option BuildItem;     (* [None] when no variant is given *)
  projdir : string;
  buildroot : string;
  builddir : string;
  preload_file : string;
  installroot : string;
  installdir : string
}.

(** [Build._cat(sep, for_build_dir)].  [if self.variant:] tests the
    object, which is true of every [Variant] whatever its name. *)
Definition _cat (b : Build) (sep : string) (for_build_dir : bool) : string :=
  let s :=
    if is_msvc (compiler b) && for_build_dir
    then str (system b) ++ sep ++ str (architecture b) ++ sep
         ++ cstr (compiler b)
    else str (system b) ++ sep ++ str (architecture b) ++ sep
         ++ cstr (compiler b) ++ sep ++ str (buildtype b) in
  match variant b with
  | Some v => s ++ sep ++ str v
  | None => s
  end.

(** The tag that [__init__] puts in [self.builddir]. *)
Definition builddir_tag (b : Build) : string := _cat b "-" true.

(** The path assignments of [Build.__init__], on a build whose axes and
    generator are set: [abspath] is [os.path.abspath], [proj_root] is taken
    to exist (or [chkf] raises). *)
Definition init_paths (abspath : string -> string) (b : Build)
           (proj_root build_root install_root : string) : Build :=
  let builddir := abspath (path_join build_root (_cat b "-" true)) in
  let installroot := abspath install_root in
  mkBuild (generator b) (system b) (architecture b) (buildtype b)
          (compiler b) (variant b)
          proj_root
          (abspath build_root)
          builddir
          (path_join builddir "pycmake_preload.cmake")
          installroot
          (path_join installroot (_cat b "-" false)).

(** [Build.__repr__()], also the tag in [self.installdir]. *)
Definition __repr__ (b : Build) : string := _cat b "-" false.

(** What surrounds the program. *)
Record Tools : Type := mkTools {
  runsyscmd : string -> list string -> FS -> bool * FS;
                                (* working directory, argument vector *)
  glob_sln : string -> FS -> list string     (* [glob.glob("*.sln")] *)
}.

Record World : Type := mkWorld {
  fs : FS;
  trace : list (string * list string)   (* the [runsyscmd] calls so far *)
}.

Definition M := Run.M World.

Definition path_exists (p : string) : M bool :=
  fun w => Ok (exists_ (fs w) p) w.

Definition write_file (p text : string) : M unit :=
  fun w => Ok tt (mkWorld (write_text (fs w) p text) (trace w)).

Definition run (T : Tools) (cwd : string) (cmd : list string) : M unit :=
  fun w =>
    let '(ok, fs') := after_child (fs w) (runsyscmd T cwd cmd (fs w)) in
    let w' := mkWorld fs' (trace w ++ [(cwd, cmd)]) in
    if ok then Ok tt w' else Raise (CalledProcessError cmd) w'.

(** [Generator.configure_args()] *)
Definition configure_args (g : Generator) : list string :=
  if negb (String.eqb (gname g) EmptyString)
  then ["-G"; chr dquote ++ gname g ++ chr dquote]
  else [].

(** [Generator.cmd(targets, build)], run in directory [cwd] *)
Definition cmd (T : Tools) (g : Generator) (cwd : string)
           (targets : list string) (build : Build) : M (list string) :=
  if is_makefile g then
    ret (["make"; "-j"; num_jobs g] ++ targets)%list
  else if g_is_msvc g then
    sln <- match sln g with
           | Some f => ret f
           | None =>
               fun w => match glob_sln T cwd (fs w) with
                        | [f] => Ok f w
                        | _ => Raise (Exception
                            "there's more than one solution file in the project folder") w
                        end
           end ;;
    ret [msbuild (compiler build); sln;
         "/maxcpucount:" ++ num_jobs g;
         "/property:Configuration=" ++ str (buildtype build);
         "/target:" ++ join ";" targets]
  else
    ret (["cmake"; "--build"; "."; "--config"; str (buildtype build)]
         ++ map (fun t => ("--target " ++ t)%string) targets)%list.

(** [Build.create_dir()] *)
Definition create_dir (b : Build) : M unit :=
  fun w =>
    if negb (exists_ (fs w) (builddir b))
    then Ok tt (mkWorld (makedirs (fs w) (builddir b)) (trace w))
    else Ok tt w.

(** [Build.create_preload_file()]: the lines are collected in memory up
    to the call of [self._gather_flags()], which asks the generator for a
    method [compile_flags] that the class does not have. *)
Definition create_preload_file (b : Build) : M string :=
  create_dir b ;;
  raise (AttributeError
           "'Generator' object has no attribute 'compile_flags'").

(** [os.path.basename] of a path made by [path_join d name]. *)
Fixpoint basename_from (acc s : string) : string :=
  match s with
  | EmptyString => acc
  | String a s' =>
      if Ascii.eqb a "/" then basename_from s' s'
      else basename_from acc s'
  end.
Definition basename (p : string) : string := basename_from p p.

(** [Build.configure()] *)
Definition configure (T : Tools) (b : Build) : M unit :=
  create_dir b ;;
  e <- path_exists (preload_file b) ;;
  _ <- (if negb e then create_preload_file b else ret EmptyString) ;;
  let c := (["cmake"; "-C"; basename (preload_file b)]
            ++ configure_args (generator b) ++ [projdir b])%list in
  run T (builddir b) c ;;
  write_file (path_join (builddir b) "pycmake_configure.done")
             (join " " c ++ nl).

(** [Build.build(targets)] *)
Definition build (T : Tools) (b : Build) (targets : list string) : M unit :=
  create_dir b ;;
  e <- path_exists (path_join (builddir b) "pycmake_configure.done") ;;
  when (negb e) (configure T b) ;;
  let targets := if is_msvc (compiler b)
                    && Nat.eqb (List.length targets) 0
                 then ["ALL_BUILD"] else targets in
  c <- cmd T (generator b) (builddir b) targets b ;;
  run T (builddir b) c ;;
  write_file (path_join (builddir b) "pycmake_build.done")
             (join " " c ++ nl).

End Pycmake.

(* ================================================================= *)
(** ** cmake_sysinfo.py: the cache entry pattern *)

Module Re.
Import Py.

(** What the Python runtime contributes to the cache code: the platform
    test [util.in_windows()] and the parser of [re] replacement templates.
    A replacement without a backslash is taken literally by [re.sub]; one
    with a backslash goes through the template parser of the [re] module,
    which either rejects it ([re.error]) or yields the text to substitute
    as a function of the three groups of the match. *)
Record Platform : Type := mkPlatform {
  in_windows : bool;
  sre_parse_template : string -> option (string -> string -> string -> string)
}.

(** [s] cut at the first [c]: the text before it and the text after it. *)
Fixpoint cut (c : ascii) (s : string) : option (string * string) :=
  match s with
  | EmptyString => None
  | String a s' =>
      if Ascii.eqb a c then Some (EmptyString, s')
      else match cut c s' with
           | Some (x, y) => Some (String a x, y)
           | None => None
           end
  end.

(** The match of the pattern [_cache_entry] (start of text, a lazy
    group, a group made of a colon and a lazy run, an equals sign, a greedy
    group, end of text) at the start of
    [s]: groups 1, 2, 3 and what follows the match.  A dot stops at a
    newline and the end anchor holds at the end of [s] or before a final newline, so
    the first line of [s] must be all of [s] up to that newline; group 1
    is lazy and ends at the first colon, group 2 is lazy and ends at the
    next equals sign, group 3 takes the rest of the line. *)
Definition cache_entry (s : string)
  : option (string * string * string * string) :=
  let '(body, tail) :=
    match cut newline s with
    | Some (x, y) => (x, String newline y)
    | None => (s, EmptyString)
    end in
  if String.eqb tail EmptyString || String.eqb tail nl then
    match cut ":" body with
    | None => None
    | Some (g1, r) =>
        match cut "=" r with
        | None => None
        | Some (t, g3) => Some (g1, String ":" t, g3, tail)
        end
    end
  else None.

(** [re.match(_cache_entry, s)] as a test. *)
Definition matches (s : string) : bool :=
  match cache_entry s with Some _ => true | None => false end.

(** [re.sub(_cache_entry, r'\1', s)] and its siblings for groups 2 and 3:
    the match is replaced by the group, text that does not match is
    returned as it is. *)
Definition sub_group (k : nat) (s : string) : string :=
  match cache_entry s with
  | None => s
  | Some (g1, g2, g3, tail) =>
      (match k with 1 => g1 | 2 => g2 | _ => g3 end) ++ tail
  end.

(** The replacement template [r'\1\2=' + v]: parsed before any matching
    is tried. *)
Definition template (P : Platform) (v : string)
  : option (string -> string -> string -> string) :=
  if mem backslash v then sre_parse_template P v
  else Some (fun _ _ _ => v).

(** [re.sub(_cache_entry, r'\1\2=' + v, l)]; [None] is [re.error]. *)
Definition sub_value (P : Platform) (v l : string) : option string :=
  match template P v with
  | None => None
  | Some f =>
      match cache_entry l with
      | None => Some l
      | Some (g1, g2, g3, tail) =>
          Some (g1 ++ g2 ++ "=" ++ f g1 g2 g3 ++ tail)
      end
  end.

(** Python's [str.isspace] on the characters below 256. *)
Definition isspace (a : ascii) : bool :=
  let n := nat_of_ascii a in
  (Nat.leb 9 n && Nat.leb n 13) || (Nat.leb 28 n && Nat.leb n 32)
  || Nat.eqb n 133 || Nat.eqb n 160.

Fixpoint lstrip (s : string) : string :=
  match s with
  | EmptyString => EmptyString
  | String a s' => if isspace a then lstrip s' else s
  end.

Fixpoint rstrip (s : string) : string :=
  match s with
  | EmptyString => EmptyString
  | String a s' =>
      match rstrip s' with
      | EmptyString => if isspace a then EmptyString else chr a
      | r => String a r
      end
  end.

(** [s.strip()] *)
Definition strip (s : string) : string := rstrip (lstrip s).

(** [s[1:]] *)
Definition tail1 (s : string) : string :=
  match s with EmptyString => EmptyString | String _ s' => s' end.

End Re.

(* ================================================================= *)
(** ** cmake_sysinfo.py: [CMakeCache] *)

Module Cache.
Import Py Sys Re.

(** [CMakeCache.Var] *)
Record Var : Type := mkVar {
  name : string;
  val : string;
  vartype : string;
  vdirty : bool;            (* [Var.dirty] *)
  from_input : bool
}.

(** [Var.__init__] with its defaults spelled at the call sites. *)
Definition Var_init (name val vartype : string) (dirty from_input : bool)
  : Var := mkVar name val vartype dirty from_input.

(** The keyword arguments that [setvar] passes on to [Var.reset]. *)
Record Kwargs : Type := mkKwargs {
  force_dirty : bool;              (* absent means [False] *)
  kw_from_input : option bool      (* absent means [None] *)
}.

Definition no_kwargs : Kwargs := mkKwargs false None.
Definition input_kwargs : Kwargs := mkKwargs false (Some true).

(** [Var.reset(val, vartype, **kwargs)]: the variable afterwards and the
    returned flag. *)
Definition reset (self : Var) (val' vartype' : string) (kw : Kwargs)
  : Var * bool :=
  let fi := match kw_from_input kw with
            | Some b => b
            | None => from_input self
            end in
  if negb (String.eqb val' (val self))
     || negb (String.eqb vartype' (vartype self))
  then (mkVar (name self) val' vartype' true fi, true)
  else if force_dirty kw
       then (mkVar (name self) (val self) (vartype self) true fi, true)
       else (mkVar (name self) (val self) (vartype self) (vdirty self) fi,
             false).

(** The cache object: the dictionary and its own [dirty] attribute. *)
Record CMakeCache : Type := mkCache {
  items : odict Var;
  dirty : bool
}.

(** [loadvars(builddir)]: the variables of [builddir/CMakeCache.txt]. *)
Definition load_line (v : odict Var) (line : string) : odict Var :=
  if negb (matches line) then v
  else
    let ls := strip line in
    let name := sub_group 1 ls in
    let vartype := tail1 (sub_group 2 ls) in
    let value := sub_group 3 ls in
    set v name (Var_init name value vartype false false).

Definition loadvars (fs : FS) (builddir : option string)
  : exn + odict Var :=
  match builddir with
  | None => inr []
  | Some d =>
      if negb (exists_ fs d) then inr []
      else
        let c := path_join d "CMakeCache.txt" in
        if exists_ fs c then
          match files fs c with
          | None => inl (IOError c)
          | Some text => inr (fold_left load_line (readlines text) [])
          end
        else inr []
  end.

(** [CMakeCache.__init__(builddir)] *)
Definition CMakeCache_init (fs : FS) (builddir : option string)
  : exn + CMakeCache :=
  match loadvars fs builddir with
  | inl e => inl e
  | inr v => inr (mkCache v false)
  end.

(** [CMakeCache.setvar(name, val, vartype, **kwargs)] *)
Definition setvar (self : CMakeCache) (name val vartype : string)
           (kw : Kwargs) : CMakeCache * bool :=
  match get (items self) name with
  | Some v =>
      let '(v', changed) := reset v val vartype kw in
      (mkCache (set (items self) name v') (dirty self || changed), changed)
  | None =>
      let v := Var_init name val vartype true false in
      (mkCache (set (items self) name v) true, true)
  end.

(** The typed setters [b], [s], [p], [f] and [i]. *)
Definition b (self : CMakeCache) (name val : string) (kw : Kwargs) :=
  setvar self name val "BOOL" kw.

Definition s (self : CMakeCache) (name val : string) (kw : Kwargs) :=
  setvar self name val "STRING" kw.

Definition p (P : Platform) (self : CMakeCache) (name val : string)
           (kw : Kwargs) :=
  let val := if in_windows P then slashes val else val in
  setvar self name val "PATH" kw.

Definition f (P : Platform) (self : CMakeCache) (name val : string)
           (kw : Kwargs) :=
  let val := if in_windows P then slashes val else val in
  setvar self name val "FILEPATH" kw.

Definition i (self : CMakeCache) (name val : string) (kw : Kwargs) :=
  setvar self name val "INTERNAL" kw.

(** The inner loop of [setcachevars]: one line against every entry of
    [varvalues], in order, each on the line as rewritten so far. *)
Fixpoint setcachevars_line (P : Platform) (varvalues : odict string)
         (l : string) : option string :=
  match varvalues with
  | [] => Some l
  | (k, v) :: rest =>
      if startswith l (k ++ ":") then
        match sub_value P v l with
        | None => None
        | Some n => setcachevars_line P rest n
        end
      else setcachevars_line P rest l
  end.

Fixpoint setcachevars_lines (P : Platform) (varvalues : odict string)
         (ilines : list string) : option (list string) :=
  match ilines with
  | [] => Some []
  | l :: rest =>
      match setcachevars_line P varvalues l with
      | None => None
      | Some o =>
          match setcachevars_lines P varvalues rest with
          | None => None
          | Some os => Some (o :: os)
          end
      end
  end.

(** [setcachevars(builddir, varvalues)]: the file system afterwards. *)
Definition setcachevars (P : Platform) (fs : FS) (builddir : string)
           (varvalues : odict string) : exn + FS :=
  let c := path_join builddir "CMakeCache.txt" in
  match files fs c with
  | None => inl (IOError c)
  | Some text =>
      match setcachevars_lines P varvalues (readlines text) with
      | None => inl (re_error "bad escape")
      | Some olines => inr (write_text fs c (writelines olines))
      end
  end.

(** The dictionary [tmp] of [commit]: name and value of the dirty ones. *)
Definition dirty_values (d : odict Var) : odict string :=
  fold_left (fun tmp kv => if vdirty (snd kv)
                           then set tmp (name (snd kv)) (val (snd kv))
                           else tmp) d [].

Definition clear_dirty (d : odict Var) : odict Var :=
  map (fun kv => (fst kv,
                  let v := snd kv in
                  mkVar (name v) (val v) (vartype v) false (from_input v)))
      d.

(** [CMakeCache.commit(builddir)]: the cache and the file system
    afterwards and the returned flag; an exception leaves both as they
    were, since it comes before the file is opened for writing. *)
Definition commit (P : Platform) (self : CMakeCache) (fs : FS)
           (builddir : option string)
  : exn + (CMakeCache * FS * bool) :=
  match builddir with
  | None => inr (self, fs, false)
  | Some d =>
      if negb (dirty self)
         || negb (exists_ fs d)
         || negb (exists_ fs (path_join d "CMakeCache.txt"))
      then inr (self, fs, false)
      else
        match setcachevars P fs d (dirty_values (items self)) with
        | inl e => inl e
        | inr fs' =>
            inr (mkCache (clear_dirty (items self)) false, fs', true)
        end
  end.

End Cache.

(* ================================================================= *)
(** ** build.py: [Build] of cmany *)

Module Cmany.
Import Py Sys Re Cache Run.

(** *** Flags and axis values *)

(** A flag of a flag set: [f.get(compiler)] picks the Visual Studio form
    or the gcc-like one, as [CompileOption.get] does in pycmake.py. *)
Record CompileOption : Type := mkOption { gcclike : string; vs : string }.

Record FlagSet : Type := mkFlags {
  cflags : list CompileOption;
  cxxflags : list CompileOption;
  defines : list string;
  cmake_vars : list string        (* raw NAME[:TYPE]=VALUE assignments *)
}.

Definition no_flags : FlagSet := mkFlags [] [] [] [].

Record Item : Type := mkItem { iname : string; iflags : FlagSet }.

Record Compiler : Type := mkCompiler {
  cname : string;
  compiler_flags : FlagSet;
  is_msvc : bool;
  path : string;
  c_compiler : string
}.

Definition str (i : Item) : string := iname i.
Definition cstr (c : Compiler) : string := cname c.

Definition CompileOption_get (o : CompileOption) (c : Compiler) : string :=
  if is_msvc c then vs o else gcclike o.

(** *** The build object *)

(** The entries of [kwargs] that build.py reads. *)
Record BuildKwargs : Type := mkBuildKwargs {
  kw_deps : option string;          (* absent means [''] *)
  kw_deps_prefix : option string;
  export_compile : bool;
  with_conan : bool
}.

(** The attributes of a [Build].  The cache and the generator are
    objects that the build refers to: [varcache] and [generator] are their
    addresses in the store of the [World] below, so that a copy of the
    build refers to the same two objects. *)
Record Build : Type := mkBuild {
  kwargs : BuildKwargs;
  projdir : string;
  buildroot : string;
  installroot : string;
  flags : FlagSet;
  system : Item;
  architecture : Item;
  buildtype : Item;
  compiler : Compiler;
  variant : option Item;
  adjusted : bool;
  tag : string;
  buildtag : string;
  installtag : string;
  builddir : string;
  installdir : string;
  preload_file : string;
  cachefile : string;
  generator : nat;
  varcache : nat;
  deps : option string;
  deps_prefix : string
}.

(** The generator object: cmany's [Generator] class is in a file that
    build.py only imports; what build.py uses of it is the attribute
    [is_msvc], the back reference [build] that [handle_deps] assigns, and
    three methods that make argument vectors. *)
Record Generator : Type := mkGenerator {
  g_is_msvc : bool;
  g_build : Build
}.

(** What surrounds the program: the Python runtime, the clock, cmake's
    system information, child processes and the generator's methods.
    [CMakeSysInfo.var(name, generator)] is a function of the attributes
    that [CMakeSysInfo] has cached on its class and of the file system: it
    returns or raises, and it leaves the attributes and the file system,
    both of which it may have changed, and the [runsyscmd] calls that it
    made, oldest first. *)
Record Tools : Type := mkTools {
  platform : Platform;
  abspath : string -> string;                  (* [os.path.abspath] *)
  now : string;                                (* the formatted date *)
  sysinfo_var : string -> Generator -> odict (list string) -> FS
                -> (exn + string) * odict (list string) * FS
                   * list (string * list string);
  runsyscmd : string -> list string -> FS -> bool * FS;
                                (* working directory, argument vector *)
  conan_install : Build -> FS -> bool * FS;    (* [Conan().install] *)
  configure_args : Generator -> list string;
  gen_cmd : Generator -> list string -> list string;
  gen_install : Generator -> list string
}.

(** [Build._cat(sep)] *)
Definition _cat (b : Build) (sep : string) : string :=
  let s := str (system b) ++ sep ++ str (architecture b) ++ sep
           ++ cstr (compiler b) ++ sep ++ str (buildtype b) in
  match variant b with
  | Some v =>
      if truthy (iname v) && negb (String.eqb (iname v) "none")
      then s ++ sep ++ str v
      else s
  | None => s
  end.

(** [Build._set_paths()] *)
Definition _set_paths (T : Tools) (b : Build) : Build :=
  let tag := _cat b "-" in
  let buildtag := tag in
  let installtag := tag in
  let builddir := abspath T (path_join (buildroot b) buildtag) in
  let installdir := path_join (installroot b) installtag in
  mkBuild (kwargs b) (projdir b) (buildroot b) (installroot b) (flags b)
          (system b) (architecture b) (buildtype b) (compiler b)
          (variant b) (adjusted b)
          tag buildtag installtag builddir installdir
          (path_join builddir "cmany_preload.cmake")
          (path_join builddir "CMakeCache.txt")
          (generator b) (varcache b) (deps b) (deps_prefix b).

(** *** The world and the monad of the lifecycle *)

Record World : Type := mkWorld {
  fs : FS;
  caches : nat -> CMakeCache;         (* the [CMakeCache] objects *)
  gens : nat -> Generator;            (* the [Generator] objects *)
  trace : list (string * list string); (* the [runsyscmd] calls so far:
                                          directory and arguments *)
  sysinfo : odict (list string)       (* what [CMakeSysInfo] has cached on
                                         its class *)
}.

Definition M := Run.M World.
Local Open Scope py_scope.

Definition upd {V} (h : nat -> V) (l : nat) (v : V) : nat -> V :=
  fun l' => if Nat.eqb l' l then v else h l'.

Definition with_fs (w : World) (fs' : FS) : World :=
  mkWorld fs' (caches w) (gens w) (trace w) (sysinfo w).

Definition path_exists (p : string) : M bool :=
  fun w => Ok (exists_ (fs w) p) w.

Definition write_file (p text : string) : M unit :=
  fun w => Ok tt (with_fs w (write_text (fs w) p text)).

(** [util.runsyscmd(cmd)] inside [util.setcwd(cwd)]: the call is logged,
    the child process changes the file system, and a non-zero exit status
    is raised. *)
Definition run (T : Tools) (cwd : string) (cmd : list string) : M unit :=
  fun w =>
    let '(ok, fs') := after_child (fs w) (runsyscmd T cwd cmd (fs w)) in
    let w' := mkWorld fs' (caches w) (gens w) (trace w ++ [(cwd, cmd)])
                      (sysinfo w) in
    if ok then Ok tt w' else Raise (CalledProcessError cmd) w'.

(** [self.varcache] and [self.generator], read through the reference. *)
Definition the_cache (b : Build) : M CMakeCache :=
  fun w => Ok (caches w (varcache b)) w.

Definition the_generator (b : Build) : M Generator :=
  fun w => Ok (gens w (generator b)) w.

(** A method of the cache called on [self.varcache]: the object in the
    store is the one that changes. *)
Definition on_cache {A} (b : Build) (f : CMakeCache -> CMakeCache * A)
  : M A :=
  fun w =>
    let '(c', a) := f (caches w (varcache b)) in
    Ok a (mkWorld (fs w) (upd (caches w) (varcache b) c') (gens w)
                  (trace w) (sysinfo w)).

(** [self.varcache.commit(self.builddir)] *)
Definition varcache_commit (T : Tools) (b : Build) : M bool :=
  fun w =>
    match commit (platform T) (caches w (varcache b)) (fs w)
                 (Some (builddir b)) with
    | inl e => Raise e w
    | inr (c', fs', r) =>
        Ok r (mkWorld fs' (upd (caches w) (varcache b) c') (gens w)
                      (trace w) (sysinfo w))
    end.

(** *** Gathering the input variables *)

(** [Build._get_flagseq()] *)
Definition _get_flagseq (b : Build) : M (list FlagSet) :=
  match variant b with
  | None => raise (AttributeError "'NoneType' object has no attribute 'flags'")
  | Some v =>
      ret [flags b; iflags (system b); iflags (architecture b);
           compiler_flags (compiler b); iflags (buildtype b); iflags v]
  end.

(** The three ways in which [_gather_cmake_vars] reads an assignment
    [v]: the value is what follows the first [=] with any further [=]
    dropped by the join, and the part before it is split at the colons. *)
Inductive assignment : Type :=
| Untyped (name value : string)              (* one piece: NAME *)
| Typed (name value vartype : string)        (* two pieces: NAME:TYPE *)
| Unparsed.                                  (* three pieces or more *)

Definition parse_assignment (v : string) : assignment :=
  let spl := split "=" v in
  let vval := if Nat.ltb 1 (List.length spl)
              then join EmptyString (tl spl) else EmptyString in
  match split ":" (hd EmptyString spl) with
  | [n] => Untyped n vval
  | [n; t] => Typed n vval t
  | _ => Unparsed
  end.

(** The body of the inner loop of [_gather_cmake_vars].  The call for
    an untyped assignment gives [setvar] two positional arguments where
    its signature has three without a default. *)
Definition gather_cmake_var (b : Build) (v : string) : M unit :=
  match parse_assignment v with
  | Untyped _ _ =>
      raise (TypeError
        "setvar() missing 1 required positional argument: 'vartype'")
  | Typed n vval t =>
      _ <- on_cache b (fun c => setvar c n vval t input_kwargs) ;; ret tt
  | Unparsed =>
      raise (Exception ("could not parse variable value: " ++ v))
  end.

(** [Build._gather_cmake_vars()] *)
Definition _gather_cmake_vars (b : Build) : M unit :=
  flagseq <- _get_flagseq b ;;
  for_each flagseq (fun fs => for_each (cmake_vars fs) (gather_cmake_var b)).

(** [CMakeSysInfo.var(var_name, self.generator)], as a step: what it
    returns or raises is the value, and the world is the one it leaves. *)
Definition sysinfo_call (T : Tools) (b : Build) (var_name : string)
  : M (exn + string) :=
  fun w =>
    let '(r, attrs, fs', cmds) :=
      sysinfo_var T var_name (gens w (generator b)) (sysinfo w) (fs w) in
    Ok r (mkWorld fs' (caches w) (gens w) (trace w ++ cmds) attrs).

(** [Build._gather_flags(which, append_to_sysinfo_var, with_defines)];
    [which] names the attribute of the flag set that is read.  An
    exception of [CMakeSysInfo.var] is passed over, what it did before
    stays done. *)
Definition _gather_flags (T : Tools) (b : Build)
           (which : FlagSet -> list CompileOption)
           (append_to_sysinfo_var : string) (with_defines : bool)
  : M (list string) :=
  flags0 <- (if truthy append_to_sysinfo_var
             then r <- sysinfo_call T b append_to_sysinfo_var ;;
                  ret (match r with inr x => [x] | inl _ => [] end)
             else ret []) ;;
  flagseq <- _get_flagseq b ;;
  ret (fold_left
         (fun flags fs =>
            let flags := (flags ++ map (fun f => CompileOption_get f (compiler b))
                                       (which fs))%list in
            if with_defines then (flags ++ defines fs)%list else flags)
         flagseq flags0).

(** [Build.gather_input_cache_vars()] *)
Definition gather_input_cache_vars (T : Tools) (b : Build) : M unit :=
  let P := platform T in
  let _set {A} (pfn : CMakeCache -> string -> string -> Kwargs
                      -> CMakeCache * A) (pname pval : string) : M unit :=
    _ <- on_cache b (fun c => pfn c pname pval input_kwargs) ;; ret tt in
  _gather_cmake_vars b ;;
  g <- the_generator b ;;
  when (negb (g_is_msvc g))
       (_set (f P) "CMAKE_C_COMPILER" (c_compiler (compiler b)) ;;
        _set (f P) "CMAKE_CXX_COMPILER" (path (compiler b))) ;;
  _set s "CMAKE_BUILD_TYPE" (str (buildtype b)) ;;
  _set (p P) "CMAKE_INSTALL_PREFIX" (installdir b) ;;
  cflags <- _gather_flags T b cflags "CMAKE_C_FLAGS_INIT" true ;;
  when (match cflags with [] => false | _ => true end)
       (_set s "CMAKE_C_FLAGS" (join " " cflags)) ;;
  cxxflags <- _gather_flags T b cxxflags "CMAKE_CXX_FLAGS_INIT" true ;;
  when (match cxxflags with [] => false | _ => true end)
       (_set s "CMAKE_CXX_FLAGS" (join " " cxxflags)).

(** [os.path.isabs] *)
Definition isabs (p : string) : bool := startswith p "/".

(** [Build.__init__]: [gen_at] and [cache_at] are the addresses of the
    two objects it creates, [gen_msvc] the [is_msvc] of the generator that
    [Generator.create] returns.  The flags come in with their aliases
    resolved, the roots as absolute paths; [util.chkf] raises when the
    project directory is not there. *)
Definition Build_init (T : Tools) (kw : BuildKwargs)
           (proj_root build_root install_root : string)
           (system arch buildtype : Item) (compiler : Compiler)
           (variant : option Item) (flags : FlagSet)
           (gen_at cache_at : nat) (gen_msvc : bool) : M Build :=
  ok <- path_exists proj_root ;;
  if negb ok then raise (Exception ("path does not exist: " ++ proj_root))
  else
    let b0 := mkBuild kw proj_root (abspath T build_root)
                      (abspath T install_root) flags system arch buildtype
                      compiler variant false
                      EmptyString EmptyString EmptyString EmptyString
                      EmptyString EmptyString EmptyString
                      gen_at cache_at None EmptyString in
    let b1 := _set_paths T b0 in
    (fun w => Ok tt (mkWorld (fs w) (caches w)
                             (upd (gens w) gen_at (mkGenerator gen_msvc b1))
                             (trace w) (sysinfo w))) ;;
    _ <- match variant with
         | Some _ => ret tt
         | None => raise (AttributeError
                            "'NoneType' object has no attribute 'flags'")
         end ;;
    (fun w =>
       match CMakeCache_init (fs w) (Some (builddir b1)) with
       | inl e => Raise e w
       | inr c =>
           Ok tt (mkWorld (fs w) (upd (caches w) cache_at c) (gens w)
                          (trace w) (sysinfo w))
       end) ;;
    gather_input_cache_vars T b1 ;;
    let deps := match kw_deps kw with
                | Some d => if truthy d && negb (isabs d)
                            then Some (abspath T d) else Some d
                | None => Some EmptyString
                end in
    let deps_prefix :=
      match kw_deps_prefix kw with
      | Some d => let d := if truthy d && negb (isabs d)
                           then abspath T d else d in
                  if truthy d then d else builddir b1
      | None => builddir b1
      end in
    let b2 := mkBuild (kwargs b1) (projdir b1) (buildroot b1)
                      (installroot b1) (Cmany.flags b1) (Cmany.system b1)
                      (architecture b1) (Cmany.buildtype b1)
                      (Cmany.compiler b1) (Cmany.variant b1) (adjusted b1)
                      (tag b1) (buildtag b1) (installtag b1) (builddir b1)
                      (installdir b1) (preload_file b1) (cachefile b1)
                      (generator b1) (varcache b1) deps deps_prefix in
    (fun w => Ok b2 (mkWorld (fs w) (caches w)
                             (upd (gens w) gen_at (mkGenerator gen_msvc b2))
                             (trace w) (sysinfo w))).

(** *** The lifecycle *)

(** [Build.create_dir()] *)
Definition create_dir (b : Build) : M unit :=
  fun w =>
    if negb (exists_ (fs w) (builddir b))
    then Ok tt (with_fs w (makedirs (fs w) (builddir b)))
    else Ok tt w.

Definition q : string := chr dquote.

(** [Build.preload_file_tpl.format(date=..., vars=...)] *)
Definition preload_file_tpl (date vars : string) : string :=
  join nl
    ["# Do not edit. Will be overwritten.";
     "# Generated by cmany on " ++ date;
     EmptyString;
     "if(NOT _cmany_set_def)";
     "    set(_cmany_set_def ON)";
     "    function(_cmany_set var value type)";
     "        set(${var} " ++ q ++ "${value}" ++ q ++ " CACHE ${type} "
       ++ q ++ q ++ ")";
     "        message(STATUS " ++ q ++ "cmany: ${var}=${value}" ++ q ++ ")";
     "    endfunction(_cmany_set)";
     "endif(NOT _cmany_set_def)";
     EmptyString;
     "message(STATUS " ++ q ++ "cmany:preload----------------------" ++ q
       ++ ")";
     vars;
     "message(STATUS " ++ q ++ "cmany:preload----------------------" ++ q
       ++ ")";
     EmptyString;
     "# Do not edit. Will be overwritten.";
     "# Generated by cmany on " ++ date;
     EmptyString].

(** [Build.preload_file_tpl_empty.format(date=..., vars=...)] *)
Definition preload_file_tpl_empty (date vars : string) : string :=
  join nl
    ["# Do not edit. Will be overwritten.";
     "# Generated by cmany on " ++ date;
     EmptyString;
     "message(STATUS " ++ q ++ "cmany: nothing to preload..." ++ q ++ ")";
     EmptyString].

(** [Build.create_preload_file()] *)
Definition create_preload_file (T : Tools) (b : Build) : M string :=
  create_dir b ;;
  vc <- the_cache b ;;
  let lines :=
    map (fun kv => let v := snd kv in
                   "_cmany_set(" ++ name v ++ " " ++ q ++ val v ++ q
                   ++ " " ++ vartype v ++ ")")
        (filter (fun kv => from_input (snd kv)) (items vc)) in
  let tpl := match lines with
             | [] => preload_file_tpl_empty
             | _ => preload_file_tpl
             end in
  write_file (preload_file b) (tpl (now T) (join nl lines)) ;;
  ret (preload_file b).

(** [Build.configure_cmd()], with [for_json] at its default: the
    argument vector, given the generator object. *)
Definition configure_argv (T : Tools) (b : Build) (g : Generator)
  : list string :=
  let cmd := (["cmake"; "-C"; preload_file b] ++ configure_args T g)%list in
  let cmd := if export_compile (kwargs b)
             then (cmd ++ ["-DCMAKE_EXPORT_COMPILE_COMMANDS=1"])%list
             else cmd in
  (cmd ++ [projdir b])%list.

Definition configure_cmd (T : Tools) (b : Build) : M (list string) :=
  g <- the_generator b ;;
  ret (configure_argv T b g).

(** [Build.mark_configure_done(cmd)] *)
Definition mark_configure_done (b : Build) (cmd : list string) : M unit :=
  write_file (path_join (builddir b) "cmany_configure.done")
             (join " " cmd ++ nl).

(** [Build.needs_cache_regeneration()] *)
Definition needs_cache_regeneration (b : Build) : M bool :=
  e <- path_exists (cachefile b) ;;
  vc <- the_cache b ;;
  ret (e && dirty vc).

(** [Build.needs_configure()] *)
Definition needs_configure (b : Build) : M bool :=
  e <- path_exists (builddir b) ;;
  if negb e then ret true
  else
    d <- path_exists (path_join (builddir b) "cmany_configure.done") ;;
    if negb d then ret true
    else
      r <- needs_cache_regeneration b ;;
      if r then ret true else ret false.

(** [Build.mark_build_done(cmd)] *)
Definition mark_build_done (b : Build) (cmd : list string) : M unit :=
  write_file (path_join (builddir b) "cmany_build.done")
             (join " " cmd ++ nl).

(** [Build.needs_build()] *)
Definition needs_build (b : Build) : M bool :=
  e <- path_exists (builddir b) ;;
  if negb e then ret true
  else
    d <- path_exists (path_join (builddir b) "cmany_build.done") ;;
    if negb d then ret true
    else
      r <- needs_cache_regeneration b ;;
      if r then ret true else ret false.

(** [Build.deps_done] *)
Definition deps_done (b : Build) : M bool :=
  path_exists (path_join (builddir b) "cmany_deps.done").

(** [bool(x)] of a string or [None]. *)
Definition truthy_opt (x : option string) : bool :=
  match x with Some d => truthy d | None => false end.

(** [Build.mark_deps_done()] *)
Definition mark_deps_done (b : Build) : M unit :=
  let s1 := match deps b with
            | Some d => if truthy d then d ++ nl else EmptyString
            | None => EmptyString
            end in
  let s2 := if truthy (deps_prefix b) then deps_prefix b ++ nl
            else EmptyString in
  write_file (path_join (builddir b) "cmany_deps.done") (s1 ++ s2).

(** [Build.handle_conan()] *)
Definition handle_conan (T : Tools) (b : Build) : M unit :=
  if negb (with_conan (kwargs b)) then ret tt
  else
    fun w =>
      let cf := path_join (builddir b) "conanbuildinfo.cmake" in
      let doit :=
        existsb (fun fn => exists_ (fs w) (path_join (projdir b) fn)
                           && negb (exists_ (fs w) cf))
                ["conanfile.py"; "conanfile.txt"] in
      if negb doit then Ok tt w
      else
        let '(ok, fs') := after_child (fs w) (conan_install T b (fs w)) in
        if ok then Ok tt (with_fs w fs') else Raise ConanError (with_fs w fs').

(** The three methods that [handle_deps] calls on the copy. *)
Record Methods : Type := mkMethods {
  m_configure : Build -> M unit;
  m_build : Build -> list string -> M unit;
  m_install : Build -> M unit
}.

(** [dup = copy.copy(self)] followed by the five assignments to [dup]:
    every other attribute, the references [varcache] and [generator]
    among them, is the one of [self]. *)
Definition deps_copy (b : Build) (d : string) : Build :=
  mkBuild (kwargs b)
          d                                             (* dup.projdir *)
          (buildroot b) (installroot b) (flags b) (system b)
          (architecture b) (buildtype b) (compiler b) (variant b)
          (adjusted b) (tag b) (buildtag b) (installtag b)
          (path_join (builddir b) "cmany_deps-build")   (* dup.builddir *)
          (deps_prefix b)                               (* dup.installdir *)
          (path_join (builddir b) (preload_file b))     (* dup.preload_file *)
          (cachefile b) (generator b) (varcache b)
          None                                          (* dup.deps *)
          (deps_prefix b).

(** [dup.generator.build = dup] *)
Definition set_generator_build (dup : Build) : M unit :=
  fun w =>
    let g := gens w (generator dup) in
    Ok tt (mkWorld (fs w) (caches w)
                   (upd (gens w) (generator dup)
                        (mkGenerator (g_is_msvc g) dup))
                   (trace w) (sysinfo w)).

(** [Build.handle_deps()]; [inner] are the methods as the copy runs
    them. *)
Definition handle_deps (T : Tools) (inner : Methods) (b : Build) : M unit :=
  done <- deps_done b ;;
  if done then ret tt
  else if negb (truthy_opt (deps b)) then
    handle_conan T b ;;
    mark_deps_done b
  else
    let dup := deps_copy b (match deps b with
                            | Some d => d
                            | None => EmptyString
                            end) in
    set_generator_build dup ;;
    m_configure inner dup ;;
    m_build inner dup [] ;;
    try_pass (m_install inner dup) ;;
    _ <- on_cache b (fun c => p (platform T) c "CMAKE_PREFIX_PATH"
                                (installdir b) no_kwargs) ;;
    mark_deps_done b.

(** [Build.configure()] *)
Definition configure (T : Tools) (inner : Methods) (b : Build) : M unit :=
  create_dir b ;;
  _ <- create_preload_file T b ;;
  handle_deps T inner b ;;
  r <- needs_cache_regeneration b ;;
  _ <- (if r then varcache_commit T b else ret false) ;;
  cmd <- configure_cmd T b ;;
  run T (builddir b) cmd ;;
  mark_configure_done b cmd.

(** The loop of [build]: one [runsyscmd] for each target; the result is
    the last value of the variable [cmd], if the loop assigned it. *)
Fixpoint build_targets (T : Tools) (b : Build) (targets : list string)
         (cmd : option (list string)) : M (option (list string)) :=
  match targets with
  | [] => ret cmd
  | t :: rest =>
      g <- the_generator b ;;
      let cmd := gen_cmd T g [t] in
      run T (builddir b) cmd ;;
      build_targets T b rest (Some cmd)
  end.

(** The targets that [build] loops over. *)
Definition build_target_list (b : Build) (targets : list string)
  : list string :=
  if Nat.eqb (List.length targets) 0
  then if is_msvc (compiler b) then ["ALL_BUILD"] else ["all"]
  else targets.

(** [Build.build(targets)] *)
Definition build (T : Tools) (inner : Methods) (b : Build)
           (targets : list string) : M unit :=
  create_dir b ;;
  nc <- needs_configure b ;;
  when nc (configure T inner b) ;;
  handle_deps T inner b ;;
  cmd <- build_targets T b (build_target_list b targets) None ;;
  match cmd with
  | Some cmd => mark_build_done b cmd
  | None => raise (Exception "local variable 'cmd' referenced before assignment")
  end.

(** [Build.install()] *)
Definition install (T : Tools) (inner : Methods) (b : Build) : M unit :=
  create_dir b ;;
  nb <- needs_build b ;;
  when nb (build T inner b []) ;;
  g <- the_generator b ;;
  run T (builddir b) (gen_install T g).

(** The methods at nesting depth [n]: the copy that [handle_deps] makes
    runs the methods of depth [n - 1]; depth 0 stands for a nesting that is
    cut off. *)
Fixpoint methods (T : Tools) (n : nat) : Methods :=
  match n with
  | 0 => mkMethods (fun _ => raise (Exception "nesting too deep"))
                   (fun _ _ => raise (Exception "nesting too deep"))
                   (fun _ => raise (Exception "nesting too deep"))
  | S k => mkMethods (configure T (methods T k))
                     (build T (methods T k))
                     (install T (methods T k))
  end.

(** The methods of a build as the command line runs them: the copy has
    its [deps] cleared, so two levels are all there is (lemma
    [methods_depth] below). *)
Definition Build_configure (T : Tools) : Build -> M unit :=
  m_configure (methods T 2).
Definition Build_build (T : Tools) : Build -> list string -> M unit :=
  m_build (methods T 2).
Definition Build_install (T : Tools) : Build -> M unit :=
  m_install (methods T 2).
Definition Build_handle_deps (T : Tools) : Build -> M unit :=
  handle_deps T (methods T 1).

End Cmany.

(* ================================================================= *)
(** ** The lifecycle in terms of what is on disk and what was run *)

Module Lifecycle.
Import Py Sys Re Cache Run Cmany.
Local Open Scope py_scope.

(** The three marker files of a build directory. *)
Definition configure_done (b : Build) : string :=
  path_join (builddir b) "cmany_configure.done".
Definition build_done (b : Build) : string :=
  path_join (builddir b) "cmany_build.done".
Definition deps_marker (b : Build) : string :=
  path_join (builddir b) "cmany_deps.done".

(** The three reasons to configure, read off a world. *)
Definition configure_needed (b : Build) (w : World) : bool :=
  negb (exists_ (fs w) (builddir b))
  || negb (exists_ (fs w) (configure_done b))
  || (exists_ (fs w) (cachefile b) && dirty (caches w (varcache b))).

(** The world once the build directory is there. *)
Definition with_builddir (b : Build) (w : World) : World :=
  world_of (create_dir b w).

(** What [build] does before its loop over the targets. *)
Definition before_targets (T : Tools) (inner : Methods) (b : Build) : M unit :=
  create_dir b ;;
  nc <- needs_configure b ;;
  when nc (configure T inner b) ;;
  handle_deps T inner b.

(** One logged command per target, in order. *)
Definition target_cmds (T : Tools) (g : Generator) (dir : string)
           (targets : list string) : list (string * list string) :=
  map (fun t => (dir, gen_cmd T g [t])) targets.

(** The build has no dependency source. *)
Definition no_deps (b : Build) : Prop := truthy_opt (deps b) = false.

(** The value of a cache variable, if the cache has it. *)
Definition cache_value (w : World) (b : Build) (name : string)
  : option (string * string) :=
  option_map (fun v => (val v, vartype v))
             (get (items (caches w (varcache b))) name).

End Lifecycle.

(* ================================================================= *)
(** ** Sequences of cache operations, and what a commit writes *)

Module CacheOps.
Import Py Sys Re Cache.

(** The operations on a cache object; [Outside] stands for whatever other
    programs do to the file system between two calls. *)
Inductive op : Type :=
| Setvar (name val vartype : string) (kw : Kwargs)
| SetB (name val : string) (kw : Kwargs)
| SetS (name val : string) (kw : Kwargs)
| SetP (name val : string) (kw : Kwargs)
| SetF (name val : string) (kw : Kwargs)
| SetI (name val : string) (kw : Kwargs)
| Commit (builddir : option string)
| Outside (fs : FS).

(** One operation on the cache and the file system.  A commit that
    raises leaves both as they were. *)
Definition step (P : Platform) (st : CMakeCache * FS) (o : op)
  : CMakeCache * FS :=
  let '(c, fs) := st in
  match o with
  | Setvar n v t kw => (fst (setvar c n v t kw), fs)
  | SetB n v kw => (fst (b c n v kw), fs)
  | SetS n v kw => (fst (s c n v kw), fs)
  | SetP n v kw => (fst (p P c n v kw), fs)
  | SetF n v kw => (fst (f P c n v kw), fs)
  | SetI n v kw => (fst (i c n v kw), fs)
  | Commit d =>
      match commit P c fs d with
      | inr (c', fs', _) => (c', fs')
      | inl _ => (c, fs)
      end
  | Outside fs' => (c, fs')
  end.

Definition run_ops (P : Platform) (ops : list op) (st : CMakeCache * FS)
  : CMakeCache * FS :=
  fold_left (step P) ops st.

(** The disjunction of the dirty flags of the variables of a cache. *)
Definition any_dirty (d : odict Var) : bool :=
  existsb (fun kv => vdirty (snd kv)) d.

(** A line of the cache file after a commit that writes the values [tmp]:
    a line that is a record whose name has a value in [tmp] gets that value
    after its equals sign, and keeps its name, its type and its line end. *)
Definition rewritten (tmp : odict string) (l : string) : string :=
  match cache_entry l with
  | Some (g1, g2, g3, tail) =>
      match get tmp g1 with
      | Some v => g1 ++ g2 ++ "=" ++ v ++ tail
      | None => l
      end
  | None => l
  end.


(** The aggregate flag of a cache is the disjunction of the flags of its
    variables. *)
Definition invariant (c : CMakeCache) : Prop :=
  dirty c = any_dirty (items c).

(** The values to write are plain when they have distinct names without
    a colon and values without a backslash. *)
Definition plain_values (tmp : odict string) : Prop :=
  NoDup (map fst tmp)
  /\ forall k v, In (k, v) tmp -> mem ":" k = false /\ mem backslash v = false.


End CacheOps.

(* ================================================================= *)
(** ** Tags spelled out as joined components *)

Module TagSpec.
Import Py.

(** The leading identities of a build of pycmake, with and without the
    build type. *)
Definition pycmake_axes (b : Pycmake.Build) : list string :=
  [Pycmake.str (Pycmake.system b); Pycmake.str (Pycmake.architecture b);
   Pycmake.cstr (Pycmake.compiler b); Pycmake.str (Pycmake.buildtype b)].

Definition pycmake_axes_ide (b : Pycmake.Build) : list string :=
  [Pycmake.str (Pycmake.system b); Pycmake.str (Pycmake.architecture b);
   Pycmake.cstr (Pycmake.compiler b)].

(** The variant as a tag of pycmake shows it: whenever there is one. *)
Definition pycmake_variant (b : Pycmake.Build) : list string :=
  match Pycmake.variant b with Some v => [Pycmake.str v] | None => [] end.

Definition cmany_axes (b : Cmany.Build) : list string :=
  [Cmany.str (Cmany.system b); Cmany.str (Cmany.architecture b);
   Cmany.cstr (Cmany.compiler b); Cmany.str (Cmany.buildtype b)].

(** The variant as the tag of cmany shows it: present, named, and not
    named "none". *)
Definition cmany_variant (b : Cmany.Build) : list string :=
  match Cmany.variant b with
  | Some v =>
      if negb (String.eqb (Cmany.iname v) EmptyString)
         && negb (String.eqb (Cmany.iname v) "none")
      then [Cmany.iname v] else []
  | None => []
  end.

(** The tag as a function of the five identities alone. *)
Definition tag_of (system architecture compiler buildtype : string)
           (variant : option string) : string :=
  join "-" ([system; architecture; compiler; buildtype]
            ++ match variant with
               | Some v => if negb (String.eqb v EmptyString)
                              && negb (String.eqb v "none")
                           then [v] else []
               | None => []
               end)%list.

End TagSpec.

(* ================================================================= *)
(** ** Sample values *)

Module Sample.
Import Py Sys Re Cache.

Definition linux : Pycmake.BuildItem := Pycmake.mkItem "linux".
Definition windows : Pycmake.BuildItem := Pycmake.mkItem "windows".
Definition x86_64 : Pycmake.BuildItem := Pycmake.mkItem "x86_64".
Definition Release : Pycmake.BuildItem := Pycmake.mkItem "Release".

Definition py_gcc : Pycmake.Compiler :=
  Pycmake.mkCompiler "gcc5.4" "gcc" false "/usr/bin/g++" "/usr/bin/gcc"
                     EmptyString.

Definition py_make : Pycmake.Generator :=
  Pycmake.mkGenerator "Unix Makefiles" "4" true false false None.

(** A build of pycmake with gcc and a variant named "none". *)
Definition py_build_none : Pycmake.Build :=
  Pycmake.mkBuild py_make linux x86_64 Release py_gcc
                  (Some (Pycmake.mkItem "none"))
                  "/proj" "/build" "/build/linux-x86_64-gcc5.4-Release-none"
                  "/build/linux-x86_64-gcc5.4-Release-none/pycmake_preload.cmake"
                  "/install" "/install/linux-x86_64-gcc5.4-Release-none".

Definition item (n : string) : Cmany.Item := Cmany.mkItem n Cmany.no_flags.

Definition gcc : Cmany.Compiler :=
  Cmany.mkCompiler "gcc5.4" Cmany.no_flags false "/usr/bin/g++" "/usr/bin/gcc".

Definition vs2015 : Cmany.Compiler :=
  Cmany.mkCompiler "vs2015" Cmany.no_flags true "cl.exe" "cl.exe".

Definition no_kw : Cmany.BuildKwargs :=
  Cmany.mkBuildKwargs None None false false.

(** A build record with the axes given and nothing else set. *)
Definition bare (sys arch bt : string) (c : Cmany.Compiler)
           (v : option string) : Cmany.Build :=
  Cmany.mkBuild no_kw "/proj" "/build" "/install" Cmany.no_flags
                (item sys) (item arch) (item bt) c
                (option_map item v) false
                EmptyString EmptyString EmptyString EmptyString EmptyString
                EmptyString EmptyString 0 0 None EmptyString.

(** A runtime on a POSIX system whose template parser rejects every
    template with a backslash. *)
Definition posix : Platform := mkPlatform false (fun _ => None).

(** cmake as a child process: a configure run leaves a [CMakeCache.txt]
    in its working directory; every command exits with status 0. *)
Definition cmake (cwd : string) (cmd : list string) (fs : FS) : bool * FS :=
  match cmd with
  | "cmake" :: "-C" :: _ =>
      (true, write_text fs (path_join cwd "CMakeCache.txt")
                        ("CMAKE_BUILD_TYPE:STRING=Release" ++ nl))
  | _ => (true, fs)
  end.

(** A [CMakeSysInfo.var] that does not find the variable it is asked
    for, and does nothing else. *)
Definition no_sysinfo (var_name : string) (g : Cmany.Generator)
           (attrs : odict (list string)) (fs : FS)
  : (exn + string) * odict (list string) * FS * list (string * list string) :=
  (inl (TypeError "can only concatenate str (not Generator) to str"),
   attrs, fs, []).

Definition tools : Cmany.Tools :=
  Cmany.mkTools posix (fun p => p) "2017/01/01 00:00" no_sysinfo cmake
                (fun _ fs => (true, fs))
                (fun _ => ["-G"; "Unix Makefiles"])
                (fun _ ts => "make" :: ts)
                (fun _ => ["make"; "install"]).

(** A build directory with a cache file of two records and a comment. *)
Definition cache_text : string :=
  "X:STRING=1" ++ nl ++ "# a comment" ++ nl ++ "Y:BOOL=ON" ++ nl.

Definition cache_fs : FS :=
  write_text (makedirs empty_fs "/b") "/b/CMakeCache.txt" cache_text.



(** The cache that [CMakeCache("/b")] loads from it. *)
Definition loaded : CMakeCache :=
  mkCache [("X", mkVar "X" "1" "STRING" false false);
           ("Y", mkVar "Y" "ON" "BOOL" false false)] false.

(** A world with the project directory and nothing else. *)
Definition w0 : Cmany.World :=
  Cmany.mkWorld (makedirs (makedirs empty_fs "/proj") "/deps")
                (fun _ => mkCache [] false)
                (fun _ => Cmany.mkGenerator false
                            (bare EmptyString EmptyString EmptyString gcc None))
                [] [].

(** [Build(...)] for linux, x86_64, gcc and Release in that world. *)
Definition construct (T : Cmany.Tools) (kw : Cmany.BuildKwargs)
           (variant : string) : Run.Res Cmany.World Cmany.Build :=
  Cmany.Build_init T kw "/proj" "/build" "/install" (item "linux")
                   (item "x86_64") (item "Release") gcc (Some (item variant))
                   Cmany.no_flags 0 0 false w0.

(** The build that [construct tools no_kw "none"] returns. *)
Definition fresh_build : Cmany.Build :=
  Cmany.mkBuild no_kw "/proj" "/build" "/install" Cmany.no_flags
                (item "linux") (item "x86_64") (item "Release") gcc
                (Some (item "none")) false
                "linux-x86_64-gcc5.4-Release" "linux-x86_64-gcc5.4-Release"
                "linux-x86_64-gcc5.4-Release"
                "/build/linux-x86_64-gcc5.4-Release"
                "/install/linux-x86_64-gcc5.4-Release"
                "/build/linux-x86_64-gcc5.4-Release/cmany_preload.cmake"
                "/build/linux-x86_64-gcc5.4-Release/CMakeCache.txt"
                0 0 (Some EmptyString) "/build/linux-x86_64-gcc5.4-Release".

(** The same with a dependency source. *)
Definition deps_kw : Cmany.BuildKwargs :=
  Cmany.mkBuildKwargs (Some "/deps") None false false.

Definition deps_build : Cmany.Build :=
  Cmany.mkBuild deps_kw "/proj" "/build" "/install" Cmany.no_flags
                (item "linux") (item "x86_64") (item "Release") gcc
                (Some (item "none")) false
                "linux-x86_64-gcc5.4-Release" "linux-x86_64-gcc5.4-Release"
                "linux-x86_64-gcc5.4-Release"
                "/build/linux-x86_64-gcc5.4-Release"
                "/install/linux-x86_64-gcc5.4-Release"
                "/build/linux-x86_64-gcc5.4-Release/cmany_preload.cmake"
                "/build/linux-x86_64-gcc5.4-Release/CMakeCache.txt"
                0 0 (Some "/deps") "/build/linux-x86_64-gcc5.4-Release".

(** Tools with which the dependency has no install target: the install
    command exits with a non-zero status. *)
Definition tools_no_install : Cmany.Tools :=
  Cmany.mkTools posix (fun p => p) "2017/01/01 00:00" no_sysinfo
                (fun cwd cmd fs =>
                   match cmd with
                   | ["make"; "install"] => (false, fs)
                   | _ => cmake cwd cmd fs
                   end)
                (fun _ fs => (true, fs))
                (fun _ => ["-G"; "Unix Makefiles"])
                (fun _ ts => "make" :: ts)
                (fun _ => ["make"; "install"]).

(** pycmake: a build with gcc and makefiles in a configured directory. *)
Definition py_build : Pycmake.Build :=
  Pycmake.mkBuild py_make linux x86_64 Release py_gcc None
                  "/proj" "/build" "/build/linux-x86_64-gcc5.4-Release"
                  "/build/linux-x86_64-gcc5.4-Release/pycmake_preload.cmake"
                  "/install" "/install/linux-x86_64-gcc5.4-Release".

Definition py_tools : Pycmake.Tools :=
  Pycmake.mkTools (fun _ _ fs => (true, fs)) (fun _ _ => []).

Definition py_w0 : Pycmake.World :=
  Pycmake.mkWorld
    (write_text (makedirs empty_fs "/build/linux-x86_64-gcc5.4-Release")
                "/build/linux-x86_64-gcc5.4-Release/pycmake_configure.done"
                EmptyString)
    [].

End Sample.

(* ================================================================= *)
(** ** Runs on the sample values *)

Module SampleRuns.
Import Py Sys Re Cache CacheOps Run Cmany Lifecycle.
Local Open Scope py_scope.

(** The sample cache after [X] is set to 2. *)
Definition changed : CMakeCache :=
  fst (setvar Sample.loaded "X" "2" "STRING" no_kwargs).


(** The world in which the sample build has just been constructed. *)
Definition fresh_world : World :=
  world_of (Sample.construct Sample.tools Sample.no_kw "none").

(** That world after a configure, and after a build of two targets. *)
Definition configured_world : World :=
  world_of (configure Sample.tools (methods Sample.tools 1)
                      Sample.fresh_build fresh_world).

Definition built_world : World :=
  world_of (build Sample.tools (methods Sample.tools 1) Sample.fresh_build
                  ["a"; "b"] fresh_world).

(** The world in which the sample build with a dependency source has
    just been constructed, and the copy that [handle_deps] makes of it. *)
Definition deps_world : World :=
  world_of (Sample.construct Sample.tools_no_install Sample.deps_kw "none").

Definition dup : Build := deps_copy Sample.deps_build "/deps".

(** The same once the parent's cache file and a cache file of the
    dependency are both there, and after a configure of the copy. *)
Definition both_caches : World :=
  with_fs deps_world
    (write_text
       (write_text (fs deps_world) (cachefile Sample.deps_build)
                   Sample.cache_text)
       (path_join (builddir dup) "CMakeCache.txt")
       ("CMAKE_BUILD_TYPE:STRING=Debug" ++ nl)).

Definition dup_configured : World :=
  world_of (configure Sample.tools (methods Sample.tools 1) dup both_caches).

End SampleRuns.

(* ================================================================= *)
(** ** Exceptions of dictionary lookups *)

Module Raising.
Import Sys.

(** What the readers and helpers below raise: one of the exceptions
    above, the [KeyError] of a dictionary lookup, or what [str.format]
    raises on a format string that it cannot fill. *)
Inductive error : Type :=
| Raised (e : exn)
| KeyError (key : string)
| ValueError (msg : string)
| IndexError (msg : string).

End Raising.

(* ================================================================= *)
(** ** cmake_sysinfo.py: reading and writing single cache variables *)

Module CacheFile.
Import Py Sys Re Cache Raising.

(** [setcachevar(builddir, var, value)] *)
Definition setcachevar (P : Platform) (fs : FS) (builddir var value : string)
  : exn + FS :=
  setcachevars P fs builddir [(var, value)].

(** The inner loop of [getcachevars]: one line against every prefix of
    [vlist]. *)
Definition getcachevars_line (vlist : list string) (values : odict string)
           (line : string) : odict string :=
  fold_left (fun values v =>
               if startswith line v then
                 let ls := strip line in
                 let vt := sub_group 1 ls in
                 set values vt (sub_group 3 ls)
               else values)
            vlist values.

(** [getcachevars(builddir, varlist)] *)
Definition getcachevars (fs : FS) (builddir : string) (varlist : list string)
  : exn + odict string :=
  let vlist := map (fun v => v ++ ":") varlist in
  let c := path_join builddir "CMakeCache.txt" in
  match files fs c with
  | None => inl (IOError c)
  | Some text => inr (fold_left (getcachevars_line vlist) (readlines text) [])
  end.

(** [getcachevar(builddir, var)] *)
Definition getcachevar (fs : FS) (builddir var : string) : error + string :=
  match getcachevars fs builddir [var] with
  | inl e => inl (Raised e)
  | inr v =>
      match get v var with
      | Some x => inr x
      | None => inl (KeyError var)
      end
  end.

(** [CMakeCache.getvars(names)]: [self.get(n)] is [None] for a name that
    the cache does not have. *)
Definition getvars (self : CMakeCache) (names : list string)
  : odict (option Var) :=
  fold_left (fun out n => set out n (get (items self) n)) names [].

(** [Var.__str__()] and [Var.__repr__()] *)
Definition __str__ (v : Var) : string :=
  name v ++ ":" ++ vartype v ++ "=" ++ val v.

(** A variable as [loadvars] makes it: neither dirty nor from the input. *)
Definition loaded (v : Var) : Var :=
  Var_init (name v) (val v) (vartype v) false false.

(** A variable that can be written as one record of a cache file and read
    back: the name has no colon and does not begin with white space, the
    type has no equals sign, the value does not end in white space, and
    none of them has a line feed or a carriage return. *)
Definition printable (v : Var) : bool :=
  negb (mem ":" (name v)) && negb (mem newline (name v))
  && String.eqb (lstrip (name v)) (name v)
  && negb (mem "=" (vartype v)) && negb (mem newline (vartype v))
  && negb (mem newline (val v)) && String.eqb (rstrip (val v)) (val v)
  && negb (mem cr (name v)) && negb (mem cr (vartype v))
  && negb (mem cr (val v)).

End CacheFile.

(* ================================================================= *)
(** ** More of Python's string methods *)

Module Text.
Import Py.

(** [s.lstrip(c)] and [s.rstrip(c)] for a one-character argument. *)
Fixpoint lstrip_c (c : ascii) (s : string) : string :=
  match s with
  | EmptyString => EmptyString
  | String a s' => if Ascii.eqb a c then lstrip_c c s' else s
  end.

Fixpoint rstrip_c (c : ascii) (s : string) : string :=
  match s with
  | EmptyString => EmptyString
  | String a s' =>
      match rstrip_c c s' with
      | EmptyString => if Ascii.eqb a c then EmptyString else chr a
      | r => String a r
      end
  end.

(** [s.strip(c)] *)
Definition strip_c (c : ascii) (s : string) : string :=
  rstrip_c c (lstrip_c c s).

(** What follows the prefix [p] in [l], when [l] starts with [p]. *)
Fixpoint strip_prefix (p l : string) : option string :=
  match p with
  | EmptyString => Some l
  | String a p' =>
      match l with
      | String b l' => if Ascii.eqb a b then strip_prefix p' l' else None
      | EmptyString => None
      end
  end.

(** [s] cut at the last [c]: the text before it and the text after it. *)
Fixpoint rcut (c : ascii) (s : string) : option (string * string) :=
  match s with
  | EmptyString => None
  | String a s' =>
      match rcut c s' with
      | Some (x, y) => Some (String a x, y)
      | None => if Ascii.eqb a c then Some (EmptyString, s') else None
      end
  end.

(** A letter of the ASCII alphabet, a digit or an underscore: the
    characters that a regular expression takes for themselves. *)
Definition word_char (a : ascii) : bool :=
  let n := nat_of_ascii a in
  (Nat.leb 48 n && Nat.leb n 57) || (Nat.leb 65 n && Nat.leb n 90)
  || (Nat.leb 97 n && Nat.leb n 122) || Nat.eqb n 95.

Fixpoint word (s : string) : bool :=
  match s with
  | EmptyString => true
  | String a s' => word_char a && word s'
  end.

End Text.

(* ================================================================= *)
(** ** cmake_sysinfo.py: [CMakeSysInfo], and its twin in pycmake.py *)

Module SysInfo.
Import Py Sys Re Run Text Raising.

(** The match of the pattern that [_getstr] builds from [var_name]
    (start of text, the name, a space, a double quote, a greedy group, a
    double quote), tried at the start of [l], and the result of replacing
    it with its group: the group runs up to the last double quote of the
    first line of [l], and what follows that quote stays.  This is the
    reading of the pattern when the name is a [word]. *)
Definition quoted (var_name l : string) : option string :=
  match strip_prefix (var_name ++ " " ++ chr dquote) l with
  | None => None
  | Some r =>
      let '(body, tail) :=
        match cut newline r with
        | Some (x, y) => (x, String newline y)
        | None => (r, EmptyString)
        end in
      match rcut dquote body with
      | Some (g1, after) => Some (g1 ++ after ++ tail)
      | None => None
      end
  end.

(** [re.match(regex, l)] followed by [re.sub(regex, r'\1', l)]:
    [re.error], no match, or the text.  A name that is not a [word] is
    the business of the [re] module, [engine]. *)
Definition match_sub (engine : string -> string -> exn + option string)
           (var_name l : string) : exn + option string :=
  if word var_name then inr (quoted var_name l) else engine var_name l.

(** The loop of [_getstr] over the lines of the information. *)
Fixpoint find_var (engine : string -> string -> exn + option string)
         (var_name : string) (info : list string) : exn + option string :=
  match info with
  | [] => inr None
  | l :: rest =>
      if startswith l var_name then
        let l := rstrip_c " " (lstrip_c " " (strip_c newline l)) in
        match match_sub engine var_name l with
        | inl e => inl e
        | inr (Some s) => inr (Some s)
        | inr None => find_var engine var_name rest
        end
      else find_var engine var_name rest
  end.

(** [CMakeSystemInformation._getstr] of pycmake.py, given the lines that
    [info(which_generator)] returns. *)
Definition pycmake_getstr (engine : string -> string -> exn + option string)
           (var_name : string) (info : list string) : exn + string :=
  match find_var engine var_name info with
  | inl e => inl e
  | inr (Some s) => inr s
  | inr None =>
      inl (Exception ("could not find variable " ++ var_name
                      ++ " in the output of `cmake --system-information`"))
  end.

(** The exception of cmany's [_getstr]: the name of the generator is
    appended to the message before [str.format] fills in the name of the
    variable.  A generator whose name has no brace is plain text to
    [str.format]; one whose name has a brace is a format string of its own
    and the business of [str.format], [format], which gives the text or
    raises [ValueError], [IndexError] or [KeyError]. *)
Definition not_found (format : string -> string -> error + string)
           (var_name which_generator : string) : error :=
  if mem "{" which_generator || mem "}" which_generator then
    match format ("could not find variable {} in the output of "
                  ++ "`cmake --system-information` for generator "
                  ++ which_generator) var_name with
    | inl e => e
    | inr msg => Raised (Exception msg)
    end
  else
    Raised (Exception ("could not find variable " ++ var_name
                       ++ " in the output of `cmake --system-information`"
                       ++ " for generator " ++ which_generator)).

(** [CMakeSysInfo._getstr] of cmake_sysinfo.py, for a generator given by
    name and the lines that [info(which_generator)] returns. *)
Definition _getstr (engine : string -> string -> exn + option string)
           (format : string -> string -> error + string)
           (var_name which_generator : string) (info : list string)
  : error + string :=
  match find_var engine var_name info with
  | inl e => inl (Raised e)
  | inr (Some s) => inr s
  | inr None => inl (not_found format var_name which_generator)
  end.

(** [re.sub(r'[() ]', '_', p)] *)
Fixpoint _genid (p : string) : string :=
  match p with
  | EmptyString => EmptyString
  | String a p' =>
      String (if Ascii.eqb a "(" || Ascii.eqb a ")" || Ascii.eqb a " "
              then "_"%char else a)
             (_genid p')
  end.

(** What surrounds [system_info]: the directory [CMANY_DIR], the alias
    table of Visual Studio, and cmake as a child process whose output is
    captured ([None] for a non-zero exit status). *)
Record Tools : Type := mkTools {
  CMANY_DIR : string;
  vsinfo_to_gen : string -> exn + string;
  runsyscmd : string -> list string -> FS -> option string * FS
}.

Record World : Type := mkWorld {
  fs : FS;
  trace : list (string * list string)
}.

Definition M := Run.M World.
Local Open Scope py_scope.

(** The file in which the information on a generator is kept. *)
Definition info_dir (T : Tools) (gen : string) : string :=
  path_join (path_join (CMANY_DIR T) "cmake_info") (_genid gen).

Definition info_file (T : Tools) (gen : string) : string :=
  path_join (info_dir T gen) "info".

(** The command of [system_info] for a generator given by name. *)
Definition info_cmd (T : Tools) (gen : string) : exn + list string :=
  if String.eqb gen "default" || String.eqb gen EmptyString
  then inr ["cmake"; "--system-information"]
  else
    match (if startswith gen "vs" || startswith gen "Visual Studio"
           then vsinfo_to_gen T gen else inr gen) with
    | inl e => inl e
    | inr g => inr ["cmake"; "-G"; g; "--system-information"]
    end.

(** [CMakeSysInfo.system_info(gen)] for a generator given by name. *)
Definition system_info (T : Tools) (gen : string) : M (list string) :=
  let d := info_dir T gen in
  let p := info_file T gen in
  fun w =>
    if exists_ (fs w) p then
      match files (fs w) p with
      | Some text => Ok (readlines text) w
      | None => Raise (IOError p) w
      end
    else
      match info_cmd T gen with
      | inl e => Raise e w
      | inr cmd =>
          let fs1 := if negb (exists_ (fs w) d) then makedirs (fs w) d
                     else fs w in
          let '(out, fs2) := runsyscmd T d cmd fs1 in
          let fs2 := mkFS (dirs fs2) (files fs2) (written fs1) in
          let w2 := mkWorld fs2 (trace w ++ [(d, cmd)]) in
          match out with
          | None => Raise (CalledProcessError cmd) w2
          | Some out =>
              Ok (split newline out)
                 (mkWorld (write_text fs2 p out) (trace w2))
          end
      end.

End SysInfo.

(* ================================================================= *)
(** ** build.py: cleaning, and what the input leaves in the cache *)

Module Upkeep.
Import Py Sys Re Cache Run Cmany Lifecycle.
Local Open Scope py_scope.

(** [os.remove(p)]: [p] must be a regular file. *)
Definition os_remove (p : string) : M unit :=
  fun w =>
    match dirs (fs w) p, files (fs w) p with
    | false, Some _ => Ok tt (with_fs w (remove (fs w) p))
    | _, _ => Raise (IOError p) w
    end.

(** [Build.clean()] *)
Definition clean (T : Tools) (b : Build) : M unit :=
  create_dir b ;;
  g <- the_generator b ;;
  run T (builddir b) (gen_cmd T g ["clean"]) ;;
  os_remove (path_join (builddir b) "cmany_build.done").

(** The three reasons to build, read off a world. *)
Definition build_needed (b : Build) (w : World) : bool :=
  negb (exists_ (fs w) (builddir b))
  || negb (exists_ (fs w) (build_done b))
  || (exists_ (fs w) (cachefile b) && dirty (caches w (varcache b))).

(** A path as the setters [p] and [f] store it. *)
Definition stored (T : Tools) (v : string) : string :=
  if in_windows (platform T) then slashes v else v.

(** The flag sets of a build with the variant [v], in the order of
    [_get_flagseq]. *)
Definition flagseq (b : Build) (v : Item) : list FlagSet :=
  [flags b; iflags (system b); iflags (architecture b);
   compiler_flags (compiler b); iflags (buildtype b); iflags v].

(** Two worlds that differ in their caches at most, and in the cache of
    one build at most. *)
Definition same_but_caches (w w' : World) : Prop :=
  fs w' = fs w /\ gens w' = gens w /\ trace w' = trace w
  /\ sysinfo w' = sysinfo w.

Definition only_this_cache (b : Build) (w w' : World) : Prop :=
  same_but_caches w w'
  /\ forall k, k <> varcache b -> caches w' k = caches w k.

(** What one flag set contributes to [_gather_flags]. *)
Definition flags_of (b : Build) (which : FlagSet -> list CompileOption)
           (with_defines : bool) (fs : FlagSet) : list string :=
  (map (fun o => CompileOption_get o (compiler b)) (which fs)
   ++ if with_defines then defines fs else [])%list.

End Upkeep.

(* ================================================================= *)
(** ** pycmake.py: the helpers at the top of the file *)

Module Util.
Import Py Sys Run Text Raising.

(** What [which] reads of the process: [System.default_str()], which
    asks cmake and may raise, the variable [PATH] of the environment if it
    is set, [os.pathsep] and [os.path.join]. *)
Record Env : Type := mkEnv {
  default_system : exn + string;
  environ_PATH : option string;
  pathsep : ascii;
  os_path_join : string -> string -> string
}.

(** The paths that the two loops of [which] try, in order. *)
Definition candidates (E : Env) (exts : list string) (cmd path_var : string)
  : list string :=
  flat_map (fun path => map (fun e => os_path_join E path (cmd ++ e)) exts)
           (split (pathsep E) path_var).

(** [which(cmd)].  On a system that is not Windows [exts] is the empty
    string, and a loop over the characters of the empty string has no
    round. *)
Definition which (E : Env) (fs : FS) (cmd : string) : error + option string :=
  if exists_ fs cmd then inr (Some cmd)
  else
    match default_system E with
    | inl e => inl (Raised e)
    | inr s =>
        let exts := if String.eqb s "windows"
                    then [EmptyString; ".exe"; ".bat"] else [] in
        match environ_PATH E with
        | None => inl (KeyError "PATH")
        | Some p => inr (find (exists_ fs) (candidates E exts cmd p))
        end
    end.

(** [cmember(obj, name, function)]: the state is the attributes of [obj]
    and whatever else [function] may change. *)
Definition cmember {V X : Type} (name : string)
           (function : Run.M (odict V * X) V) : Run.M (odict V * X) V :=
  fun st =>
    match get (fst st) name with
    | Some val => Ok val st
    | None =>
        match function st with
        | Ok val st' => Ok val (set (fst st') name val, snd st')
        | Raise e st' => Raise e st'
        end
    end.

(** [cslist(arg)] *)
Definition cslist (arg : string) : list string := split "," arg.

End Util.

(* ================================================================= *)
(** ** pycmake.py: systems, architectures, compile options *)

Module Axes.
Import Py Sys Text.

(** [str.lower] on the characters that a byte can hold: the letters of
    the ASCII alphabet and the capital letters of Latin-1. *)
Definition lower_char (a : ascii) : ascii :=
  let n := nat_of_ascii a in
  if (Nat.leb 65 n && Nat.leb n 90) || (Nat.leb 192 n && Nat.leb n 214)
     || (Nat.leb 216 n && Nat.leb n 222)
  then ascii_of_nat (n + 32) else a.

Fixpoint lower (s : string) : string :=
  match s with
  | EmptyString => EmptyString
  | String a s' => String (lower_char a) (lower s')
  end.

(** [s.startswith(p)], character by character. *)
Fixpoint starts (p s : string) : bool :=
  match p with
  | EmptyString => true
  | String a p' =>
      match s with
      | String x s' => Ascii.eqb a x && starts p' s'
      | EmptyString => false
      end
  end.

(** [sub in s] for strings, which is also [re.search(sub, s) is not None]
    for a pattern of digits. *)
Fixpoint contains (sub s : string) : bool :=
  starts sub s
  || match s with
     | EmptyString => false
     | String _ s' => contains sub s'
     end.

(** [CMakeSystemInformation.system_name()] and [architecture()], given
    what [_getstr] reads for them. *)
Definition system_name (reported : string) : string := lower reported.
Definition architecture (reported : string) : string := lower reported.

(** [System.default_str()] *)
Definition System_default_str (reported : string) : string :=
  let s := system_name reported in
  if String.eqb s "mac os x" || String.eqb s "Darwin" then "mac" else s.

(** [Architecture.default_str()] *)
Definition Architecture_default_str (reported : string) : string :=
  let s := architecture reported in
  if String.eqb s "amd64" then "x86_64" else s.

(** [Architecture.is64] and [is32], of the architecture named [name]. *)
Definition is64 (name : string) : bool := contains "64" name.
Definition is32 (name : string) : bool := negb (is64 name).

(** [CompileOption] *)
Record CompileOption : Type := mkOption {
  name : string;
  gcclike : string;
  vs : string;
  expl : string
}.

Definition _opt (name gcclike vs expl : string) : string * CompileOption :=
  (name, mkOption name gcclike vs expl).

(** [CompileOption.get(compiler)] *)
Definition get_option (o : CompileOption) (is_msvc : bool) : string :=
  if is_msvc then vs o else gcclike o.

Definition option_presets : odict CompileOption :=
  [ _opt "cpp11" "-std=c++11" EmptyString "enable C++11 mode";
    _opt "cpp14" "-std=c++14" EmptyString "enable C++14 mode";
    _opt "cpp1z" "-std=c++1z" EmptyString "enable C++1z mode";
    _opt "wall" "-Wall" "/Wall" "enable full warnings";
    _opt "pedantic" "-Wpedantic" "/W4" "compile in pedantic mode";
    _opt "strict_aliasing" "-fstrict-aliasing" EmptyString
         "enable strict aliasing";
    _opt "no_strict_aliasing" "-fno-strict-aliasing" EmptyString
         "disable strict aliasing";
    _opt "fast_math" "-ffast-math" "/fp:fast"
         "enable fast math http://stackoverflow.com/a/22135559";
    _opt "no_rtti" "-fno-rtti" "/GR-" "disable run-time type information";
    _opt "no_exceptions" "-fno-exceptions" "/EHsc-" "disable exceptions";
    _opt "no_stdlib" "-fnostdlib" "/NODEFAULTLIB" "disable standard library";
    _opt "thread" "-pthread" EmptyString "enable threads";
    _opt "g" "-g" EmptyString "add debug information";
    _opt "g3" "-g3" EmptyString "add full debug information" ].

(** [get_compile_option_preset(name)] *)
Definition get_compile_option_preset (name : string) : exn + CompileOption :=
  match get option_presets name with
  | None => inl (Exception ("could not find compile option preset: " ++ name))
  | Some opt => inr opt
  end.

End Axes.

(* ================================================================= *)
(** ** pycmake.py: installing, cleaning, and selecting builds *)

Module PycmakeOps.
Import Py Sys Run Pycmake.
Local Open Scope py_scope.

(** The world once the build directory is there. *)
Definition with_dir (b : Build) (w : World) : World :=
  world_of (create_dir b w).

(** The two marker files of a build directory. *)
Definition configure_done (b : Build) : string :=
  path_join (builddir b) "pycmake_configure.done".
Definition build_done (b : Build) : string :=
  path_join (builddir b) "pycmake_build.done".

(** The command of [Build.configure()]. *)
Definition configure_cmd (b : Build) : list string :=
  (["cmake"; "-C"; basename (preload_file b)]
   ++ configure_args (generator b) ++ [projdir b])%list.

(** [Generator.install(build)] *)
Definition install_cmd (build : Build) : list string :=
  ["cmake"; "--build"; "."; "--config"; str (buildtype build);
   "--target"; "install"].

(** [Build.install()] *)
Definition install (T : Tools) (b : Build) : M unit :=
  create_dir b ;;
  e <- path_exists (path_join (builddir b) "pycmake_build.done") ;;
  when (negb e) (build T b []) ;;
  run T (builddir b) (install_cmd b).

(** [os.remove(p)]: [p] must be a regular file. *)
Definition os_remove (p : string) : M unit :=
  fun w =>
    match dirs (fs w) p, files (fs w) p with
    | false, Some _ => Ok tt (mkWorld (remove (fs w) p) (trace w))
    | _, _ => Raise (IOError p) w
    end.

(** [Build.clean()] *)
Definition clean (T : Tools) (b : Build) : M unit :=
  create_dir b ;;
  c <- cmd T (generator b) (builddir b) ["clean"] b ;;
  run T (builddir b) c ;;
  os_remove (path_join (builddir b) "pycmake_build.done").

(** The keyword arguments of [ProjectConfig.select]; an absent one is
    [None]. *)
Record Selection : Type := mkSelection {
  sel_sys : option string;
  sel_arch : option string;
  sel_buildtype : option string;
  sel_compiler : option string;
  sel_variant : option string
}.

(** [str(b.variant)]: a build without a variant has [None] there. *)
Definition variant_str (b : Build) : string :=
  match variant b with Some v => str v | None => "None" end.

(** The helper [_h(li, kw, attr)] of [select], with its loop. *)
Definition _h (li : list Build) (g : option string) (attr : Build -> string)
  : list Build :=
  match g with
  | None => li
  | Some g =>
      fold_left (fun lo b => if String.eqb (attr b) g then (lo ++ [b])%list
                             else lo)
                li []
  end.

(** [ProjectConfig.select] over the builds of the project. *)
Definition select (builds : list Build) (kw : Selection) : list Build :=
  let out := builds in
  let out := _h out (sel_sys kw) (fun b => str (system b)) in
  let out := _h out (sel_arch kw) (fun b => str (architecture b)) in
  let out := _h out (sel_buildtype kw) (fun b => str (buildtype b)) in
  let out := _h out (sel_compiler kw) (fun b => cstr (compiler b)) in
  let out := _h out (sel_variant kw) variant_str in
  out.

(** A build that a selection asks for. *)
Definition asked (kw : Selection) (b : Build) : bool :=
  let agrees (g : option string) (x : string) :=
    match g with None => true | Some g => String.eqb x g end in
  agrees (sel_sys kw) (str (system b))
  && agrees (sel_arch kw) (str (architecture b))
  && agrees (sel_buildtype kw) (str (buildtype b))
  && agrees (sel_compiler kw) (cstr (compiler b))
  && agrees (sel_variant kw) (variant_str b).

End PycmakeOps.

(* ================================================================= *)
(** ** More sample values *)

Module MoreSamples.
Import Py Sys Re Cache Run Cmany Lifecycle SampleRuns CacheFile SysInfo Util.

(** Two variables, one of them dirty and from the input, and a build
    directory whose cache file is their printed form. *)
Definition printed_vars : list Var :=
  [mkVar "X" "1" "STRING" true true; mkVar "Y" "ON" "BOOL" false false].

Definition printed_fs : FS :=
  write_text (makedirs empty_fs "/b") "/b/CMakeCache.txt"
             (writelines (map (fun v => __str__ v ++ nl) printed_vars)).

(** The sample build after [install()] in its fresh directory, and its
    cache after the input is gathered a second time. *)
Definition installed_world : Cmany.World :=
  world_of (install Sample.tools (methods Sample.tools 1) Sample.fresh_build
                    fresh_world).

Definition regathered_world : Cmany.World :=
  world_of (gather_input_cache_vars Sample.tools Sample.fresh_build
                                    fresh_world).

(** Lines of cmake's system information, and a [re] module that is never
    asked. *)
Definition info_lines : list string :=
  ["CMAKE_C_COMPILER_ID " ++ chr dquote ++ "GNU" ++ chr dquote ++ nl;
   "CMAKE_CXX_COMPILER " ++ chr dquote ++ "/usr/bin/c++" ++ chr dquote ++ nl;
   "CMAKE_C_COMPILER " ++ chr dquote ++ "/usr/bin/cc" ++ chr dquote ++ nl;
   "CMAKE_SYSTEM_NAME " ++ chr dquote ++ "Linux" ++ chr dquote ++ nl].

Definition no_engine (pattern l : string) : exn + option string := inr None.

(** A [str.format] that is never asked either. *)
Definition no_format (template arg : string) : Raising.error + string :=
  inl (Raising.ValueError "Single '{' encountered in format string").

(** An object without attributes, and a function that returns the name
    of a generator. *)
Definition no_attributes : odict string * unit := ([], tt).

Definition ask_cmake : Run.M (odict string * unit) string :=
  fun st => Ok "Unix Makefiles" st.

End MoreSamples.

(* ================================================================= *)
(** * Properties *)

Unset Implicit Arguments.

(** ** Strings *)

Lemma append_assoc_s (a b c : string) : ((a ++ b) ++ c = a ++ (b ++ c))%string.
Proof.
  induction a as [|x a IH]; simpl; [reflexivity | now rewrite IH].
Qed.

Lemma append_empty_r (a : string) : (a ++ EmptyString)%string = a.
Proof.
  induction a as [|x a IH]; simpl; [reflexivity | now rewrite IH].
Qed.

Lemma join_snoc (sep : string) (l : list string) (x y : string) :
  Py.join sep ((x :: l) ++ [y])%list = (Py.join sep (x :: l) ++ sep ++ y)%string.
Proof.
  revert x. induction l as [|z l IH]; intros x.
  - reflexivity.
  - change (Py.join sep ((x :: z :: l) ++ [y])%list)
      with (x ++ sep ++ Py.join sep ((z :: l) ++ [y])%list)%string.
    rewrite IH.
    change (Py.join sep (x :: z :: l))
      with (x ++ sep ++ Py.join sep (z :: l))%string.
    now rewrite !append_assoc_s.
Qed.

Lemma mem_append (c : ascii) (a b : string) :
  Py.mem c (a ++ b) = Py.mem c a || Py.mem c b.
Proof.
  induction a as [|x a IH]; simpl; [reflexivity|].
  now rewrite IH, orb_assoc.
Qed.

Lemma truthy_eqb (s : string) :
  Py.truthy s = negb (String.eqb s EmptyString).
Proof. destruct s; reflexivity. Qed.

(** ** Tags (build.py [_cat], [_set_paths]; pycmake.py [_cat]) *)

Section Tags.
Import Py TagSpec.

Lemma pycmake_cat (b : Pycmake.Build) (for_build_dir : bool) :
  Pycmake._cat b "-" for_build_dir
  = join "-" ((if Pycmake.is_msvc (Pycmake.compiler b) && for_build_dir
               then pycmake_axes_ide b else pycmake_axes b)
              ++ pycmake_variant b)%list.
Proof.
  unfold Pycmake._cat, pycmake_variant, pycmake_axes, pycmake_axes_ide.
  destruct (Pycmake.is_msvc (Pycmake.compiler b) && for_build_dir);
    destruct (Pycmake.variant b) as [v|];
    rewrite ?join_snoc, ?app_nil_r; reflexivity.
Qed.

Lemma cmany_cat (b : Cmany.Build) :
  Cmany._cat b "-" = join "-" (cmany_axes b ++ cmany_variant b)%list.
Proof.
  unfold Cmany._cat, cmany_variant, cmany_axes.
  destruct (Cmany.variant b) as [v|]; [|reflexivity].
  rewrite truthy_eqb.
  destruct (negb (Cmany.iname v =? EmptyString)%string
            && negb (Cmany.iname v =? "none")%string);
    rewrite ?join_snoc, ?app_nil_r; reflexivity.
Qed.

Lemma cmany_cat_tag_of (b : Cmany.Build) :
  Cmany._cat b "-"
  = tag_of (Cmany.iname (Cmany.system b)) (Cmany.iname (Cmany.architecture b))
           (Cmany.cname (Cmany.compiler b)) (Cmany.iname (Cmany.buildtype b))
           (option_map Cmany.iname (Cmany.variant b)).
Proof.
  rewrite cmany_cat. unfold tag_of, cmany_axes, cmany_variant.
  destruct (Cmany.variant b); reflexivity.
Qed.

(** C1, as the two programs have it.  In pycmake the tag of the build
    directory leaves the build type out exactly when the compiler is Visual
    Studio, and the tag that is displayed (and names the install directory)
    always has it; the variant follows when there is one.  In cmany
    [_set_paths] gives the build directory, the install directory and the
    display one and the same tag, which has the build type for every
    compiler. *)
Theorem C1_build_directory_tag :
  (forall b : Pycmake.Build,
      Pycmake.builddir_tag b
      = join "-" ((if Pycmake.is_msvc (Pycmake.compiler b)
                   then pycmake_axes_ide b else pycmake_axes b)
                  ++ pycmake_variant b)%list
      /\ Pycmake.__repr__ b = join "-" (pycmake_axes b ++ pycmake_variant b)%list
      /\ forall abspath proj_root build_root install_root,
          let b' := Pycmake.init_paths abspath b proj_root build_root
                                       install_root in
          Pycmake.builddir b'
          = abspath (path_join build_root (Pycmake.builddir_tag b))
          /\ Pycmake.installdir b'
             = path_join (abspath install_root) (Pycmake.__repr__ b)
          /\ Pycmake.builddir_tag b' = Pycmake.builddir_tag b
          /\ Pycmake.__repr__ b' = Pycmake.__repr__ b)
  /\ (forall (T : Cmany.Tools) (b : Cmany.Build),
         let b' := Cmany._set_paths T b in
         Cmany.buildtag b' = Cmany.tag b'
         /\ Cmany.installtag b' = Cmany.tag b'
         /\ Cmany.tag b' = join "-" (cmany_axes b ++ cmany_variant b)%list
         /\ Cmany.builddir b'
            = Cmany.abspath T (path_join (Cmany.buildroot b) (Cmany.buildtag b'))).
Proof.
  split.
  - intros b. split; [|split].
    + unfold Pycmake.builddir_tag. now rewrite pycmake_cat, andb_true_r.
    + unfold Pycmake.__repr__. now rewrite pycmake_cat, andb_false_r.
    + intros abspath proj_root build_root install_root b'. repeat split.
  - intros T b b'. subst b'. cbn [Cmany._set_paths Cmany.buildtag Cmany.tag
                                  Cmany.installtag Cmany.builddir].
    rewrite cmany_cat. repeat split.
Qed.

(** C1 as stated fails on cmany: with the Visual Studio compiler the tag
    of the build directory still carries the build type. *)
Lemma C1_counterexample :
  let b := Cmany._set_paths Sample.tools
             (Sample.bare "windows" "x86_64" "Release" Sample.vs2015 None) in
  Cmany.is_msvc (Cmany.compiler b) = true
  /\ Cmany.buildtag b = "windows-x86_64-vs2015-Release"
  /\ Cmany.builddir b = "/build/windows-x86_64-vs2015-Release"
  /\ String.eqb (Cmany.buildtag b) "windows-x86_64-vs2015" = false.
Proof. repeat split. Qed.

(** C2, as the two programs have it.  In cmany the tag is the four
    identities joined by ["-"], followed by the variant exactly when there is
    one whose name is neither empty nor "none", for every compiler; it is
    [tag_of] of the five identities, so builds that agree on them have the
    same tag.  In pycmake a tag is the four identities (three for the build
    directory of a Visual Studio compiler) followed by the variant whenever
    there is one, whatever its name. *)
Theorem C2_tag_of_identities :
  (forall b : Cmany.Build,
      Cmany._cat b "-" = join "-" (cmany_axes b ++ cmany_variant b)%list
      /\ Cmany._cat b "-"
         = tag_of (Cmany.iname (Cmany.system b))
                  (Cmany.iname (Cmany.architecture b))
                  (Cmany.cname (Cmany.compiler b))
                  (Cmany.iname (Cmany.buildtype b))
                  (option_map Cmany.iname (Cmany.variant b))
      /\ (forall T, Cmany.tag (Cmany._set_paths T b) = Cmany._cat b "-"))
  /\ (tag_of "linux" "x86_64" "gcc5.4" "Release" (Some "none")
        = "linux-x86_64-gcc5.4-Release"
      /\ tag_of "linux" "x86_64" "gcc5.4" "Release" None
        = "linux-x86_64-gcc5.4-Release"
      /\ tag_of "linux" "x86_64" "gcc5.4" "Release" (Some "asan")
        = "linux-x86_64-gcc5.4-Release-asan")
  /\ (forall (b : Pycmake.Build) (for_build_dir : bool),
         Pycmake._cat b "-" for_build_dir
         = join "-" ((if Pycmake.is_msvc (Pycmake.compiler b) && for_build_dir
                      then pycmake_axes_ide b else pycmake_axes b)
                     ++ pycmake_variant b)%list).
Proof.
  split; [|split].
  - intros b. split; [apply cmany_cat | split; [apply cmany_cat_tag_of|]].
    reflexivity.
  - repeat split.
  - apply pycmake_cat.
Qed.

(** C2 as stated fails on pycmake: with gcc, a variant named "none" is
    appended as a fifth component. *)
Lemma C2_counterexample :
  Pycmake.is_msvc (Pycmake.compiler Sample.py_build_none) = false
  /\ option_map Pycmake.name (Pycmake.variant Sample.py_build_none)
     = Some "none"
  /\ Pycmake.__repr__ Sample.py_build_none
     = "linux-x86_64-gcc5.4-Release-none"
  /\ Pycmake.builddir_tag Sample.py_build_none
     = "linux-x86_64-gcc5.4-Release-none".
Proof. repeat split. Qed.

End Tags.

(** ** The cache (cmake_sysinfo.py) *)

Section CacheFacts.
Import Py Sys Re Cache CacheOps.

Lemma get_set_same {V} (d : odict V) (k : string) (v : V) :
  get (set d k v) k = Some v.
Proof.
  induction d as [|[k' v'] d IH]; simpl.
  - now rewrite String.eqb_refl.
  - destruct (String.eqb k' k) eqn:E; simpl.
    + now rewrite String.eqb_refl.
    + now rewrite E.
Qed.

Lemma get_set_other {V} (d : odict V) (k k' : string) (v : V) :
  k' <> k -> get (set d k v) k' = get d k'.
Proof.
  intros N. induction d as [|[k0 v0] d IH]; simpl.
  - destruct (String.eqb_spec k k'); [congruence | reflexivity].
  - destruct (String.eqb_spec k0 k) as [->|N0]; simpl.
    + destruct (String.eqb_spec k k'); [congruence|].
      reflexivity.
    + now rewrite IH.
Qed.

Lemma any_dirty_set_dirty (d : odict Var) (k : string) (v : Var) :
  vdirty v = true -> any_dirty (set d k v) = true.
Proof.
  intros Hv. unfold any_dirty.
  induction d as [|[k' v'] d IH]; simpl.
  - now rewrite Hv.
  - destruct (String.eqb k' k); simpl.
    + now rewrite Hv.
    + rewrite IH. apply orb_true_r.
Qed.

Lemma any_dirty_set_same (d : odict Var) (k : string) (v0 v : Var) :
  get d k = Some v0 -> vdirty v = vdirty v0 ->
  any_dirty (set d k v) = any_dirty d.
Proof.
  unfold any_dirty.
  induction d as [|[k' v'] d IH]; simpl; [discriminate|].
  intros G E. destruct (String.eqb k' k); simpl.
  - injection G as ->. now rewrite E.
  - now rewrite IH.
Qed.

Lemma any_dirty_clear (d : odict Var) : any_dirty (clear_dirty d) = false.
Proof.
  unfold any_dirty, clear_dirty.
  induction d as [|[k v] d IH]; simpl; [reflexivity | exact IH].
Qed.

(** What [reset] returns and leaves, in one formula. *)
Lemma reset_spec (v0 : Var) (v t : string) (kw : Kwargs) :
  let changed := negb (String.eqb v (val v0))
                 || negb (String.eqb t (vartype v0)) || force_dirty kw in
  snd (reset v0 v t kw) = changed
  /\ vdirty (fst (reset v0 v t kw)) = vdirty v0 || changed
  /\ val (fst (reset v0 v t kw)) = v
  /\ vartype (fst (reset v0 v t kw)) = t
  /\ name (fst (reset v0 v t kw)) = name v0.
Proof.
  unfold reset.
  destruct (String.eqb_spec v (val v0)) as [->|Nv];
    destruct (String.eqb_spec t (vartype v0)) as [->|Nt];
    destruct (force_dirty kw); simpl;
    rewrite ?orb_true_r, ?orb_false_r; repeat split.
Qed.

Lemma setvar_invariant (c : CMakeCache) (n v t : string) (kw : Kwargs) :
  invariant c -> invariant (fst (setvar c n v t kw)).
Proof.
  unfold invariant, setvar. intros I.
  destruct (get (items c) n) as [v0|] eqn:G.
  - destruct (reset_spec v0 v t kw) as (Hs & Hd & _).
    destruct (reset v0 v t kw) as [v' changed]. simpl in *. subst changed.
    set (ch := negb (v =? val v0) || negb (t =? vartype v0) || force_dirty kw) in *.
    destruct ch.
    + rewrite orb_true_r in *. now rewrite any_dirty_set_dirty.
    + rewrite orb_false_r in *. now rewrite (@any_dirty_set_same _ _ _ _ G Hd).
  - simpl. now rewrite any_dirty_set_dirty.
Qed.

Lemma commit_invariant (P : Platform) (c : CMakeCache) (fs : FS)
      (d : option string) c' fs' r :
  invariant c -> commit P c fs d = inr (c', fs', r) -> invariant c'.
Proof.
  unfold commit. intros I.
  destruct d as [d|]; [|now intros [= <- <- <-]].
  destruct (negb (dirty c) || negb (exists_ fs d)
            || negb (exists_ fs (path_join d "CMakeCache.txt")));
    [now intros [= <- <- <-]|].
  destruct (setcachevars P fs d (dirty_values (items c))); [discriminate|].
  intros [= <- <- <-]. unfold invariant. simpl. now rewrite any_dirty_clear.
Qed.

Lemma step_invariant (P : Platform) (st : CMakeCache * FS) (o : op) :
  invariant (fst st) -> invariant (fst (step P st o)).
Proof.
  destruct st as [c fs]. simpl. intros I.
  destruct o; simpl; try (now apply setvar_invariant); try assumption.
  destruct (commit P c fs builddir) as [e|[[c' fs'] r]] eqn:E; simpl;
    [assumption | eapply commit_invariant; eassumption].
Qed.

Lemma run_ops_invariant (P : Platform) (ops : list op) (st : CMakeCache * FS) :
  invariant (fst st) -> invariant (fst (run_ops P ops st)).
Proof.
  unfold run_ops. revert st.
  induction ops as [|o ops IH]; intros st I; simpl; [assumption|].
  apply IH, step_invariant, I.
Qed.

Lemma any_dirty_set_clean (d : odict Var) (k : string) (v : Var) :
  any_dirty d = false -> vdirty v = false -> any_dirty (set d k v) = false.
Proof.
  unfold any_dirty. intros H Hv.
  induction d as [|[k' v'] d IH]; simpl in *.
  - now rewrite Hv.
  - apply orb_false_iff in H as [H1 H2].
    destruct (String.eqb k' k); simpl.
    + now rewrite Hv, H2.
    + now rewrite H1, IH.
Qed.

Lemma load_line_clean (d : odict Var) (line : string) :
  any_dirty d = false -> any_dirty (load_line d line) = false.
Proof.
  unfold load_line. intros H. destruct (negb (matches line)); [assumption|].
  now apply any_dirty_set_clean.
Qed.

Lemma loadvars_clean (fs : FS) (builddir : option string) (d : odict Var) :
  loadvars fs builddir = inr d -> any_dirty d = false.
Proof.
  unfold loadvars.
  destruct builddir as [b|]; [|now intros [= <-]].
  destruct (negb (exists_ fs b)); [now intros [= <-]|].
  destruct (exists_ fs (path_join b "CMakeCache.txt")); [|now intros [= <-]].
  destruct (files fs (path_join b "CMakeCache.txt")) as [text|]; [|discriminate].
  intros [= <-].
  assert (G : forall ls acc, any_dirty acc = false ->
                             any_dirty (fold_left load_line ls acc) = false).
  { induction ls as [|l ls IH]; intros acc Ha; simpl; [assumption|].
    apply IH, load_line_clean, Ha. }
  now apply G.
Qed.

Lemma init_invariant (fs : FS) (builddir : option string) (c : CMakeCache) :
  CMakeCache_init fs builddir = inr c -> invariant c.
Proof.
  unfold CMakeCache_init.
  destruct (loadvars fs builddir) as [e|d] eqn:L; [discriminate|].
  intros [= <-]. unfold invariant. simpl. symmetry.
  eapply loadvars_clean, L.
Qed.

(** The constructor returns unless [CMakeCache.txt] is there and is not a
    regular file. *)
Lemma CMakeCache_init_returns (fs : FS) (builddir : option string) :
  (forall d, builddir = Some d ->
             exists_ fs (path_join d "CMakeCache.txt") = true ->
             files fs (path_join d "CMakeCache.txt") <> None) ->
  exists c, CMakeCache_init fs builddir = inr c.
Proof.
  intros H. unfold CMakeCache_init, loadvars.
  destruct builddir as [d|]; [|eexists; reflexivity].
  destruct (negb (exists_ fs d)); [eexists; reflexivity|].
  destruct (exists_ fs (path_join d "CMakeCache.txt")) eqn:E;
    [|eexists; reflexivity].
  specialize (H d eq_refl E).
  destruct (files fs (path_join d "CMakeCache.txt")); [|congruence].
  eexists; reflexivity.
Qed.

(** C5.  A cache that [CMakeCache(builddir)] has made, from the cache file
    of [builddir] or empty when there is none, keeps its [dirty] attribute
    equal to the disjunction of the dirty flags of its variables through any
    sequence of [setvar], typed setters and [commit], whatever happens to the
    file system in between. *)
Theorem C5_aggregate_dirty (P : Platform) (fs : FS) (builddir : option string)
        (c : CMakeCache) (ops : list op) :
  CMakeCache_init fs builddir = inr c ->
  let c' := fst (run_ops P ops (c, fs)) in
  dirty c' = any_dirty (items c').
Proof.
  intros H c'. apply (@run_ops_invariant P ops (c, fs)).
  eapply init_invariant, H.
Qed.

(** C3.  [setvar] on a name that the cache has reports a change exactly
    when the value or the type differs or the call forces it, raises the
    variable's flag and the cache's flag by that much and no more, so a
    differing value or type makes both true; on a name that the cache does
    not have it inserts a dirty variable and makes the cache dirty.  After
    any [setvar], the same call again without [force_dirty] reports no
    change and leaves the variable's flag and the cache's flag as they
    were. *)
Theorem C3_setvar_dirty (c : CMakeCache) (n v t : string) (kw : Kwargs) :
  let r := setvar c n v t kw in
  match get (items c) n with
  | None =>
      snd r = true /\ dirty (fst r) = true
      /\ get (items (fst r)) n = Some (mkVar n v t true false)
  | Some v0 =>
      let changed := negb (String.eqb v (val v0))
                     || negb (String.eqb t (vartype v0))
                     || force_dirty kw in
      snd r = changed /\ dirty (fst r) = dirty c || changed
      /\ exists v1, get (items (fst r)) n = Some v1
                    /\ vdirty v1 = vdirty v0 || changed
                    /\ val v1 = v /\ vartype v1 = t
                    /\ (v <> val v0 \/ t <> vartype v0 ->
                        snd r = true /\ dirty (fst r) = true
                        /\ vdirty v1 = true)
  end
  /\ forall from_input : option bool,
      let r2 := setvar (fst r) n v t (mkKwargs false from_input) in
      snd r2 = false
      /\ dirty (fst r2) = dirty (fst r)
      /\ option_map vdirty (get (items (fst r2)) n)
         = option_map vdirty (get (items (fst r)) n)
      /\ option_map val (get (items (fst r2)) n) = Some v
      /\ option_map vartype (get (items (fst r2)) n) = Some t.
Proof.
  intros r.
  assert (H1 : exists v1, get (items (fst r)) n = Some v1
                          /\ val v1 = v /\ vartype v1 = t).
  { subst r. unfold setvar. destruct (get (items c) n) as [v0|] eqn:G.
    - destruct (reset_spec v0 v t kw) as (_ & _ & Hv & Ht & _).
      destruct (reset v0 v t kw) as [v' ch]. simpl in *.
      exists v'. now rewrite get_set_same.
    - simpl. rewrite get_set_same. eexists; repeat split. }
  split.
  - subst r. unfold setvar. destruct (get (items c) n) as [v0|] eqn:G.
    + destruct (reset_spec v0 v t kw) as (Hs & Hd & Hv & Ht & _).
      destruct (reset v0 v t kw) as [v' ch]. simpl in *.
      subst ch. split; [reflexivity|]. split; [reflexivity|].
      exists v'. rewrite get_set_same.
      split; [reflexivity|]. split; [assumption|].
      split; [assumption|]. split; [assumption|].
      intros D.
      assert (E : negb (String.eqb v (val v0))
                  || negb (String.eqb t (vartype v0)) = true).
      { destruct D as [D|D]; apply String.eqb_neq in D; rewrite D;
          simpl; rewrite ?orb_true_r; reflexivity. }
      rewrite Hd, E. simpl. rewrite !orb_true_r. repeat split.
    + simpl. now rewrite get_set_same.
  - intros fi r2. destruct H1 as (v1 & G1 & Hv & Ht).
    set (c1 := fst r) in *. clearbody c1. clear r.
    subst r2. unfold setvar. rewrite G1.
    destruct (reset_spec v1 v t (mkKwargs false fi)) as (Hs & Hd & Hv' & Ht' & _).
    destruct (reset v1 v t (mkKwargs false fi)) as [v2 ch]. simpl in *.
    rewrite Hv, Ht, !String.eqb_refl in Hs, Hd. simpl in Hs, Hd.
    rewrite orb_false_r in Hd. subst ch.
    rewrite get_set_same. simpl.
    rewrite orb_false_r, Hd, Hv', Ht'. repeat split.
Qed.

(** *** What a commit writes *)

Lemma concat_empty_cons (x : string) (l : list string) :
  writelines (x :: l) = (x ++ writelines l)%string.
Proof.
  unfold writelines. destruct l as [|y l]; simpl.
  - now rewrite append_empty_r.
  - reflexivity.
Qed.



(** A text without a carriage return is read as it is. *)
Lemma universal_plain (z : string) : mem cr z = false -> universal z = z.
Proof.
  induction z as [|a z IH]; [reflexivity|].
  simpl. intros H. apply orb_false_iff in H as [Ha Hz].
  now rewrite Ha, (IH Hz).
Qed.

Lemma universal_no_cr (z : string) : mem cr (universal z) = false.
Proof.
  induction z as [|a z IH]; [reflexivity|].
  simpl. destruct (Ascii.eqb a cr) eqn:E.
  - destruct z as [|b z]; [reflexivity|].
    destruct (Ascii.eqb b newline); [exact IH|].
    change (mem cr (String newline (universal (String b z))))
      with (Ascii.eqb newline cr || mem cr (universal (String b z))).
    now rewrite IH.
  - change (mem cr (String a (universal z)))
      with (Ascii.eqb a cr || mem cr (universal z)).
    now rewrite E, IH.
Qed.

(** In a line that was read, a line feed is the last character. *)
Lemma line_end (text l x y : string) :
  In l (lines text) -> l = (x ++ String newline y)%string -> y = EmptyString.
Proof.
  revert l x y. induction text as [|a z IH]; intros l x y; simpl; [tauto|].
  destruct (Ascii.eqb_spec a newline) as [->|N].
  - intros [<-|I] E; [|now apply (IH l x y)].
    destruct x as [|c x]; simpl in E; [now injection E|].
    injection E as _ E. destruct x; discriminate.
  - destruct (lines z) as [|h t] eqn:L.
    + intros [<-|[]] E.
      destruct x as [|c x]; simpl in E; [injection E as E _; congruence|].
      injection E as _ E. destruct x; discriminate.
    + intros [<-|I] E.
      * destruct x as [|c x]; simpl in E; [injection E as E _; congruence|].
        injection E as _ E. apply (IH h x y); [now left | exact E].
      * apply (IH l x y); [now right | exact E].
Qed.

Lemma mem_split (c : ascii) (z : string) :
  mem c z = true -> exists x y, z = (x ++ String c y)%string.
Proof.
  induction z as [|a z IH]; simpl; [discriminate|].
  destruct (Ascii.eqb_spec a c) as [->|N].
  - intros _. now exists EmptyString, z.
  - intros H. destruct (IH H) as (x & y & ->). now exists (String a x), y.
Qed.

(** What precedes the line end of a line that was read has no line feed. *)
Lemma line_body (text l h r : string) :
  In l (lines text) -> l = (h ++ r)%string -> r <> EmptyString ->
  r <> nl -> mem newline h = false.
Proof.
  intros I E R1 R2. destruct (mem newline h) eqn:M; [|reflexivity].
  exfalso. destruct (mem_split _ _ M) as (x & y & ->).
  rewrite append_assoc_s in E. simpl in E.
  pose proof (line_end text l x (y ++ r) I E) as Z.
  destruct y; simpl in Z; [|discriminate]. contradiction.
Qed.

Lemma prefix_iff (p l : string) :
  String.prefix p l = true <-> exists r, l = (p ++ r)%string.
Proof.
  revert l. induction p as [|a p IH]; intros l.
  - split; [intros _; now exists l | intros _; now destruct l].
  - destruct l as [|b l].
    + split; [discriminate | intros [r [=]]].
    + change (String.prefix (String a p) (String b l))
        with (if ascii_dec a b then String.prefix p l else false).
      destruct (ascii_dec a b) as [<-|N].
      * rewrite IH. split; intros [r H]; exists r; simpl in *; congruence.
      * split; [discriminate | intros [r [=]]; congruence].
Qed.

Lemma cut_here (c : ascii) (k r : string) :
  mem c k = false -> cut c (k ++ String c r) = Some (k, r).
Proof.
  induction k as [|a k IH]; simpl.
  - now rewrite Ascii.eqb_refl.
  - intros H. apply orb_false_iff in H as [Ha Hk].
    now rewrite Ha, (IH Hk).
Qed.

Lemma cut_append (c : ascii) (s x y t : string) :
  cut c s = Some (x, y) -> cut c (s ++ t) = Some (x, (y ++ t)%string).
Proof.
  revert x y. induction s as [|a s IH]; intros x y; simpl; [discriminate|].
  destruct (Ascii.eqb a c).
  - now intros [= <- <-].
  - destruct (cut c s) as [[x' y']|]; [|discriminate].
    intros [= <- <-]. now rewrite (IH x' y' eq_refl).
Qed.

Lemma cut_spec (c : ascii) (s x y : string) :
  cut c s = Some (x, y) -> s = (x ++ String c y)%string /\ mem c x = false.
Proof.
  revert x y. induction s as [|a s IH]; intros x y; simpl; [discriminate|].
  destruct (Ascii.eqb_spec a c) as [->|N].
  - intros [= <- <-]. split; reflexivity.
  - destruct (cut c s) as [[x' y']|]; [|discriminate].
    intros [= <- <-]. destruct (IH x' y' eq_refl) as [-> M]. split.
    + reflexivity.
    + simpl. rewrite M. destruct (Ascii.eqb_spec a c); [congruence|reflexivity].
Qed.

(** The name part of a line: what precedes its first colon. *)
Lemma startswith_cut (l k : string) :
  mem ":" k = false ->
  startswith l (k ++ ":") = true <-> exists r, cut ":" l = Some (k, r).
Proof.
  intros Hk. unfold startswith. rewrite prefix_iff. split.
  - intros [r ->]. exists r. rewrite append_assoc_s. now apply cut_here.
  - intros [r H]. exists r. apply cut_spec in H as [-> _].
    now rewrite append_assoc_s.
Qed.

(** The shape of a line that matches the pattern. *)
Lemma cache_entry_spec (l g1 g2 g3 tail : string) :
  cache_entry l = Some (g1, g2, g3, tail) ->
  exists r, cut ":" l = Some (g1, r)
            /\ (g2 ++ "=" ++ g3 ++ tail)%string = String ":" r
            /\ l = (g1 ++ g2 ++ "=" ++ g3 ++ tail)%string.
Proof.
  unfold cache_entry.
  destruct (cut newline l) as [[body rest]|] eqn:Cn.
  - destruct (String.eqb (String newline rest) EmptyString
              || String.eqb (String newline rest) nl); [|discriminate].
    destruct (cut ":" body) as [[h r]|] eqn:C1; [|discriminate].
    destruct (cut "=" r) as [[t v]|] eqn:C2; [|discriminate].
    intros [= <- <- <- <-].
    destruct (cut_spec _ _ _ _ Cn) as [-> _].
    destruct (cut_spec _ _ _ _ C2) as [-> _].
    exists ((t ++ String "=" v) ++ String newline rest)%string. split.
    + now apply cut_append.
    + destruct (cut_spec _ _ _ _ C1) as [-> _].
      simpl. rewrite !append_assoc_s. simpl. rewrite !append_assoc_s. simpl.
      split; reflexivity.
  - destruct (String.eqb EmptyString EmptyString || String.eqb EmptyString nl);
      [|discriminate].
    destruct (cut ":" l) as [[h r]|] eqn:C1; [|discriminate].
    destruct (cut "=" r) as [[t v]|] eqn:C2; [|discriminate].
    intros [= <- <- <- <-].
    destruct (cut_spec _ _ _ _ C2) as [-> _].
    exists (t ++ String "=" v)%string. split; [reflexivity|].
    destruct (cut_spec _ _ _ _ C1) as [E _]. rewrite append_empty_r.
    simpl. split; [reflexivity|]. rewrite E at 1. reflexivity.
Qed.

Lemma cut_none (c : ascii) (z : string) : mem c z = false -> cut c z = None.
Proof.
  induction z as [|a z IH]; simpl; [reflexivity|].
  intros H. apply orb_false_iff in H as [Ha Hz]. now rewrite Ha, (IH Hz).
Qed.

(** A record line, with or without its line break, matches the pattern
    with the three groups one expects. *)
Lemma cache_entry_record (n t v tail : string) :
  mem ":" n = false -> mem newline n = false ->
  mem "=" t = false -> mem newline t = false ->
  mem newline v = false ->
  tail = EmptyString \/ tail = nl ->
  cache_entry (n ++ ":" ++ t ++ "=" ++ v ++ tail)
  = Some (n, (":" ++ t)%string, v, tail).
Proof.
  intros Cn Nn Et Nt Nv Tl.
  assert (Nb : mem newline (n ++ ":" ++ t ++ "=" ++ v) = false).
  { rewrite !mem_append, Nn, Nt, Nv. reflexivity. }
  assert (C1 : cut ":" (n ++ ":" ++ t ++ "=" ++ v)
               = Some (n, (t ++ "=" ++ v)%string))
    by (now apply (cut_here ":" n)).
  assert (C2 : cut "=" (t ++ "=" ++ v) = Some (t, v))
    by (now apply (cut_here "=" t)).
  unfold cache_entry. destruct Tl as [->| ->].
  - rewrite !append_empty_r.
    rewrite (cut_none newline _ Nb). simpl String.eqb. simpl orb.
    cbv iota. rewrite C1, C2. reflexivity.
  - replace (n ++ ":" ++ t ++ "=" ++ v ++ nl)%string
      with ((n ++ ":" ++ t ++ "=" ++ v) ++ String newline EmptyString)%string
      by (rewrite !append_assoc_s; reflexivity).
    rewrite (cut_here newline _ EmptyString Nb).
    change (String newline EmptyString) with nl.
    rewrite String.eqb_refl, orb_true_r. rewrite C1, C2. reflexivity.
Qed.

Lemma sub_value_plain (P : Platform) (v l : string) :
  mem backslash v = false ->
  sub_value P v l
  = Some match cache_entry l with
         | Some (g1, g2, g3, tail) => (g1 ++ g2 ++ "=" ++ v ++ tail)%string
         | None => l
         end.
Proof.
  intros H. unfold sub_value, template. rewrite H.
  destruct (cache_entry l) as [[[[g1 g2] g3] tail]|]; reflexivity.
Qed.

(** A line that no name of [tmp] starts is left as it is. *)
Lemma setcachevars_line_skip (P : Platform) (tmp : odict string) (l : string) :
  (forall k v, In (k, v) tmp -> startswith l (k ++ ":") = false) ->
  setcachevars_line P tmp l = Some l.
Proof.
  induction tmp as [|[k v] tmp IH]; intros H; simpl; [reflexivity|].
  rewrite (H k v (or_introl eq_refl)). apply IH.
  intros k' v' I. apply (H k' v'). now right.
Qed.

Lemma get_in {V} (d : odict V) (k : string) (v : V) :
  get d k = Some v -> In (k, v) d.
Proof.
  induction d as [|[k' v'] d IH]; simpl; [discriminate|].
  destruct (String.eqb_spec k' k) as [->|N].
  - intros [= ->]. now left.
  - intros H. right. now apply IH.
Qed.

Lemma get_none_notin {V} (d : odict V) (k : string) :
  get d k = None -> ~ In k (map fst d).
Proof.
  induction d as [|[k' v'] d IH]; simpl; [tauto|].
  destruct (String.eqb_spec k' k) as [->|N]; [discriminate|].
  intros H [E|I]; [congruence | now apply IH].
Qed.

Lemma setcachevars_line_plain (P : Platform) (tmp : odict string) (l : string) :
  plain_values tmp -> setcachevars_line P tmp l = Some (rewritten tmp l).
Proof.
  induction tmp as [|[k v] tmp IH]; intros [ND PL].
  - unfold rewritten. simpl.
    destruct (cache_entry l) as [[[[g1 g2] g3] tail]|]; reflexivity.
  - assert (PT : plain_values tmp).
    { split; [now inversion ND|]. intros k' v' I. apply PL. now right. }
    destruct (PL k v (or_introl eq_refl)) as [Hk Hv].
    simpl. destruct (startswith l (k ++ ":")) eqn:S.
    + apply (startswith_cut l k Hk) in S as [r C].
      rewrite (sub_value_plain P v l Hv).
      assert (R : rewritten ((k, v) :: tmp) l
                  = match cache_entry l with
                    | Some (g1, g2, g3, tail) =>
                        (g1 ++ g2 ++ "=" ++ v ++ tail)%string
                    | None => l
                    end).
      { unfold rewritten.
        destruct (cache_entry l) as [[[[g1 g2] g3] tail]|] eqn:E; [|reflexivity].
        destruct (cache_entry_spec _ _ _ _ _ E) as (r' & C' & _).
        rewrite C in C'. injection C' as -> _.
        simpl. now rewrite String.eqb_refl. }
      rewrite R. apply setcachevars_line_skip.
      intros k' v' I.
      destruct (startswith _ (k' ++ ":")) eqn:S'; [|reflexivity].
      exfalso.
      apply (startswith_cut _ k' (proj1 (PL k' v' (or_intror I)))) in S' as [r' C'].
      assert (k' = k).
      { destruct (cache_entry l) as [[[[g1 g2] g3] tail]|] eqn:E.
        - destruct (cache_entry_spec _ _ _ _ _ E) as (r0 & C0 & E2 & _).
          rewrite C in C0. injection C0 as -> _.
          rewrite <- !append_assoc_s in C'.
          rewrite !append_assoc_s in C'.
          assert (E3 : (g2 ++ "=" ++ v ++ tail)%string
                       = String ":" (tail1 (g2 ++ "=" ++ v ++ tail))).
          { destruct g2; [discriminate|]. simpl in *. congruence. }
          rewrite E3 in C'. rewrite (cut_here _ _ _ Hk) in C'. congruence.
        - congruence. }
      subst k'. inversion ND as [|? ? NI _]. apply NI.
      now apply (in_map fst) in I.
    + rewrite (IH PT). f_equal. unfold rewritten.
      destruct (cache_entry l) as [[[[g1 g2] g3] tail]|] eqn:E; [|reflexivity].
      simpl. destruct (String.eqb_spec k g1) as [->|N]; [|reflexivity].
      destruct (cache_entry_spec _ _ _ _ _ E) as (r' & C' & _).
      assert (startswith l (g1 ++ ":") = true)
        by (apply (startswith_cut l g1 Hk); eauto).
      congruence.
Qed.

Lemma setcachevars_lines_plain (P : Platform) (tmp : odict string)
      (ls : list string) :
  plain_values tmp ->
  setcachevars_lines P tmp ls = Some (map (rewritten tmp) ls).
Proof.
  intros PT. induction ls as [|l ls IH]; simpl; [reflexivity|].
  now rewrite (setcachevars_line_plain P tmp l PT), IH.
Qed.










Lemma clear_dirty_spec (d : odict Var) (kv : string * Var) :
  In kv (clear_dirty d) ->
  vdirty (snd kv) = false
  /\ exists v0, In (fst kv, v0) d /\ name (snd kv) = name v0
                /\ val (snd kv) = val v0 /\ vartype (snd kv) = vartype v0
                /\ from_input (snd kv) = from_input v0.
Proof.
  unfold clear_dirty. intros I.
  apply in_map_iff in I as ([k v0] & <- & I). simpl.
  split; [reflexivity|]. exists v0. repeat split. assumption.
Qed.

(** Lines that none of the values to write claims come out as they went
    in, whatever the values are. *)
Lemma setcachevars_lines_frame (P : Platform) (tmp : odict string)
      (ls os : list string) :
  setcachevars_lines P tmp ls = Some os ->
  List.length os = List.length ls
  /\ forall i l, nth_error ls i = Some l ->
                 (forall k v, In (k, v) tmp -> startswith l (k ++ ":") = false) ->
                 nth_error os i = Some l.
Proof.
  revert os. induction ls as [|l0 ls IH]; intros os; simpl.
  - intros [= <-]. split; [reflexivity|]. intros [|i] l; discriminate.
  - destruct (setcachevars_line P tmp l0) as [o|] eqn:E; [|discriminate].
    destruct (setcachevars_lines P tmp ls) as [os'|]; [|discriminate].
    intros [= <-]. destruct (IH os' eq_refl) as [L F]. split.
    + simpl. now rewrite L.
    + intros [|i] l; simpl.
      * intros [= ->] H. rewrite (setcachevars_line_skip P tmp l H) in E.
        congruence.
      * apply F.
Qed.



(** A line that was read and has the shape of a record matches the
    pattern, with the groups one expects. *)
Lemma line_is_record (text n t old tail : string) :
  In (n ++ ":" ++ t ++ "=" ++ old ++ tail)%string (lines text) ->
  mem ":" n = false -> mem "=" t = false -> mem newline old = false ->
  tail = EmptyString \/ tail = nl ->
  mem newline n = false /\ mem newline t = false
  /\ cache_entry (n ++ ":" ++ t ++ "=" ++ old ++ tail)
     = Some (n, (":" ++ t)%string, old, tail).
Proof.
  intros I Cn Et No Tl.
  assert (Nn : mem newline n = false).
  { apply (line_body _ _ n (":" ++ t ++ "=" ++ old ++ tail) I eq_refl);
      discriminate. }
  assert (Nt : mem newline t = false).
  { assert (Z : mem newline (n ++ ":" ++ t) = false).
    { apply (line_body _ _ (n ++ ":" ++ t) ("=" ++ old ++ tail) I);
        [now rewrite !append_assoc_s | discriminate | discriminate]. }
    rewrite !mem_append in Z.
    now apply orb_false_iff in Z as [_ Z]. }
  split; [exact Nn|]. split; [exact Nt|]. now apply cache_entry_record.
Qed.



(** C5 on the sample cache file: load, change a value, commit, add a new
    variable. *)
Lemma C5_witness :
  CMakeCache_init Sample.cache_fs (Some "/b") = inr Sample.loaded
  /\ dirty (fst (run_ops Sample.posix
                         [SetS "X" "2" no_kwargs; Commit (Some "/b");
                          SetB "NEW" "ON" no_kwargs]
                         (Sample.loaded, Sample.cache_fs)))
     = any_dirty (items (fst (run_ops Sample.posix
                                      [SetS "X" "2" no_kwargs;
                                       Commit (Some "/b");
                                       SetB "NEW" "ON" no_kwargs]
                                      (Sample.loaded, Sample.cache_fs)))).
Proof.
  split; [reflexivity|].
  apply (C5_aggregate_dirty Sample.posix Sample.cache_fs (Some "/b")
                            Sample.loaded).
  reflexivity.
Defined.

(** A commit on the sample cache file after [X] is set to 2: the line of
    [X] gets the value, the comment and the line of [Y] stay. *)
Example commit_sample :
  match commit Sample.posix
               (fst (setvar Sample.loaded "X" "2" "STRING" no_kwargs))
               Sample.cache_fs (Some "/b") with
  | inr (c, fs, r) =>
      r = true /\ dirty c = false /\ any_dirty (items c) = false
      /\ files fs "/b/CMakeCache.txt"
         = Some ("X:STRING=2" ++ nl ++ "# a comment" ++ nl ++ "Y:BOOL=ON" ++ nl)%string
      /\ written fs = ["/b/CMakeCache.txt"; "/b/CMakeCache.txt"]
  | inl _ => False
  end.
Proof. vm_compute. repeat split. Qed.


End CacheFacts.

(** ** The lifecycle (build.py) *)

Section LifecycleFacts.
Import Py Sys Re Cache Run Cmany Lifecycle.
Local Open Scope py_scope.

(** *** Stepping through a method *)

Lemma bind_ok {W A B} (m : Run.M W A) (k : A -> Run.M W B) (w w' : W) (b : B) :
  bind m k w = Ok b w' <->
  exists a w1, m w = Ok a w1 /\ k a w1 = Ok b w'.
Proof.
  unfold bind. destruct (m w) as [a w1|e w1].
  - split; [intros H; now exists a, w1 | intros (a' & w1' & [= <- <-] & H); exact H].
  - split; [discriminate | intros (a' & w1' & [=] & _)].
Qed.

Lemma when_ok {W} (c : bool) (m : Run.M W unit) (w w' : W) :
  when c m w = Ok tt w' <->
  (c = true /\ m w = Ok tt w') \/ (c = false /\ w' = w).
Proof.
  unfold when, ret. destruct c.
  - split; [intros H; now left | intros [[_ H]|[H _]]; [exact H | discriminate]].
  - split; [intros [= <-]; now right | intros [[H _]|[_ ->]]; [discriminate | reflexivity]].
Qed.

(** Markers and files only ever appear through the program's own
    writes. *)
Lemma exists_makedirs (fs : FS) (d p : string) :
  exists_ (makedirs fs d) p = exists_ fs p || String.eqb p d.
Proof.
  unfold exists_, makedirs. simpl.
  destruct (String.eqb p d); destruct (dirs fs p); destruct (files fs p);
    reflexivity.
Qed.

Lemma exists_write_text (fs : FS) (q text p : string) :
  exists_ (write_text fs q text) p = exists_ fs p || String.eqb p q.
Proof.
  unfold exists_, write_text. simpl.
  destruct (String.eqb p q); destruct (dirs fs p); destruct (files fs p);
    reflexivity.
Qed.

Lemma needs_configure_value (b : Build) (w : World) :
  needs_configure b w = Ok (configure_needed b w) w.
Proof.
  unfold needs_configure, configure_needed, needs_cache_regeneration,
    path_exists, the_cache, bind, ret, configure_done.
  destruct (exists_ (fs w) (builddir b)); simpl; [|reflexivity].
  destruct (exists_ (fs w) (path_join (builddir b) "cmany_configure.done"));
    simpl; [|reflexivity].
  destruct (exists_ (fs w) (cachefile b) && dirty (caches w (varcache b)));
    reflexivity.
Qed.

Lemma configure_ends (T : Tools) (inner : Methods) (b : Build) (w w' : World) :
  configure T inner b w = Ok tt w' ->
  exists w1 g, fs w' = write_text (fs w1) (configure_done b)
                                  (join " " (configure_argv T b g) ++ nl)
               /\ caches w' = caches w1 /\ gens w' = gens w1
               /\ trace w' = trace w1.
Proof.
  unfold configure. intros H.
  apply bind_ok in H as (_ & w1 & _ & H).
  apply bind_ok in H as (_ & w2 & _ & H).
  apply bind_ok in H as (_ & w3 & _ & H).
  apply bind_ok in H as (r & w4 & _ & H).
  apply bind_ok in H as (_ & w5 & _ & H).
  apply bind_ok in H as (cmd & w6 & Hc & H).
  apply bind_ok in H as (_ & w7 & _ & H).
  unfold configure_cmd, the_generator, bind, ret in Hc. injection Hc as <- <-.
  unfold mark_configure_done, write_file in H. injection H as <-.
  exists w7, (gens w5 (generator b)). repeat split.
Qed.

(** What the small steps leave alone. *)
Lemma create_dir_ok (b : Build) (w : World) :
  create_dir b w = Ok tt (with_builddir b w)
  /\ exists_ (fs (with_builddir b w)) (builddir b) = true
  /\ (forall p, exists_ (fs w) p = true ->
                exists_ (fs (with_builddir b w)) p = true)
  /\ caches (with_builddir b w) = caches w
  /\ gens (with_builddir b w) = gens w
  /\ trace (with_builddir b w) = trace w
  /\ files (fs (with_builddir b w)) = files (fs w)
  /\ written (fs (with_builddir b w)) = written (fs w).
Proof.
  unfold with_builddir, create_dir.
  destruct (exists_ (fs w) (builddir b)) eqn:E; simpl.
  - repeat split; auto.
  - repeat split; auto.
    + rewrite exists_makedirs, String.eqb_refl. apply orb_true_r.
    + intros p H. now rewrite exists_makedirs, H.
Qed.

Lemma create_preload_file_ok (T : Tools) (b : Build) (w : World) :
  exists text,
    create_preload_file T b w
    = Ok (preload_file b)
         (with_fs (with_builddir b w)
                  (write_text (fs (with_builddir b w)) (preload_file b) text)).
Proof.
  unfold create_preload_file, bind.
  destruct (create_dir_ok b w) as (-> & _).
  unfold the_cache, write_file, ret. eexists. reflexivity.
Qed.

Lemma handle_deps_done (T : Tools) (inner : Methods) (b : Build) (w : World) :
  exists_ (fs w) (deps_marker b) = true -> handle_deps T inner b w = Ok tt w.
Proof.
  intros H. unfold handle_deps, deps_done, path_exists, bind.
  unfold deps_marker in H. now rewrite H.
Qed.

Lemma handle_conan_frame (T : Tools) (b : Build) (w w' : World) (e : exn) :
  (handle_conan T b w = Ok tt w' \/ handle_conan T b w = Raise e w') ->
  caches w' = caches w /\ gens w' = gens w /\ trace w' = trace w
  /\ written (fs w') = written (fs w).
Proof.
  unfold handle_conan. destruct (negb (with_conan (kwargs b))).
  - intros [[= <-]|[=]]. repeat split.
  - destruct (negb _).
    + intros [[= <-]|[=]]. repeat split.
    + destruct (conan_install T b (fs w)) as [ok fs']. unfold after_child. simpl.
      destruct ok; intros [[= <-]|[= _ <-]]; repeat split.
Qed.

Lemma handle_deps_idle (T : Tools) (inner : Methods) (b : Build) (w w' : World) :
  no_deps b \/ exists_ (fs w) (deps_marker b) = true ->
  handle_deps T inner b w = Ok tt w' ->
  caches w' = caches w /\ gens w' = gens w /\ trace w' = trace w.
Proof.
  intros [N|D] H.
  - unfold handle_deps, deps_done, path_exists in H.
    apply bind_ok in H as (done & w1 & [= <- <-] & H).
    destruct (exists_ _ _); [injection H as <-; repeat split|].
    unfold no_deps in N. rewrite N in H. simpl in H.
    apply bind_ok in H as ([] & w1 & Hc & H).
    unfold mark_deps_done, write_file in H. injection H as <-. simpl.
    destruct (handle_conan_frame T b w w1 ConanError (or_introl Hc))
      as (? & ? & ? & _).
    repeat split; assumption.
  - rewrite (handle_deps_done T inner b w D) in H. injection H as <-.
    repeat split.
Qed.

Lemma commit_clears (P : Platform) (c c' : CMakeCache) (fs fs' : FS)
      (d : string) (r : bool) :
  commit P c fs (Some d) = inr (c', fs', r) ->
  exists_ fs d = true -> exists_ fs (path_join d "CMakeCache.txt") = true ->
  dirty c' = false.
Proof.
  unfold commit. intros H E1 E2. rewrite E1, E2 in H. simpl in H.
  rewrite orb_false_r in H.
  destruct (dirty c) eqn:D; simpl in H.
  - destruct (setcachevars _ _ _ _); [discriminate|].
    now injection H as <- _ _.
  - now injection H as <- _ _.
Qed.

Lemma run_frame (T : Tools) (cwd : string) (cmd : list string) (w w' : World) :
  run T cwd cmd w = Ok tt w' ->
  caches w' = caches w /\ gens w' = gens w
  /\ trace w' = (trace w ++ [(cwd, cmd)])%list
  /\ written (fs w') = written (fs w).
Proof.
  unfold run, after_child.
  destruct (runsyscmd T cwd cmd (fs w)) as [ok fs']. simpl.
  destruct ok; [|discriminate]. intros [= <-]. repeat split.
Qed.

(** C6, as the code has it.  [needs_configure()] returns [True] exactly
    when the build directory does not exist, or the marker
    [cmany_configure.done] is not in it, or the cache file exists and the
    cache is dirty; so it returns [True] for a build directory that is not
    there.  After a [configure()] that returned, the marker is there, and
    [needs_configure()] returns [True] exactly when the build directory is
    gone or the cache file exists while the cache is still dirty.  The cache
    is clean after such a configure when it was clean before and the
    dependencies are not handled anew, and when the cache file was already
    there with the dependencies done, since the configure then commits. *)
Theorem C6_needs_configure (T : Tools) (inner : Methods) (b : Build) (w : World) :
  needs_configure b w = Ok (configure_needed b w) w
  /\ (exists_ (fs w) (builddir b) = false -> needs_configure b w = Ok true w)
  /\ (forall w', configure T inner b w = Ok tt w' ->
        exists_ (fs w') (configure_done b) = true
        /\ needs_configure b w'
           = Ok (negb (exists_ (fs w') (builddir b))
                 || (exists_ (fs w') (cachefile b)
                     && dirty (caches w' (varcache b)))) w'
        /\ (no_deps b \/ exists_ (fs w) (deps_marker b) = true ->
            dirty (caches w (varcache b)) = false ->
            dirty (caches w' (varcache b)) = false)
        /\ (exists_ (fs w) (deps_marker b) = true ->
            cachefile b = path_join (builddir b) "CMakeCache.txt" ->
            exists_ (fs w) (cachefile b) = true ->
            dirty (caches w' (varcache b)) = false)).
Proof.
  split; [apply needs_configure_value|]. split.
  - intros E. rewrite needs_configure_value. unfold configure_needed.
    now rewrite E.
  - intros w' H.
    assert (S : exists_ (fs w') (configure_done b) = true).
    { destruct (configure_ends T inner b w w' H) as (w1 & g & -> & _).
      rewrite exists_write_text, String.eqb_refl. apply orb_true_r. }
    split; [exact S|]. split.
    { rewrite needs_configure_value. unfold configure_needed. rewrite S.
      simpl. now rewrite orb_false_r. }
    unfold configure in H.
    apply bind_ok in H as ([] & w1 & H1 & H).
    destruct (create_dir_ok b w) as (E1 & Bd & Mono & C1 & G1 & _).
    rewrite E1 in H1. injection H1 as <-.
    apply bind_ok in H as (pf & w2 & H2 & H).
    destruct (create_preload_file_ok T b (with_builddir b w)) as (text & E2).
    rewrite E2 in H2. injection H2 as <- <-.
    set (w2 := with_fs _ _) in *.
    assert (Mono2 : forall p, exists_ (fs w) p = true -> exists_ (fs w2) p = true).
    { intros p Hp. subst w2. simpl. rewrite exists_write_text.
      destruct (create_dir_ok b (with_builddir b w)) as (_ & _ & M' & _).
      now rewrite (M' p (Mono p Hp)). }
    assert (C2 : caches w2 = caches w).
    { subst w2. simpl.
      destruct (create_dir_ok b (with_builddir b w)) as (_ & _ & _ & -> & _).
      exact C1. }
    apply bind_ok in H as ([] & w3 & H3 & H).
    apply bind_ok in H as (r & w4 & H4 & H).
    unfold needs_cache_regeneration, path_exists, the_cache, bind, ret in H4.
    injection H4 as <- <-.
    apply bind_ok in H as (r' & w5 & H5 & H).
    apply bind_ok in H as (cmd & w6 & H6 & H).
    unfold configure_cmd, the_generator, bind, ret in H6. injection H6 as <- <-.
    apply bind_ok in H as ([] & w7 & H7 & H).
    unfold mark_configure_done, write_file in H. injection H as <-. simpl.
    destruct (run_frame T _ _ _ _ H7) as (-> & _).
    split.
    + intros Idle Clean.
      assert (Idle2 : no_deps b \/ exists_ (fs w2) (deps_marker b) = true)
        by (destruct Idle as [N|D]; [now left | right; now apply Mono2]).
      destruct (handle_deps_idle T inner b w2 w3 Idle2 H3) as (C3 & _).
      rewrite C3, C2, Clean, andb_false_r in H5. injection H5 as _ <-.
      now rewrite C3, C2.
    + intros D CF E.
      rewrite (handle_deps_done T inner b w2 (Mono2 _ D)) in H3.
      injection H3 as <-.
      rewrite (Mono2 _ E), andb_true_l in H5.
      destruct (dirty (caches w2 (varcache b))) eqn:Dy.
      * unfold varcache_commit in H5.
        destruct (commit _ _ _ _) as [e|[[c' fs'] rr]] eqn:Cm; [discriminate|].
        injection H5 as _ <-. simpl. unfold upd. rewrite Nat.eqb_refl.
        apply (commit_clears _ _ _ _ _ _ _ Cm).
        -- subst w2. simpl. rewrite exists_write_text.
           destruct (create_dir_ok b (with_builddir b w)) as (_ & -> & _).
           reflexivity.
        -- rewrite <- CF. now apply Mono2.
      * injection H5 as _ <-. exact Dy.
Qed.

(** *** Building *)

Lemma varcache_commit_frame (T : Tools) (b : Build) (w w' : World) (r : bool) :
  varcache_commit T b w = Ok r w' ->
  gens w' = gens w /\ trace w' = trace w.
Proof.
  unfold varcache_commit.
  destruct (commit _ _ _ _) as [e|[[c' fs'] rr]]; [discriminate|].
  intros [= _ <-]. split; reflexivity.
Qed.

(** A configure without a dependency source runs one command. *)
Lemma configure_nodeps_trace (T : Tools) (inner : Methods) (b : Build)
      (w w' : World) :
  no_deps b -> configure T inner b w = Ok tt w' ->
  gens w' = gens w
  /\ trace w' = (trace w ++ [(builddir b,
                              configure_argv T b (gens w (generator b)))])%list.
Proof.
  intros N H. unfold configure in H.
  apply bind_ok in H as ([] & w1 & H1 & H).
  destruct (create_dir_ok b w) as (E1 & _ & _ & _ & G1 & T1 & _).
  rewrite E1 in H1. injection H1 as <-.
  apply bind_ok in H as (pf & w2 & H2 & H).
  destruct (create_preload_file_ok T b (with_builddir b w)) as (text & E2).
  rewrite E2 in H2. injection H2 as <- <-.
  set (w2 := with_fs _ _) in *.
  assert (G2 : gens w2 = gens w).
  { subst w2. simpl.
    destruct (create_dir_ok b (with_builddir b w)) as (_ & _ & _ & _ & -> & _).
    exact G1. }
  assert (T2 : trace w2 = trace w).
  { subst w2. simpl.
    destruct (create_dir_ok b (with_builddir b w))
      as (_ & _ & _ & _ & _ & -> & _).
    exact T1. }
  apply bind_ok in H as ([] & w3 & H3 & H).
  destruct (handle_deps_idle T inner b w2 w3 (or_introl N) H3) as (_ & G3 & T3).
  apply bind_ok in H as (r & w4 & H4 & H).
  unfold needs_cache_regeneration, path_exists, the_cache, bind, ret in H4.
  injection H4 as <- <-.
  apply bind_ok in H as (r' & w5 & H5 & H).
  assert (G5 : gens w5 = gens w3 /\ trace w5 = trace w3).
  { destruct (exists_ _ _ && _).
    - eapply varcache_commit_frame, H5.
    - injection H5 as _ <-. split; reflexivity. }
  destruct G5 as [G5 T5].
  apply bind_ok in H as (cmd & w6 & H6 & H).
  unfold configure_cmd, the_generator, bind, ret in H6. injection H6 as <- <-.
  apply bind_ok in H as ([] & w7 & H7 & H).
  unfold mark_configure_done, write_file in H. injection H as <-. simpl.
  destruct (run_frame T _ _ _ _ H7) as (_ & -> & -> & _).
  now rewrite G5, T5, G3, T3, G2, T2.
Qed.

(** The loop over the targets: one logged command for each, in order. *)
Lemma build_targets_ok (T : Tools) (b : Build) (ts : list string)
      (c0 r : option (list string)) (w w' : World) :
  build_targets T b ts c0 w = Ok r w' ->
  gens w' = gens w /\ caches w' = caches w
  /\ written (fs w') = written (fs w)
  /\ trace w'
     = (trace w ++ target_cmds T (gens w (generator b)) (builddir b) ts)%list
  /\ r = match ts with
         | [] => c0
         | _ => Some (gen_cmd T (gens w (generator b)) [last ts EmptyString])
         end.
Proof.
  revert c0 w. induction ts as [|t ts IH]; intros c0 w; simpl.
  - intros [= <- <-]. rewrite app_nil_r. repeat split.
  - intros H.
    apply bind_ok in H as (g & w1 & [= <- <-] & H).
    apply bind_ok in H as ([] & w2 & H2 & H).
    destruct (run_frame T _ _ _ _ H2) as (C2 & G2 & T2 & W2).
    destruct (IH _ _ H) as (G & C & W & Tr & R).
    rewrite G, C, W, Tr, T2, G2, C2, W2, <- app_assoc. simpl.
    repeat split. subst r. destruct ts; [reflexivity|]. now rewrite G2.
Qed.

(** Whether or not the loop gets through, what it has run is a command
    for each of the first targets. *)
Lemma build_targets_cons (T : Tools) (b : Build) (t : string)
      (ts : list string) (c0 : option (list string)) (w : World) :
  build_targets T b (t :: ts) c0 w
  = match run T (builddir b) (gen_cmd T (gens w (generator b)) [t]) w with
    | Ok _ w1 =>
        build_targets T b ts (Some (gen_cmd T (gens w (generator b)) [t])) w1
    | Raise e w1 => Raise e w1
    end.
Proof. reflexivity. Qed.

Lemma build_targets_any (T : Tools) (b : Build) (ts : list string)
      (c0 : option (list string)) (w : World) :
  exists k,
    k <= List.length ts
    /\ trace (world_of (build_targets T b ts c0 w))
       = (trace w ++ target_cmds T (gens w (generator b)) (builddir b)
                                 (firstn k ts))%list
    /\ (succeeded (build_targets T b ts c0 w) = true -> k = List.length ts).
Proof.
  revert c0 w. induction ts as [|t ts IH]; intros c0 w.
  - exists 0. simpl. rewrite app_nil_r. repeat split; auto.
  - rewrite build_targets_cons.
    destruct (run T (builddir b) (gen_cmd T (gens w (generator b)) [t]) w)
      as [[] w1|e w1] eqn:R.
    + destruct (run_frame T _ _ _ _ R) as (_ & G1 & T1 & _).
      destruct (IH (Some (gen_cmd T (gens w (generator b)) [t])) w1)
        as (k & Hk & Tr & Su).
      exists (S k). split; [simpl; lia|]. split.
      * rewrite Tr, T1, G1, <- app_assoc. reflexivity.
      * intros H. now rewrite (Su H).
    + exists 1. split; [simpl; lia|]. simpl. split; [|discriminate].
      unfold run, after_child in R.
      destruct (runsyscmd T _ _ _) as [ok fs']. simpl in R.
      destruct ok; [discriminate|]. now injection R as _ <-.
Qed.

Lemma before_targets_nodeps (T : Tools) (inner : Methods) (b : Build)
      (w w1 : World) :
  no_deps b -> before_targets T inner b w = Ok tt w1 ->
  gens w1 = gens w
  /\ trace w1
     = (trace w
        ++ if configure_needed b (with_builddir b w)
           then [(builddir b, configure_argv T b (gens w (generator b)))]
           else [])%list.
Proof.
  intros N H. unfold before_targets in H.
  apply bind_ok in H as ([] & wa & Ha & H).
  destruct (create_dir_ok b w) as (E1 & _ & _ & _ & G1 & T1 & _).
  rewrite E1 in Ha. injection Ha as <-.
  apply bind_ok in H as (nc & wb & Hb & H).
  rewrite needs_configure_value in Hb. injection Hb as <- <-.
  apply bind_ok in H as ([] & wc & Hc & H).
  destruct (handle_deps_idle T inner b wc w1 (or_introl N) H) as (_ & G & Tr).
  apply when_ok in Hc as [[-> Hc]|[-> ->]].
  - destruct (configure_nodeps_trace T inner b _ _ N Hc) as (Gc & Tc).
    now rewrite G, Tr, Gc, Tc, G1, T1.
  - now rewrite G, Tr, G1, T1, app_nil_r.
Qed.

Lemma build_split (T : Tools) (inner : Methods) (b : Build)
      (targets : list string) (w w' : World) :
  build T inner b targets w = Ok tt w' ->
  exists w1 w2 cmd,
    before_targets T inner b w = Ok tt w1
    /\ build_targets T b (build_target_list b targets) None w1 = Ok (Some cmd) w2
    /\ w' = with_fs w2 (write_text (fs w2) (build_done b) (join " " cmd ++ nl)).
Proof.
  unfold build, before_targets. intros H.
  apply bind_ok in H as ([] & wa & Ha & H).
  apply bind_ok in H as (nc & wb & Hb & H).
  apply bind_ok in H as ([] & wc & Hc & H).
  apply bind_ok in H as ([] & w1 & Hd & H).
  apply bind_ok in H as (cmd & w2 & He & H).
  destruct cmd as [cmd|]; [|discriminate].
  unfold mark_build_done, write_file in H. injection H as <-.
  exists w1, w2, cmd. split; [|split; [exact He | reflexivity]].
  apply bind_ok. exists tt, wa. split; [exact Ha|].
  apply bind_ok. exists nc, wb. split; [exact Hb|].
  apply bind_ok. exists tt, wc. split; [exact Hc | exact Hd].
Qed.

(** [build] of pycmake, step by step. *)
Lemma pycmake_build_unfold (PT : Pycmake.Tools) (pb : Pycmake.Build)
      (targets : list string) (pw : Pycmake.World) :
  let dir := Pycmake.builddir pb in
  let pw0 := world_of (Pycmake.create_dir pb pw) in
  let ts := if Pycmake.is_msvc (Pycmake.compiler pb)
               && Nat.eqb (List.length targets) 0
            then ["ALL_BUILD"] else targets in
  Pycmake.build PT pb targets pw
  = (when (negb (exists_ (Pycmake.fs pw0)
                         (path_join dir "pycmake_configure.done")))
          (Pycmake.configure PT pb) ;;
     c <- Pycmake.cmd PT (Pycmake.generator pb) dir ts pb ;;
     Pycmake.run PT dir c ;;
     Pycmake.write_file (path_join dir "pycmake_build.done")
                        (join " " c ++ nl)) pw0.
Proof.
  unfold Pycmake.build, Pycmake.create_dir, Pycmake.path_exists.
  unfold bind at 1.
  destruct (negb (exists_ (Pycmake.fs pw) (Pycmake.builddir pb))); reflexivity.
Qed.

(** The command that the generator gives is one of three, and asking for
    it changes nothing. *)
Lemma pycmake_cmd_value (PT : Pycmake.Tools) (pb : Pycmake.Build)
      (ts c : list string) (pw pw' : Pycmake.World) :
  let g := Pycmake.generator pb in
  Pycmake.cmd PT g (Pycmake.builddir pb) ts pb pw = Ok c pw' ->
  pw' = pw
  /\ (Pycmake.is_makefile g = true ->
      c = (["make"; "-j"; Pycmake.num_jobs g] ++ ts)%list)
  /\ (Pycmake.is_makefile g = false -> Pycmake.g_is_msvc g = true ->
      exists sln,
        (Pycmake.sln g = Some sln
         \/ (Pycmake.sln g = None
             /\ Pycmake.glob_sln PT (Pycmake.builddir pb) (Pycmake.fs pw)
                = [sln]))
        /\ c = [Pycmake.msbuild (Pycmake.compiler pb); sln;
                ("/maxcpucount:" ++ Pycmake.num_jobs g)%string;
                ("/property:Configuration="
                 ++ Pycmake.str (Pycmake.buildtype pb))%string;
                ("/target:" ++ join ";" ts)%string])
  /\ (Pycmake.is_makefile g = false -> Pycmake.g_is_msvc g = false ->
      c = (["cmake"; "--build"; "."; "--config";
            Pycmake.str (Pycmake.buildtype pb)]
           ++ map (fun t => ("--target " ++ t)%string) ts)%list).
Proof.
  intros g. unfold Pycmake.cmd. fold g.
  destruct (Pycmake.is_makefile g).
  - intros [= <- <-].
    split; [reflexivity|]. split; [reflexivity|]. split; discriminate.
  - destruct (Pycmake.g_is_msvc g).
    + intros H. apply bind_ok in H as (sl & w' & Hs & [= <- <-]).
      destruct (Pycmake.sln g) as [f|] eqn:S.
      * injection Hs as <- <-.
        split; [reflexivity|]. split; [discriminate|].
        split; [|discriminate]. intros _ _.
        exists f. split; [now left | reflexivity].
      * destruct (Pycmake.glob_sln PT _ _) as [|f [|? ?]] eqn:G;
          try discriminate.
        injection Hs as <- <-.
        split; [reflexivity|]. split; [discriminate|].
        split; [|discriminate]. intros _ _.
        exists f. split; [right; now split | reflexivity].
    + intros [= <- <-].
      split; [reflexivity|]. split; [discriminate|].
      split; [discriminate | reflexivity].
Qed.

(** [configure] of pycmake, when it returns, has run its one command. *)
Lemma pycmake_configure_trace (PT : Pycmake.Tools) (pb : Pycmake.Build)
      (pw pw' : Pycmake.World) :
  Pycmake.configure PT pb pw = Ok tt pw' ->
  Pycmake.trace pw'
  = (Pycmake.trace pw
     ++ [(Pycmake.builddir pb,
          ["cmake"; "-C"; Pycmake.basename (Pycmake.preload_file pb)]
          ++ Pycmake.configure_args (Pycmake.generator pb)
          ++ [Pycmake.projdir pb])])%list.
Proof.
  unfold Pycmake.configure. intros H.
  apply bind_ok in H as ([] & w1 & H1 & H).
  assert (T1 : Pycmake.trace w1 = Pycmake.trace pw).
  { unfold Pycmake.create_dir in H1.
    destruct (negb (exists_ (Pycmake.fs pw) (Pycmake.builddir pb)));
      now injection H1 as <-. }
  apply bind_ok in H as (e & w2 & [= <- <-] & H).
  apply bind_ok in H as (x & w3 & H3 & H).
  assert (T3 : Pycmake.trace w3 = Pycmake.trace w1).
  { destruct (negb (exists_ (Pycmake.fs w1) (Pycmake.preload_file pb))).
    - unfold Pycmake.create_preload_file in H3.
      apply bind_ok in H3 as ([] & w' & _ & H3). discriminate.
    - now injection H3 as _ <-. }
  apply bind_ok in H as ([] & w4 & H4 & H).
  unfold Pycmake.write_file in H. injection H as <-. simpl.
  unfold Pycmake.run, after_child in H4.
  destruct (Pycmake.runsyscmd PT _ _ _) as [ok fs']. simpl in H4.
  destruct ok; [|discriminate]. injection H4 as <-. simpl.
  now rewrite T3, T1.
Qed.

(** [build] of pycmake, when it returns: [configure] came first if the
    marker of the configuration was not there, then one command with all
    the targets was run, and it is in the marker of the build. *)
Lemma pycmake_build_steps (PT : Pycmake.Tools) (pb : Pycmake.Build)
      (targets : list string) (pw pw' : Pycmake.World) :
  let dir := Pycmake.builddir pb in
  let pw0 := world_of (Pycmake.create_dir pb pw) in
  let ts := if Pycmake.is_msvc (Pycmake.compiler pb)
               && Nat.eqb (List.length targets) 0
            then ["ALL_BUILD"] else targets in
  Pycmake.build PT pb targets pw = Ok tt pw' ->
  exists pw1 c,
    (if exists_ (Pycmake.fs pw0) (path_join dir "pycmake_configure.done")
     then pw1 = pw0
     else Pycmake.configure PT pb pw0 = Ok tt pw1)
    /\ Pycmake.cmd PT (Pycmake.generator pb) dir ts pb pw1 = Ok c pw1
    /\ Pycmake.trace pw' = (Pycmake.trace pw1 ++ [(dir, c)])%list
    /\ files (Pycmake.fs pw') (path_join dir "pycmake_build.done")
       = Some (join " " c ++ nl)%string.
Proof.
  intros dir pw0 ts. rewrite pycmake_build_unfold. fold dir pw0 ts. intros H.
  apply bind_ok in H as ([] & pw1 & H1 & H).
  apply bind_ok in H as (c & w2 & H2 & H).
  destruct (pycmake_cmd_value PT pb ts c pw1 w2 H2) as (-> & _).
  apply bind_ok in H as ([] & w3 & H3 & H).
  unfold Pycmake.write_file in H. injection H as <-.
  exists pw1, c. split; [|split; [exact H2|split]].
  - destruct (exists_ (Pycmake.fs pw0) _); simpl in H1;
      [now injection H1 as <- | exact H1].
  - simpl. unfold Pycmake.run, after_child in H3.
    destruct (Pycmake.runsyscmd PT _ _ _) as [ok fs']. simpl in H3.
    destruct ok; [|discriminate]. now injection H3 as <-.
  - simpl. now rewrite String.eqb_refl.
Qed.

Lemma before_targets_unfold (T : Tools) (inner : Methods) (b : Build) (w : World) :
  before_targets T inner b w
  = (when (configure_needed b (with_builddir b w)) (configure T inner b) ;;
     handle_deps T inner b) (with_builddir b w).
Proof.
  unfold before_targets, bind at 1.
  destruct (create_dir_ok b w) as (-> & _).
  unfold bind at 1. now rewrite needs_configure_value.
Qed.

(** C7, as the two programs have it.  In cmany, [build] takes
    ["ALL_BUILD"] (Visual Studio compiler) or ["all"] for an empty target
    list; it creates the directory, runs [configure()] exactly when
    [needs_configure()] says so, then [handle_deps()]; then it runs one
    command for each target, in order, each with that one target, and writes
    [cmany_build.done] with the last command.  Without a dependency source
    the commands of a build that returns are the configure command, if
    configuring was needed, followed by the commands of the targets.  A loop
    that a failing command cuts short has run the commands of the first
    targets.  In pycmake, [build] creates the directory and runs
    [configure()] exactly when [pycmake_configure.done] is not there: a
    [configure()] that raises ends the build, one that returns has run the
    one configure command.  An empty target list stays empty unless the
    compiler is Visual Studio, which gets ["ALL_BUILD"].  Then one command
    that carries all the targets is run, make, msbuild on the solution file
    or cmake --build as the generator has it, and [pycmake_build.done]
    records it. *)
Theorem C7_build (T : Tools) (inner : Methods) (b : Build)
        (targets : list string) (w : World) :
  (* the targets *)
  build_target_list b []
  = (if is_msvc (compiler b) then ["ALL_BUILD"] else ["all"])
  /\ (targets <> [] -> build_target_list b targets = targets)
  (* configure first, exactly when it is needed *)
  /\ before_targets T inner b w
     = (when (configure_needed b (with_builddir b w)) (configure T inner b) ;;
        handle_deps T inner b) (with_builddir b w)
  (* then one command for each target, and the marker *)
  /\ (forall w',
         build T inner b targets w = Ok tt w' ->
         exists w1,
           before_targets T inner b w = Ok tt w1
           /\ trace w'
              = (trace w1 ++ target_cmds T (gens w1 (generator b)) (builddir b)
                                         (build_target_list b targets))%list
           /\ files (fs w') (build_done b)
              = Some (join " " (gen_cmd T (gens w1 (generator b))
                                        [last (build_target_list b targets)
                                              EmptyString]) ++ nl)%string
           /\ (no_deps b ->
               gens w1 = gens w
               /\ trace w1
                  = (trace w
                     ++ if configure_needed b (with_builddir b w)
                        then [(builddir b,
                               configure_argv T b (gens w (generator b)))]
                        else [])%list))
  (* a loop that is cut short has run the first targets, one by one *)
  /\ (forall w1 c0, exists k,
         k <= List.length (build_target_list b targets)
         /\ trace (world_of (build_targets T b (build_target_list b targets)
                                           c0 w1))
            = (trace w1 ++ target_cmds T (gens w1 (generator b)) (builddir b)
                             (firstn k (build_target_list b targets)))%list)
  (* pycmake: configure when its marker is absent, then one command with
     all the targets *)
  /\ (forall (PT : Pycmake.Tools) (pb : Pycmake.Build) (pw : Pycmake.World),
         let g := Pycmake.generator pb in
         let dir := Pycmake.builddir pb in
         let pw0 := world_of (Pycmake.create_dir pb pw) in
         let ts := if Pycmake.is_msvc (Pycmake.compiler pb)
                      && Nat.eqb (List.length targets) 0
                   then ["ALL_BUILD"] else targets in
         Pycmake.build PT pb targets pw
         = (when (negb (exists_ (Pycmake.fs pw0)
                                (path_join dir "pycmake_configure.done")))
                 (Pycmake.configure PT pb) ;;
            c <- Pycmake.cmd PT g dir ts pb ;;
            Pycmake.run PT dir c ;;
            Pycmake.write_file (path_join dir "pycmake_build.done")
                               (join " " c ++ nl)) pw0
         /\ (exists_ (Pycmake.fs pw0) (path_join dir "pycmake_configure.done")
             = false ->
             forall e pw1, Pycmake.configure PT pb pw0 = Raise e pw1 ->
                           Pycmake.build PT pb targets pw = Raise e pw1)
         /\ (forall pw',
                Pycmake.build PT pb targets pw = Ok tt pw' ->
                exists pw1 c,
                  (if exists_ (Pycmake.fs pw0)
                              (path_join dir "pycmake_configure.done")
                   then pw1 = pw0
                   else Pycmake.configure PT pb pw0 = Ok tt pw1
                        /\ Pycmake.trace pw1
                           = (Pycmake.trace pw
                              ++ [(dir,
                                   ["cmake"; "-C";
                                    Pycmake.basename (Pycmake.preload_file pb)]
                                   ++ Pycmake.configure_args g
                                   ++ [Pycmake.projdir pb])])%list)
                  /\ Pycmake.cmd PT g dir ts pb pw1 = Ok c pw1
                  /\ Pycmake.trace pw' = (Pycmake.trace pw1 ++ [(dir, c)])%list
                  /\ files (Pycmake.fs pw') (path_join dir "pycmake_build.done")
                     = Some (join " " c ++ nl)%string
                  /\ (Pycmake.is_makefile g = true ->
                      c = (["make"; "-j"; Pycmake.num_jobs g] ++ ts)%list)
                  /\ (Pycmake.is_makefile g = false ->
                      Pycmake.g_is_msvc g = true ->
                      exists sln,
                        (Pycmake.sln g = Some sln
                         \/ (Pycmake.sln g = None
                             /\ Pycmake.glob_sln PT dir (Pycmake.fs pw1)
                                = [sln]))
                        /\ c = [Pycmake.msbuild (Pycmake.compiler pb); sln;
                                ("/maxcpucount:" ++ Pycmake.num_jobs g)%string;
                                ("/property:Configuration="
                                 ++ Pycmake.str (Pycmake.buildtype pb))%string;
                                ("/target:" ++ join ";" ts)%string])
                  /\ (Pycmake.is_makefile g = false ->
                      Pycmake.g_is_msvc g = false ->
                      c = (["cmake"; "--build"; "."; "--config";
                            Pycmake.str (Pycmake.buildtype pb)]
                           ++ map (fun t => ("--target " ++ t)%string) ts)%list))).
Proof.
  split; [reflexivity|]. split.
  { intros N. destruct targets; [congruence | reflexivity]. }
  split; [apply before_targets_unfold|]. split; [|split].
  - intros w' H.
    destruct (build_split T inner b targets w w' H) as (w1 & w2 & cmd & B & L & ->).
    exists w1. split; [exact B|].
    destruct (build_targets_ok T b _ _ _ _ _ L) as (_ & _ & _ & Tr & R).
    split; [exact Tr|]. split.
    + simpl. unfold build_done. rewrite String.eqb_refl.
      assert (cmd = gen_cmd T (gens w1 (generator b))
                            [last (build_target_list b targets) EmptyString]).
      { destruct (build_target_list b targets) eqn:E; [discriminate|].
        now injection R as ->. }
      now subst cmd.
    + intros N. destruct (before_targets_nodeps T inner b w w1 N B).
      split; assumption.
  - intros w1 c0.
    destruct (build_targets_any T b (build_target_list b targets) c0 w1)
      as (k & Hk & Tr & _).
    exists k. split; assumption.
  - intros PT pb pw g dir pw0 ts.
    pose proof (pycmake_build_unfold PT pb targets pw) as U.
    cbv zeta in U. fold g dir pw0 ts in U.
    split; [exact U|]. split.
    + intros S e pw1 C. rewrite U, S. simpl. unfold bind at 1. now rewrite C.
    + intros pw' H.
      destruct (pycmake_build_steps PT pb targets pw pw' H)
        as (pw1 & c & C & Hc & Tr & Mk).
      fold g dir pw0 ts in C, Hc, Tr, Mk.
      exists pw1, c.
      destruct (pycmake_cmd_value PT pb ts c pw1 pw1 Hc) as (_ & K1 & K2 & K3).
      fold g dir in K1, K2, K3.
      split; [|repeat split; assumption].
      destruct (exists_ (Pycmake.fs pw0) _); [exact C|].
      split; [exact C|].
      rewrite (pycmake_configure_trace PT pb pw0 pw1 C). fold g dir.
      unfold pw0, Pycmake.create_dir.
      now destruct (negb (exists_ (Pycmake.fs pw) (Pycmake.builddir pb))).
Qed.

(** *** Dependencies *)

(** The copy has no dependency source, so its methods never reach the
    nested ones: any two choices of them give the same runs. *)
Lemma copy_runs_alone (T : Tools) (inner inner' : Methods) (b : Build)
      (d : string) (w : World) :
  handle_deps T inner (deps_copy b d) w = handle_deps T inner' (deps_copy b d) w
  /\ configure T inner (deps_copy b d) w = configure T inner' (deps_copy b d) w
  /\ (forall ts, build T inner (deps_copy b d) ts w
                 = build T inner' (deps_copy b d) ts w)
  /\ install T inner (deps_copy b d) w = install T inner' (deps_copy b d) w.
Proof. repeat split. Qed.

Lemma methods_depth (T : Tools) (n : nat) (b : Build) (w : World) :
  handle_deps T (methods T (S n)) b w = handle_deps T (methods T 1) b w.
Proof. reflexivity. Qed.

Lemma setvar_stores (c : CMakeCache) (n v t : string) (kw : Kwargs) :
  option_map (fun x => (val x, vartype x))
             (get (items (fst (setvar c n v t kw))) n) = Some (v, t).
Proof.
  unfold setvar. destruct (get (items c) n) as [v0|] eqn:G.
  - unfold reset.
    destruct (negb (String.eqb v (val v0)) || negb (String.eqb t (vartype v0)))
      eqn:E; simpl.
    + now rewrite get_set_same.
    + apply orb_false_iff in E as [E1 E2].
      apply negb_false_iff, String.eqb_eq in E1, E2. subst v t.
      destruct (force_dirty kw); simpl; now rewrite get_set_same.
  - simpl. now rewrite get_set_same.
Qed.




(** A configure of a build without a dependency source and without conan,
    in a directory that has a cache file, while the cache file that the build
    points at exists and the cache is dirty: the dirty values are written into
    the directory's cache file and the cache comes out clean. *)
Lemma configure_commits (T : Tools) (inner : Methods) (x : Build)
      (w w' : World) :
  no_deps x -> with_conan (kwargs x) = false ->
  exists_ (fs w) (cachefile x) = true ->
  exists_ (fs w) (path_join (builddir x) "CMakeCache.txt") = true ->
  dirty (caches w (varcache x)) = true ->
  configure T inner x w = Ok tt w' ->
  dirty (caches w' (varcache x)) = false
  /\ In (path_join (builddir x) "CMakeCache.txt") (written (fs w')).
Proof.
  intros N NC E1 E2 Dy H. unfold configure in H.
  apply bind_ok in H as ([] & w1 & H1 & H).
  destruct (create_dir_ok x w) as (Ec & Bd & Mono & C1 & _).
  rewrite Ec in H1. injection H1 as <-.
  apply bind_ok in H as (pf & w2 & H2 & H).
  destruct (create_preload_file_ok T x (with_builddir x w)) as (text & Ep).
  rewrite Ep in H2. injection H2 as <- <-.
  set (w2 := with_fs _ _) in *.
  assert (Mono2 : forall q, exists_ (fs w) q = true -> exists_ (fs w2) q = true).
  { intros q Hq. subst w2. simpl. rewrite exists_write_text.
    destruct (create_dir_ok x (with_builddir x w)) as (_ & _ & M' & _).
    now rewrite (M' q (Mono q Hq)). }
  assert (C2 : caches w2 = caches w).
  { subst w2. simpl.
    destruct (create_dir_ok x (with_builddir x w)) as (_ & _ & _ & -> & _).
    exact C1. }
  assert (B2 : exists_ (fs w2) (builddir x) = true).
  { subst w2. simpl. rewrite exists_write_text.
    destruct (create_dir_ok x (with_builddir x w)) as (_ & -> & _).
    reflexivity. }
  apply bind_ok in H as ([] & w3 & H3 & H).
  assert (F3 : caches w3 = caches w2
               /\ forall q, exists_ (fs w2) q = true -> exists_ (fs w3) q = true).
  { unfold handle_deps, deps_done, path_exists in H3.
    apply bind_ok in H3 as (done & wd & [= <- <-] & H3).
    set (dn := exists_ _ (path_join (builddir x) "cmany_deps.done")) in H3.
    destruct dn; [injection H3 as <-; split; auto|].
    unfold no_deps in N. rewrite N in H3. simpl in H3.
    unfold handle_conan in H3. rewrite NC in H3. simpl in H3.
    apply bind_ok in H3 as ([] & we & [= <-] & H3).
    unfold mark_deps_done, write_file in H3. injection H3 as <-. simpl.
    split; [reflexivity|]. intros q Hq. now rewrite exists_write_text, Hq. }
  destruct F3 as [C3 Mono3].
  apply bind_ok in H as (r & w4 & H4 & H).
  unfold needs_cache_regeneration, path_exists, the_cache, bind, ret in H4.
  injection H4 as <- <-.
  rewrite (Mono3 _ (Mono2 _ E1)), C3, C2, Dy in H. simpl in H.
  apply bind_ok in H as (r' & w5 & H5 & H).
  unfold varcache_commit in H5.
  destruct (commit _ _ _ _) as [e|[[c' fs'] rr]] eqn:Cm; [discriminate|].
  injection H5 as _ <-.
  assert (Cl : dirty c' = false).
  { apply (commit_clears _ _ _ _ _ _ _ Cm).
    - now apply Mono3.
    - now apply Mono3, Mono2. }
  assert (Wr : In (path_join (builddir x) "CMakeCache.txt") (written fs')).
  { unfold commit in Cm.
    rewrite C3, C2, Dy, (Mono3 _ B2), (Mono3 _ (Mono2 _ E2)) in Cm.
    simpl in Cm. unfold setcachevars in Cm.
    destruct (files (fs w3) _); [|discriminate].
    destruct (setcachevars_lines _ _ _); [|discriminate].
    injection Cm as _ <- _. simpl. apply in_or_app. right. now left. }
  apply bind_ok in H as (cmd & w6 & H6 & H).
  unfold configure_cmd, the_generator, bind, ret in H6. injection H6 as <- <-.
  apply bind_ok in H as ([] & w7 & H7 & H).
  unfold mark_configure_done, write_file in H. injection H as <-. simpl.
  destruct (run_frame T _ _ _ _ H7) as (-> & _ & _ & ->). simpl.
  unfold upd. rewrite Nat.eqb_refl. split; [exact Cl|].
  apply in_or_app. now left.
Qed.

(** C10.  The copy that [handle_deps] makes refers to the cache object,
    generator and flag containers of the parent; it keeps the parent's
    [cachefile] and [tag] while its [builddir] is the nested directory (a
    recomputation would have put the cache file under the build directory).
    Whatever is read or changed through the copy's cache is read or changed
    in the parent's.  When the parent's cache file and a cache file of the
    dependency both exist and the cache is dirty, a configure of the copy
    that returns has written to the dependency's cache file and left the
    parent's cache clean. *)
Theorem C10_shared_cache (T : Tools) (inner : Methods) (b : Build) (d : string)
        (w : World) :
  let dup := deps_copy b d in
  (* a shallow copy: the same cache object, generator and flag containers *)
  (varcache dup = varcache b /\ generator dup = generator b
   /\ flags dup = flags b /\ system dup = system b
   /\ architecture dup = architecture b /\ buildtype dup = buildtype b
   /\ compiler dup = compiler b /\ variant dup = variant b
   /\ kwargs dup = kwargs b)
  (* the paths that [_set_paths] would recompute are the parent's *)
  /\ (cachefile dup = cachefile b /\ tag dup = tag b
      /\ builddir dup = path_join (builddir b) "cmany_deps-build"
      /\ forall x, cachefile (_set_paths T x)
                   = path_join (builddir (_set_paths T x)) "CMakeCache.txt")
  (* one cache: what the copy reads and writes is what the parent has *)
  /\ the_cache dup w = the_cache b w
  /\ needs_cache_regeneration dup w = needs_cache_regeneration b w
  /\ (forall (A : Type) (f : CMakeCache -> CMakeCache * A),
         caches (world_of (on_cache dup f w)) (varcache b)
         = fst (f (caches w (varcache b))))
  (* a configure of the copy can clear the parent's dirty flags, writing the
     parent's dirty values into the cache file of the dependency *)
  /\ (forall w',
         with_conan (kwargs b) = false ->
         exists_ (fs w) (cachefile b) = true ->
         exists_ (fs w) (path_join (builddir dup) "CMakeCache.txt") = true ->
         dirty (caches w (varcache b)) = true ->
         configure T inner dup w = Ok tt w' ->
         dirty (caches w' (varcache b)) = false
         /\ In (path_join (builddir dup) "CMakeCache.txt") (written (fs w'))).
Proof.
  intros dup. split; [repeat split|]. split; [repeat split|].
  split; [reflexivity|]. split; [reflexivity|]. split.
  - intros A f. unfold on_cache. simpl.
    destruct (f (caches w (varcache b))) as [c' a]. simpl.
    unfold upd. now rewrite Nat.eqb_refl.
  - intros w' NC E1 E2 Dy H.
    apply (configure_commits T inner dup w w'); try assumption; reflexivity.
Qed.

(** *** Raw assignments *)

Lemma split_nonempty (c : ascii) (s : string) : split c s <> [].
Proof.
  destruct s as [|a s]; simpl; [discriminate|].
  destruct (Ascii.eqb a c); [discriminate|].
  destruct (split c s); discriminate.
Qed.

Lemma split_plain (c : ascii) (s : string) :
  mem c s = false -> split c s = [s].
Proof.
  induction s as [|a s IH]; simpl; [reflexivity|].
  intros H. apply orb_false_iff in H as [Ha Hs].
  now rewrite Ha, (IH Hs).
Qed.

Lemma split_at (c : ascii) (a r : string) :
  mem c a = false -> split c (a ++ String c r) = a :: split c r.
Proof.
  induction a as [|x a IH]; simpl.
  - now rewrite Ascii.eqb_refl.
  - intros H. apply orb_false_iff in H as [Hx Ha].
    now rewrite Hx, (IH Ha).
Qed.

Lemma join_split_without (c : ascii) (s : string) :
  join EmptyString (split c s) = without c s.
Proof.
  induction s as [|a s IH]; [reflexivity|].
  simpl. destruct (Ascii.eqb a c).
  - destruct (split c s) as [|h t] eqn:E; [now apply split_nonempty in E|].
    exact IH.
  - destruct (split c s) as [|h t] eqn:E; [now apply split_nonempty in E|].
    change (join EmptyString (String a h :: t))
      with (writelines (String a h :: t)).
    change (join EmptyString (h :: t)) with (writelines (h :: t)) in IH.
    rewrite concat_empty_cons in *. simpl. now rewrite IH.
Qed.

Lemma without_plain (c : ascii) (s : string) :
  mem c s = false -> without c s = s.
Proof.
  induction s as [|a s IH]; simpl; [reflexivity|].
  intros H. apply orb_false_iff in H as [Ha Hs].
  now rewrite Ha, (IH Hs).
Qed.

Lemma parse_typed (n t v : string) :
  mem ":" n = false -> mem "=" n = false ->
  mem ":" t = false -> mem "=" t = false ->
  parse_assignment (n ++ ":" ++ t ++ "=" ++ v) = Typed n (without "=" v) t.
Proof.
  intros Cn En Ct Et. unfold parse_assignment.
  assert (S1 : split "=" (n ++ ":" ++ t ++ "=" ++ v)
               = (n ++ ":" ++ t)%string :: split "=" v).
  { replace (n ++ ":" ++ t ++ "=" ++ v)%string
      with ((n ++ ":" ++ t) ++ String "=" v)%string
      by (now rewrite append_assoc_s).
    apply split_at. rewrite mem_append, En. simpl. exact Et. }
  rewrite S1. simpl hd. simpl tl.
  assert (L : Nat.ltb 1 (List.length ((n ++ ":" ++ t)%string :: split "=" v))
              = true).
  { destruct (split "=" v) eqn:E; [now apply split_nonempty in E|]. reflexivity. }
  rewrite L, join_split_without.
  change (n ++ ":" ++ t)%string with (n ++ String ":" t)%string.
  now rewrite (split_at ":" n t Cn), (split_plain ":" t Ct).
Qed.

Lemma parse_no_equals (n t : string) :
  mem ":" n = false -> mem "=" n = false ->
  mem ":" t = false -> mem "=" t = false ->
  parse_assignment (n ++ ":" ++ t) = Typed n EmptyString t.
Proof.
  intros Cn En Ct Et. unfold parse_assignment.
  rewrite (split_plain "=" (n ++ ":" ++ t))
    by (rewrite mem_append, En; simpl; exact Et).
  simpl. change (n ++ ":" ++ t)%string with (n ++ String ":" t)%string.
  now rewrite (split_at ":" n t Cn), (split_plain ":" t Ct).
Qed.

Lemma parse_unparsed (v : string) :
  parse_assignment v = Unparsed
  <-> 2 < List.length (split ":" (hd EmptyString (split "=" v))).
Proof.
  unfold parse_assignment.
  destruct (split ":" (hd EmptyString (split "=" v))) as [|a [|b [|c l]]] eqn:E;
    simpl; split; try discriminate; try lia; try reflexivity.
  now apply split_nonempty in E.
Qed.

(** C9, as the code has it by design.  An assignment [NAME:TYPE=VALUE]
    is read as name, type and the value with any further equals sign
    dropped, so [VALUE] itself when it has none; [NAME:TYPE] without an
    equals sign is read as name, type and the empty value.  Either is stored
    in the cache under that name with that value and type.  An assignment
    whose part before the first equals sign has more than two pieces between
    colons raises ["could not parse variable value: "] followed by the
    assignment, and changes nothing. *)
Theorem C9_assignments (b : Build) (w : World) :
  (* NAME:TYPE=VALUE *)
  (forall n t v,
      mem ":" n = false -> mem "=" n = false ->
      mem ":" t = false -> mem "=" t = false ->
      parse_assignment (n ++ ":" ++ t ++ "=" ++ v) = Typed n (without "=" v) t
      /\ (mem "=" v = false -> without "=" v = v))
  (* NAME:TYPE, without an equals sign *)
  /\ (forall n t,
         mem ":" n = false -> mem "=" n = false ->
         mem ":" t = false -> mem "=" t = false ->
         parse_assignment (n ++ ":" ++ t) = Typed n EmptyString t)
  (* a typed assignment is stored *)
  /\ (forall v n value t,
         parse_assignment v = Typed n value t ->
         exists w',
           gather_cmake_var b v w = Ok tt w'
           /\ cache_value w' b n = Some (value, t)
           /\ fs w' = fs w /\ trace w' = trace w)
  (* more than two pieces before the equals sign *)
  /\ (forall v,
         2 < List.length (split ":" (hd EmptyString (split "=" v))) ->
         gather_cmake_var b v w
         = Raise (Exception ("could not parse variable value: " ++ v)) w).
Proof.
  split; [|split; [|split]].
  - intros n t v Cn En Ct Et. split; [now apply parse_typed|].
    apply without_plain.
  - apply parse_no_equals.
  - intros v n value t Pa. unfold gather_cmake_var. rewrite Pa.
    unfold bind, on_cache, ret.
    destruct (setvar (caches w (varcache b)) n value t input_kwargs)
      as [c' ch] eqn:Sv.
    eexists. split; [reflexivity|]. simpl. split; [|split; reflexivity].
    unfold cache_value. simpl. unfold upd. rewrite Nat.eqb_refl.
    replace c' with (fst (setvar (caches w (varcache b)) n value t input_kwargs))
      by now rewrite Sv.
    apply setvar_stores.
  - intros v L. apply parse_unparsed in L. unfold gather_cmake_var.
    now rewrite L.
Qed.
(** *** The samples *)

(** C6 as stated fails on a fresh build directory: the constructor leaves
    the input variables dirty, the first configure has no cache file to
    commit to, cmake then writes one, and [needs_configure()] is still
    [True] though no variable has changed since. *)
Lemma C6_counterexample :
  value_of (Sample.construct Sample.tools Sample.no_kw "none")
  = Some Sample.fresh_build
  /\ exists_ (fs (world_of (Sample.construct Sample.tools Sample.no_kw "none")))
             (builddir Sample.fresh_build) = false
  /\ succeeded (Build_configure Sample.tools Sample.fresh_build
                  (world_of (Sample.construct Sample.tools Sample.no_kw "none")))
     = true
  /\ caches (world_of
               (Build_configure Sample.tools Sample.fresh_build
                  (world_of (Sample.construct Sample.tools Sample.no_kw "none"))))
            0
     = caches (world_of (Sample.construct Sample.tools Sample.no_kw "none")) 0
  /\ value_of (needs_configure Sample.fresh_build
                 (world_of
                    (Build_configure Sample.tools Sample.fresh_build
                       (world_of (Sample.construct Sample.tools Sample.no_kw
                                                   "none")))))
     = Some true.
Proof. vm_compute. repeat split. Qed.

(** C7 as stated fails on pycmake: two targets go into one command, and
    an empty target list with gcc gives a command without a target. *)
Lemma C7_counterexample :
  Pycmake.trace (world_of (Pycmake.build Sample.py_tools Sample.py_build
                                         ["a"; "b"] Sample.py_w0))
  = [("/build/linux-x86_64-gcc5.4-Release", ["make"; "-j"; "4"; "a"; "b"])]
  /\ succeeded (Pycmake.build Sample.py_tools Sample.py_build ["a"; "b"]
                              Sample.py_w0) = true
  /\ Pycmake.trace (world_of (Pycmake.build Sample.py_tools Sample.py_build
                                            [] Sample.py_w0))
     = [("/build/linux-x86_64-gcc5.4-Release", ["make"; "-j"; "4"])]
  /\ succeeded (Pycmake.build Sample.py_tools Sample.py_build [] Sample.py_w0)
     = true.
Proof. vm_compute. repeat split. Qed.

(** The same two calls on cmany: a command for each target, and ["all"]
    for the empty list, after the one configure command. *)
Example build_sample :
  map snd (trace (world_of (Build_build Sample.tools Sample.fresh_build
                              ["a"; "b"]
                              (world_of (Sample.construct Sample.tools
                                                          Sample.no_kw "none")))))
  = [["cmake"; "-C"; "/build/linux-x86_64-gcc5.4-Release/cmany_preload.cmake";
      "-G"; "Unix Makefiles"; "/proj"];
     ["make"; "a"]; ["make"; "b"]]
  /\ map snd (trace (world_of (Build_build Sample.tools Sample.fresh_build []
                                 (world_of (Sample.construct Sample.tools
                                                             Sample.no_kw
                                                             "none")))))
     = [["cmake"; "-C"; "/build/linux-x86_64-gcc5.4-Release/cmany_preload.cmake";
         "-G"; "Unix Makefiles"; "/proj"];
        ["make"; "all"]].
Proof. vm_compute. split; reflexivity. Qed.

(** C9 as stated fails on an assignment without an equals sign: it is
    stored with the empty value, and nothing is raised. *)
Lemma C9_counterexample :
  mem "=" "FOO:BOOL" = false
  /\ succeeded (gather_cmake_var Sample.fresh_build "FOO:BOOL" Sample.w0) = true
  /\ get (items (caches (world_of (gather_cmake_var Sample.fresh_build
                                                    "FOO:BOOL" Sample.w0)) 0))
         "FOO"
     = Some (mkVar "FOO" EmptyString "BOOL" true false).
Proof. vm_compute. repeat split. Qed.

(** A dependency whose install command fails: [handle_deps] returns all
    the same, with the prefix path set and the marker written. *)
Example handle_deps_sample :
  value_of (Sample.construct Sample.tools_no_install Sample.deps_kw "none")
  = Some Sample.deps_build
  /\ succeeded
       (m_install (methods Sample.tools_no_install 1)
          (deps_copy Sample.deps_build "/deps")
          (world_of (Sample.construct Sample.tools_no_install Sample.deps_kw
                                      "none"))) = false
  /\ succeeded
       (Build_handle_deps Sample.tools_no_install Sample.deps_build
          (world_of (Sample.construct Sample.tools_no_install Sample.deps_kw
                                      "none"))) = true
  /\ cache_value
       (world_of
          (Build_handle_deps Sample.tools_no_install Sample.deps_build
             (world_of (Sample.construct Sample.tools_no_install Sample.deps_kw
                                         "none"))))
       Sample.deps_build "CMAKE_PREFIX_PATH"
     = Some ("/install/linux-x86_64-gcc5.4-Release", "PATH").
Proof. vm_compute. repeat split. Qed.

End LifecycleFacts.

(** ** The theorems on the sample values *)

Section Witnesses.
Import Py Sys Re Cache CacheOps Run Cmany Lifecycle SampleRuns.
Local Open Scope py_scope.


(** C6 on the sample: after the first configure of the fresh build. *)
Lemma C6_witness :
  configure Sample.tools (methods Sample.tools 1) Sample.fresh_build
            fresh_world = Ok tt configured_world
  /\ exists_ (fs configured_world) (configure_done Sample.fresh_build) = true
  /\ needs_configure Sample.fresh_build configured_world
     = Ok (negb (exists_ (fs configured_world) (builddir Sample.fresh_build))
           || (exists_ (fs configured_world) (cachefile Sample.fresh_build)
               && dirty (caches configured_world
                                (varcache Sample.fresh_build))))
          configured_world.
Proof.
  assert (H : configure Sample.tools (methods Sample.tools 1)
                        Sample.fresh_build fresh_world
              = Ok tt configured_world) by (vm_compute; reflexivity).
  split; [exact H|].
  destruct (proj2 (proj2 (C6_needs_configure Sample.tools
                            (methods Sample.tools 1) Sample.fresh_build
                            fresh_world))
                  configured_world H) as (S & N & _).
  split; [exact S | exact N].
Defined.

(** C7 on the sample: a build of two targets in the fresh directory. *)
Lemma C7_witness :
  build Sample.tools (methods Sample.tools 1) Sample.fresh_build ["a"; "b"]
        fresh_world = Ok tt built_world
  /\ no_deps Sample.fresh_build
  /\ exists w1,
      before_targets Sample.tools (methods Sample.tools 1) Sample.fresh_build
                     fresh_world = Ok tt w1
      /\ trace built_world
         = (trace w1
            ++ target_cmds Sample.tools (gens w1 (generator Sample.fresh_build))
                           (builddir Sample.fresh_build) ["a"; "b"])%list
      /\ trace w1
         = (trace fresh_world
            ++ [(builddir Sample.fresh_build,
                 configure_argv Sample.tools Sample.fresh_build
                                (gens fresh_world
                                      (generator Sample.fresh_build)))])%list.
Proof.
  assert (H : build Sample.tools (methods Sample.tools 1) Sample.fresh_build
                    ["a"; "b"] fresh_world
              = Ok tt built_world) by (vm_compute; reflexivity).
  assert (N : no_deps Sample.fresh_build) by (vm_compute; reflexivity).
  assert (CN : configure_needed Sample.fresh_build
                 (with_builddir Sample.fresh_build fresh_world) = true)
    by (vm_compute; reflexivity).
  assert (TL : build_target_list Sample.fresh_build ["a"; "b"] = ["a"; "b"])
    by (vm_compute; reflexivity).
  split; [exact H|]. split; [exact N|].
  destruct (proj1 (proj2 (proj2 (proj2
              (C7_build Sample.tools (methods Sample.tools 1)
                        Sample.fresh_build ["a"; "b"] fresh_world))))
              built_world H) as (w1 & B & Tr & _ & ND).
  exists w1. split; [exact B|].
  destruct (ND N) as [_ T1]. rewrite CN in T1. rewrite TL in Tr.
  split; [exact Tr | exact T1].
Defined.


(** C9 on a typed assignment. *)
Lemma C9_witness :
  parse_assignment "CMAKE_CXX_STANDARD:STRING=14"
  = Typed "CMAKE_CXX_STANDARD" "14" "STRING"
  /\ exists w',
      gather_cmake_var Sample.fresh_build "CMAKE_CXX_STANDARD:STRING=14"
                       fresh_world = Ok tt w'
      /\ cache_value w' Sample.fresh_build "CMAKE_CXX_STANDARD"
         = Some ("14", "STRING").
Proof.
  assert (P : parse_assignment "CMAKE_CXX_STANDARD:STRING=14"
              = Typed "CMAKE_CXX_STANDARD" "14" "STRING")
    by (vm_compute; reflexivity).
  split; [exact P|].
  destruct (proj1 (proj2 (proj2
              (C9_assignments Sample.fresh_build fresh_world)))
              "CMAKE_CXX_STANDARD:STRING=14" "CMAKE_CXX_STANDARD" "14" "STRING"
              P) as (w' & H & V & _).
  exists w'. split; [exact H | exact V].
Defined.

(** C10 on the sample: a configure of the copy, with both cache files
    there, clears the dirty flag that the parent sees. *)
Lemma C10_witness :
  dirty (caches both_caches (varcache Sample.deps_build)) = true
  /\ configure Sample.tools (methods Sample.tools 1) dup both_caches
     = Ok tt dup_configured
  /\ dirty (caches dup_configured (varcache Sample.deps_build)) = false
  /\ In (path_join (builddir dup) "CMakeCache.txt")
        (written (fs dup_configured)).
Proof.
  assert (H1 : with_conan (kwargs Sample.deps_build) = false)
    by (vm_compute; reflexivity).
  assert (H2 : exists_ (fs both_caches) (cachefile Sample.deps_build) = true)
    by (vm_compute; reflexivity).
  assert (H3 : exists_ (fs both_caches)
                       (path_join (builddir (deps_copy Sample.deps_build "/deps"))
                                  "CMakeCache.txt") = true)
    by (vm_compute; reflexivity).
  assert (H4 : dirty (caches both_caches (varcache Sample.deps_build)) = true)
    by (vm_compute; reflexivity).
  assert (H5 : configure Sample.tools (methods Sample.tools 1)
                         (deps_copy Sample.deps_build "/deps") both_caches
               = Ok tt dup_configured)
    by (vm_compute; reflexivity).
  split; [exact H4|]. split; [exact H5|].
  exact (proj2 (proj2 (proj2 (proj2 (proj2
           (C10_shared_cache Sample.tools (methods Sample.tools 1)
                             Sample.deps_build "/deps" both_caches)))))
           dup_configured H1 H2 H3 H4 H5).
Defined.
End Witnesses.

Section CacheFileFacts.
Import Py Sys Re Cache CacheOps Raising CacheFile.

(** *** White space at the two ends *)

Lemma rstrip_app_nonempty (p v : string) :
  rstrip v = v -> v <> EmptyString -> rstrip (p ++ v) = (p ++ v)%string.
Proof.
  intros Hv Nv. induction p as [|a p IH]; simpl; [exact Hv|].
  rewrite IH. destruct (p ++ v)%string eqn:E; [|reflexivity].
  destruct p; simpl in E; [congruence | discriminate].
Qed.

Lemma rstrip_nonspace_end (p : string) (c : ascii) :
  isspace c = false -> rstrip (p ++ chr c) = (p ++ chr c)%string.
Proof.
  intros Hc. apply rstrip_app_nonempty; [|discriminate].
  simpl. now rewrite Hc.
Qed.

Lemma rstrip_newline (z : string) : rstrip (z ++ nl) = rstrip z.
Proof.
  induction z as [|a z IH]; [reflexivity|].
  simpl. now rewrite IH.
Qed.

Lemma rstrip_after (p v : string) (c : ascii) :
  isspace c = false -> rstrip v = v ->
  rstrip ((p ++ chr c) ++ v) = ((p ++ chr c) ++ v)%string.
Proof.
  intros Hc Hv. destruct v as [|x v].
  - rewrite append_empty_r. now apply rstrip_nonspace_end.
  - apply rstrip_app_nonempty; [exact Hv | discriminate].
Qed.

Lemma lstrip_app (n r : string) (c : ascii) :
  lstrip n = n -> isspace c = false ->
  lstrip (n ++ String c r) = (n ++ String c r)%string.
Proof.
  intros Hn Hc. destruct n as [|a n]; simpl in *.
  - now rewrite Hc.
  - destruct (isspace a) eqn:E; [|reflexivity].
    exfalso.
    assert (L : forall z, String.length (lstrip z) <= String.length z).
    { induction z as [|x z IHz]; simpl; [lia|].
      destruct (isspace x); simpl; lia. }
    specialize (L n). rewrite Hn in L. simpl in L. lia.
Qed.

(** *** Records *)

Lemma printable_spec (v : Var) :
  printable v = true ->
  mem ":" (name v) = false /\ mem newline (name v) = false
  /\ lstrip (name v) = name v
  /\ mem "=" (vartype v) = false /\ mem newline (vartype v) = false
  /\ mem newline (val v) = false /\ rstrip (val v) = val v.
Proof.
  unfold printable. intros H.
  repeat (apply andb_true_iff in H as [H ?]).
  repeat match goal with
         | X : negb _ = true |- _ => apply negb_true_iff in X
         | X : String.eqb _ _ = true |- _ => apply String.eqb_eq in X
         end.
  repeat split; assumption.
Qed.

Lemma printable_no_cr (v : Var) :
  printable v = true -> mem cr (__str__ v) = false.
Proof.
  unfold printable. intros H.
  repeat (apply andb_true_iff in H as [H ?]).
  repeat match goal with
         | X : negb _ = true |- _ => apply negb_true_iff in X
         end.
  unfold __str__. rewrite !mem_append.
  repeat match goal with X : mem cr _ = false |- _ => rewrite X; clear X end.
  reflexivity.
Qed.

(** *** Texts without a carriage return *)

Lemma mem_writelines (c : ascii) (ls : list string) :
  Forall (fun l => mem c l = false) ls -> mem c (writelines ls) = false.
Proof.
  induction 1 as [|l ls Hl _ IH]; [reflexivity|].
  now rewrite concat_empty_cons, mem_append, Hl, IH.
Qed.

Lemma lines_without (c : ascii) (z : string) :
  mem c z = false -> Forall (fun l => mem c l = false) (lines z).
Proof.
  induction z as [|a z IH]; [constructor|].
  simpl. intros H. apply orb_false_iff in H as [Ha Hz].
  specialize (IH Hz).
  destruct (Ascii.eqb_spec a newline) as [->|N].
  - constructor; [|exact IH].
    change (mem c nl) with (Ascii.eqb newline c || false). now rewrite Ha.
  - destruct (lines z) as [|h t].
    + constructor; [|constructor].
      change (mem c (chr a)) with (Ascii.eqb a c || false). now rewrite Ha.
    + inversion IH; subst. constructor; [|assumption].
      cbn [mem]. now rewrite Ha.
Qed.

(** The lines that are read have no carriage return. *)
Lemma readlines_no_cr (text : string) :
  Forall (fun l => mem cr l = false) (readlines text).
Proof. apply lines_without, universal_no_cr. Qed.

(** Lines without a carriage return, written and read again. *)
Lemma reread (ls : list string) :
  Forall (fun l => mem cr l = false) ls ->
  readlines (writelines ls) = lines (writelines ls).
Proof.
  intros H. unfold readlines. now rewrite universal_plain by now apply mem_writelines.
Qed.

Lemma rewritten_no_cr (tmp : odict string) (l : string) :
  (forall k v, get tmp k = Some v -> mem cr v = false) ->
  mem cr l = false -> mem cr (rewritten tmp l) = false.
Proof.
  intros Hv Hl. unfold rewritten.
  destruct (cache_entry l) as [[[[g1 g2] g3] tail]|] eqn:E; [|exact Hl].
  destruct (get tmp g1) as [v|] eqn:G; [|exact Hl].
  destruct (cache_entry_spec _ _ _ _ _ E) as (r & _ & _ & El).
  rewrite El, !mem_append in Hl.
  apply orb_false_iff in Hl as [H1 Hl]. apply orb_false_iff in Hl as [H2 Hl].
  apply orb_false_iff in Hl as [_ Hl]. apply orb_false_iff in Hl as [_ H4].
  rewrite !mem_append, H1, H2, (Hv _ _ G), H4. reflexivity.
Qed.

Lemma rewritten_lines_no_cr (tmp : odict string) (ls : list string) :
  (forall k v, get tmp k = Some v -> mem cr v = false) ->
  Forall (fun l => mem cr l = false) ls ->
  Forall (fun l => mem cr l = false) (map (rewritten tmp) ls).
Proof.
  intros Hv. induction 1 as [|l ls Hl _ IH]; simpl; constructor;
    [now apply rewritten_no_cr | exact IH].
Qed.

Lemma strip_record (n t v tail : string) :
  lstrip n = n -> rstrip v = v -> tail = EmptyString \/ tail = nl ->
  strip (n ++ ":" ++ t ++ "=" ++ v ++ tail)
  = (n ++ ":" ++ t ++ "=" ++ v)%string.
Proof.
  intros Ln Rv Tl. unfold strip.
  change (n ++ ":" ++ t ++ "=" ++ v ++ tail)%string
    with (n ++ String ":" (t ++ "=" ++ v ++ tail))%string.
  rewrite lstrip_app by (assumption || reflexivity).
  replace (n ++ String ":" (t ++ "=" ++ v ++ tail))%string
    with ((((n ++ ":" ++ t) ++ chr "=") ++ v) ++ tail)%string
    by (rewrite !append_assoc_s; reflexivity).
  assert (E : rstrip (((n ++ ":" ++ t) ++ chr "=") ++ v)
              = (((n ++ ":" ++ t) ++ chr "=") ++ v)%string)
    by (apply rstrip_after; [reflexivity | assumption]).
  destruct Tl as [->| ->].
  - rewrite append_empty_r, E. now rewrite !append_assoc_s.
  - rewrite rstrip_newline, E. now rewrite !append_assoc_s.
Qed.

(** One record, read by [loadvars]. *)
Lemma load_line_record (d : odict Var) (n t v tail : string) :
  mem ":" n = false -> mem newline n = false -> lstrip n = n ->
  mem "=" t = false -> mem newline t = false ->
  mem newline v = false -> rstrip v = v ->
  tail = EmptyString \/ tail = nl ->
  load_line d (n ++ ":" ++ t ++ "=" ++ v ++ tail)
  = set d n (mkVar n v t false false).
Proof.
  intros Cn Nn Ln Et Nt Nv Rv Tl.
  unfold load_line, matches.
  rewrite (cache_entry_record _ _ _ _ Cn Nn Et Nt Nv Tl). simpl negb. cbv iota.
  rewrite (strip_record _ t _ _ Ln Rv Tl).
  unfold sub_group.
  pose proof (cache_entry_record n t v EmptyString
                Cn Nn Et Nt Nv (or_introl eq_refl)) as E.
  rewrite !append_empty_r in E. rewrite E.
  rewrite !append_empty_r. reflexivity.
Qed.

(** One printed variable, read by [loadvars]. *)
Lemma load_line_str (d : odict Var) (v : Var) (tail : string) :
  printable v = true -> tail = EmptyString \/ tail = nl ->
  load_line d (__str__ v ++ tail) = set d (name v) (loaded v).
Proof.
  intros Pv Tl.
  destruct (printable_spec v Pv) as (Cn & Nn & Ln & Et & Nt & Nv & Rv).
  unfold __str__. rewrite !append_assoc_s.
  now apply load_line_record.
Qed.

Lemma set_fresh {V} (d : odict V) (k : string) (v : V) :
  ~ In k (map fst d) -> set d k v = (d ++ [(k, v)])%list.
Proof.
  induction d as [|[k' v'] d IH]; simpl; intros N; [reflexivity|].
  destruct (String.eqb_spec k' k) as [->|Nk]; [tauto|].
  rewrite IH; [reflexivity | tauto].
Qed.

Lemma lines_line (body rest : string) :
  mem newline body = false ->
  lines (body ++ nl ++ rest) = (body ++ nl)%string :: lines rest.
Proof.
  induction body as [|a body IH]; simpl in *.
  - intros _. reflexivity.
  - intros H. apply orb_false_iff in H as [Ha Hb].
    now rewrite Ha, (IH Hb).
Qed.

Lemma str_no_newline (v : Var) :
  printable v = true -> mem newline (__str__ v) = false.
Proof.
  intros Pv.
  destruct (printable_spec v Pv) as (Cn & Nn & Ln & Et & Nt & Nv & Rv).
  unfold __str__. now rewrite !mem_append, Nn, Nt, Nv.
Qed.

Lemma lines_printed (vars : list Var) :
  Forall (fun v => printable v = true) vars ->
  lines (writelines (map (fun v => __str__ v ++ nl)%string vars))
  = map (fun v => __str__ v ++ nl)%string vars.
Proof.
  induction 1 as [|v vars Pv _ IH]; [reflexivity|].
  simpl map. rewrite concat_empty_cons, append_assoc_s.
  rewrite lines_line by now apply str_no_newline.
  now rewrite IH.
Qed.

Lemma load_printed (vars : list Var) (d : odict Var) :
  Forall (fun v => printable v = true) vars ->
  NoDup (map name vars) ->
  (forall v, In v vars -> ~ In (name v) (map fst d)) ->
  fold_left load_line (map (fun v => __str__ v ++ nl)%string vars) d
  = (d ++ map (fun v => (name v, loaded v)) vars)%list.
Proof.
  intros Pr. revert d. induction Pr as [|v vars Pv _ IH]; intros d ND Fr.
  - simpl. now rewrite app_nil_r.
  - simpl. rewrite (load_line_str d v nl Pv (or_intror eq_refl)).
    inversion ND as [|? ? NI ND']; subst.
    rewrite set_fresh by (apply Fr; now left).
    rewrite IH; [now rewrite <- app_assoc | assumption |].
    intros v' I. rewrite map_app, in_app_iff. simpl.
    intros [I'|[E|[]]].
    + apply (Fr v' (or_intror I)), I'.
    + apply NI. rewrite E. now apply in_map.
Qed.

(** A cache file made of printed variables with distinct names loads back
    as those variables, in order, clean and not from the input. *)
Theorem str_loadvars_round_trip (fs : FS) (builddir : string) (vars : list Var) :
  Forall (fun v => printable v = true) vars ->
  NoDup (map name vars) ->
  exists_ fs builddir = true ->
  files fs (path_join builddir "CMakeCache.txt")
  = Some (writelines (map (fun v => __str__ v ++ nl)%string vars)) ->
  CMakeCache_init fs (Some builddir)
  = inr (mkCache (map (fun v => (name v, loaded v)) vars) false).
Proof.
  intros Pr ND Ed Ef. unfold CMakeCache_init, loadvars, exists_ at 2.
  rewrite Ed, Ef. simpl negb.
  rewrite orb_true_r. cbv iota.
  rewrite reread, (lines_printed vars Pr).
  - now rewrite (load_printed vars [] Pr ND) by (intros v _ []).
  - clear ND Ef. induction Pr as [|v vars Pv _ IH]; simpl; constructor;
      [|exact IH].
    now rewrite mem_append, (printable_no_cr v Pv).
Qed.

(** *** The lines of a text *)

Lemma lines_plain (z : string) :
  mem newline z = false -> z <> EmptyString -> lines z = [z].
Proof.
  induction z as [|a z IH]; [congruence|].
  simpl. intros H _. apply orb_false_iff in H as [Ha Hz]. rewrite Ha.
  destruct z as [|a' z]; [reflexivity|].
  rewrite IH by (assumption || discriminate). reflexivity.
Qed.

(** Every line but the last ends in its only line break; the last may
    have none, and is not empty then. *)
Lemma lines_shape (text : string) :
  exists bodies rest,
    lines text = (map (fun x => x ++ nl)%string bodies ++ rest)%list
    /\ Forall (fun x => mem newline x = false) bodies
    /\ (rest = [] \/ exists z, rest = [z] /\ mem newline z = false
                                /\ z <> EmptyString).
Proof.
  induction text as [|a text (bodies & rest & E & Fb & R)].
  - exists [], []. repeat split; [constructor | now left].
  - simpl. destruct (Ascii.eqb_spec a newline) as [->|N].
    + exists (EmptyString :: bodies), rest. rewrite E. repeat split.
      * now constructor.
      * exact R.
    + assert (Na : (a =? newline)%char = false) by now apply Ascii.eqb_neq.
      rewrite E. destruct bodies as [|x bodies].
      * simpl. destruct R as [->|(z & -> & Nz & _)].
        -- exists [], [chr a]. repeat split; [constructor|].
           right. exists (chr a). repeat split; [|discriminate].
           simpl. now rewrite Na.
        -- exists [], [String a z]. repeat split; [constructor|].
           right. exists (String a z). repeat split; [|discriminate].
           simpl. now rewrite Na, Nz.
      * simpl. exists (String a x :: bodies), rest. repeat split.
        -- inversion Fb; subst. constructor; [|assumption].
           simpl. now rewrite Na.
        -- exact R.
Qed.

Lemma lines_of_shape (bodies rest : list string) :
  Forall (fun x => mem newline x = false) bodies ->
  (rest = [] \/ exists z, rest = [z] /\ mem newline z = false
                          /\ z <> EmptyString) ->
  lines (writelines (map (fun x => x ++ nl)%string bodies ++ rest)%list)
  = (map (fun x => x ++ nl)%string bodies ++ rest)%list.
Proof.
  intros Fb R. induction Fb as [|x bodies Nx _ IH].
  - simpl. destruct R as [->|(z & -> & Nz & Ez)]; [reflexivity|].
    unfold writelines. simpl. now apply lines_plain.
  - simpl map. simpl app. rewrite concat_empty_cons, append_assoc_s.
    rewrite lines_line by assumption. now rewrite IH.
Qed.

(** *** Writing one variable and reading it back *)

Lemma cut_mem (c : ascii) (z : string) : cut c z = None -> mem c z = false.
Proof.
  induction z as [|a z IH]; simpl; [reflexivity|].
  destruct (Ascii.eqb a c); [discriminate|].
  destruct (cut c z) as [[x y]|]; [discriminate|].
  intros _. now apply IH.
Qed.

Lemma cut_skip (c : ascii) (h r : string) :
  mem c h = false ->
  cut c (h ++ r) = match cut c r with
                   | Some (x, y) => Some ((h ++ x)%string, y)
                   | None => None
                   end.
Proof.
  induction h as [|a h IH]; simpl.
  - intros _. now destruct (cut c r) as [[x y]|].
  - intros H. apply orb_false_iff in H as [Ha Hh].
    rewrite Ha, (IH Hh). now destruct (cut c r) as [[x y]|].
Qed.

Lemma mem_rstrip (c : ascii) (z : string) :
  mem c z = false -> mem c (rstrip z) = false.
Proof.
  induction z as [|a z IH]; simpl; [reflexivity|].
  intros H. apply orb_false_iff in H as [Ha Hz].
  destruct (rstrip z) eqn:E.
  - destruct (isspace a); simpl; [reflexivity | now rewrite Ha].
  - simpl. rewrite Ha. simpl. now apply IH.
Qed.

Lemma rstrip_prefix (h z : string) (c : ascii) :
  isspace c = false ->
  rstrip ((h ++ chr c) ++ z) = ((h ++ chr c) ++ rstrip z)%string.
Proof.
  intros Hc. unfold chr. induction h as [|a h IH]; simpl.
  - destruct (rstrip z); [now rewrite Hc | reflexivity].
  - simpl in IH. rewrite IH.
    destruct ((h ++ String c EmptyString) ++ rstrip z)%string eqn:E;
      [|reflexivity].
    destruct h; discriminate.
Qed.

(** The parts of a line that matches. *)
Lemma cache_entry_parts (l g1 g2 g3 tail : string) :
  cache_entry l = Some (g1, g2, g3, tail) ->
  exists t,
    g2 = String ":" t
    /\ l = (g1 ++ ":" ++ t ++ "=" ++ g3 ++ tail)%string
    /\ mem ":" g1 = false /\ mem "=" t = false
    /\ mem newline g1 = false /\ mem newline t = false
    /\ mem newline g3 = false
    /\ (tail = EmptyString \/ tail = nl).
Proof.
  unfold cache_entry.
  destruct (cut newline l) as [[body rest]|] eqn:Cn.
  - destruct (String.eqb_spec (String newline rest) EmptyString) as [|_];
      [discriminate|].
    destruct (String.eqb_spec (String newline rest) nl) as [En|]; [|discriminate].
    simpl orb. cbv iota.
    destruct (cut ":" body) as [[h r]|] eqn:C1; [|discriminate].
    destruct (cut "=" r) as [[t v]|] eqn:C2; [|discriminate].
    intros [= <- <- <- <-]. exists t.
    destruct (cut_spec _ _ _ _ Cn) as [El Nb].
    destruct (cut_spec _ _ _ _ C1) as [Eb Ch].
    destruct (cut_spec _ _ _ _ C2) as [Er Et].
    subst body r. rewrite !mem_append in Nb. simpl in Nb.
    rewrite mem_append in Nb. simpl in Nb.
    apply orb_false_iff in Nb as [N1 N2].
    apply orb_false_iff in N2 as [N2 N3].
    repeat split; try assumption.
    + rewrite El, !append_assoc_s. simpl. rewrite !append_assoc_s. reflexivity.
    + now right.
  - simpl orb. cbv iota.
    destruct (cut ":" l) as [[h r]|] eqn:C1; [|discriminate].
    destruct (cut "=" r) as [[t v]|] eqn:C2; [|discriminate].
    intros [= <- <- <- <-]. exists t.
    apply cut_mem in Cn.
    destruct (cut_spec _ _ _ _ C1) as [Eb Ch].
    destruct (cut_spec _ _ _ _ C2) as [Er Et].
    subst l r. rewrite !mem_append in Cn. simpl in Cn.
    rewrite mem_append in Cn. simpl in Cn.
    apply orb_false_iff in Cn as [N1 N2].
    apply orb_false_iff in N2 as [N2 N3].
    repeat split; try assumption.
    + now rewrite append_empty_r.
    + now left.
Qed.

(** A line is cut in one way only into a text without line break and an
    optional line break. *)
Lemma shape_unique (b1 b2 t1 t2 : string) :
  (b1 ++ t1 = b2 ++ t2)%string ->
  mem newline b1 = false -> mem newline b2 = false ->
  t1 = EmptyString \/ t1 = nl -> t2 = EmptyString \/ t2 = nl ->
  b1 = b2 /\ t1 = t2.
Proof.
  intros E N1 N2 [->| ->] [->| ->].
  - rewrite !append_empty_r in E. now split.
  - rewrite append_empty_r in E. subst b1.
    rewrite mem_append in N1. simpl in N1. now rewrite orb_true_r in N1.
  - rewrite append_empty_r in E. subst b2.
    rewrite mem_append in N2. simpl in N2. now rewrite orb_true_r in N2.
  - pose proof (cut_here newline b1 EmptyString N1) as C1.
    pose proof (cut_here newline b2 EmptyString N2) as C2.
    change (String newline EmptyString) with nl in C1, C2.
    rewrite E in C1. rewrite C1 in C2. injection C2 as ->. now split.
Qed.

Lemma rewritten_one (var value l : string) :
  rewritten [(var, value)] l
  = match cache_entry l with
    | Some (g1, g2, g3, tail) =>
        if String.eqb var g1 then (g1 ++ g2 ++ "=" ++ value ++ tail)%string
        else l
    | None => l
    end.
Proof.
  unfold rewritten.
  destruct (cache_entry l) as [[[[g1 g2] g3] tail]|]; [|reflexivity].
  simpl. now destruct (String.eqb var g1).
Qed.

(** Rewriting keeps a line a line. *)
Lemma rewritten_shape (var value body tail : string) :
  mem newline value = false -> mem newline body = false ->
  tail = EmptyString \/ tail = nl ->
  exists body',
    rewritten [(var, value)] (body ++ tail) = (body' ++ tail)%string
    /\ mem newline body' = false
    /\ (body' = EmptyString -> body = EmptyString).
Proof.
  intros Nv Nb Tl. rewrite rewritten_one.
  destruct (cache_entry (body ++ tail)) as [[[[g1 g2] g3] tail']|] eqn:E;
    [|exists body; repeat split; auto].
  destruct (String.eqb var g1); [|exists body; repeat split; auto].
  destruct (cache_entry_parts _ _ _ _ _ E)
    as (t & -> & El & C1 & Et & N1 & Nt & N3 & Tl').
  assert (U : body = (g1 ++ ":" ++ t ++ "=" ++ g3)%string /\ tail = tail').
  { apply shape_unique; try assumption.
    - rewrite El, !append_assoc_s. simpl. rewrite ?append_assoc_s. reflexivity.
    - rewrite !mem_append, N1, Nt, N3. reflexivity. }
  destruct U as [_ <-].
  exists (g1 ++ ":" ++ t ++ "=" ++ value)%string. repeat split.
  - rewrite !append_assoc_s. simpl. rewrite ?append_assoc_s. reflexivity.
  - rewrite !mem_append, N1, Nt, Nv. reflexivity.
  - intros H. destruct g1; discriminate.
Qed.

Lemma rewritten_lines (var value : string) (bodies rest : list string) :
  mem newline value = false ->
  Forall (fun x => mem newline x = false) bodies ->
  (rest = [] \/ exists z, rest = [z] /\ mem newline z = false
                          /\ z <> EmptyString) ->
  exists bodies' rest',
    map (rewritten [(var, value)])
        (map (fun x => x ++ nl)%string bodies ++ rest)%list
    = (map (fun x => x ++ nl)%string bodies' ++ rest')%list
    /\ Forall (fun x => mem newline x = false) bodies'
    /\ (rest' = [] \/ exists z, rest' = [z] /\ mem newline z = false
                             /\ z <> EmptyString).
Proof.
  intros Nv Fb R. induction Fb as [|x bodies Nx _ (bodies' & rest' & E & Fb' & R')].
  - simpl. destruct R as [->|(z & -> & Nz & Ez)].
    + exists [], []. repeat split; [constructor | now left].
    + destruct (rewritten_shape var value z EmptyString Nv Nz (or_introl eq_refl))
        as (z' & Ez' & Nz' & Em).
      rewrite !append_empty_r in Ez'.
      exists [], [z']. simpl. rewrite Ez'. repeat split; [constructor|].
      right. exists z'. repeat split; [assumption|].
      intros H. apply Ez, Em, H.
  - destruct (rewritten_shape var value x nl Nv Nx (or_intror eq_refl))
      as (x' & Ex' & Nx' & _).
    exists (x' :: bodies'), rest'. simpl. rewrite Ex'. simpl in E. rewrite E.
    repeat split; [now constructor | assumption].
Qed.

(** One line of the rewritten file, read for the variable that was
    written. *)
Lemma getcachevars_step (var value body tail : string) (values : odict string) :
  mem ":" var = false -> lstrip var = var -> mem newline var = false ->
  mem newline value = false -> rstrip value = value ->
  mem newline body = false -> tail = EmptyString \/ tail = nl ->
  let values' := getcachevars_line [(var ++ ":")%string] values
                   (rewritten [(var, value)] (body ++ tail)) in
  (get values var = Some value -> get values' var = Some value)
  /\ (forall g2 g3 tl, cache_entry (body ++ tail) = Some (var, g2, g3, tl) ->
                       get values' var = Some value).
Proof.
  intros Cv Lv Nvar Nv Rv Nb Tl. unfold getcachevars_line. simpl fold_left.
  rewrite rewritten_one.
  destruct (cache_entry (body ++ tail)) as [[[[g1 g2] g3] tail']|] eqn:E.
  - destruct (cache_entry_parts _ _ _ _ _ E)
      as (t & -> & El & C1 & Et & N1 & Nt & N3 & Tl').
    destruct (String.eqb_spec var g1) as [<-|Ne].
    + assert (S : startswith (var ++ String ":" t ++ "=" ++ value ++ tail')
                             (var ++ ":") = true).
      { unfold startswith. apply prefix_iff.
        exists (t ++ "=" ++ value ++ tail')%string.
        now rewrite append_assoc_s. }
      rewrite S.
      change (var ++ String ":" t ++ "=" ++ value ++ tail')%string
        with (var ++ ":" ++ t ++ "=" ++ value ++ tail')%string.
      rewrite (strip_record var t value tail' Lv Rv Tl').
      unfold sub_group.
      pose proof (cache_entry_record var t value EmptyString
                    C1 N1 Et Nt Nv (or_introl eq_refl)) as E'.
      rewrite !append_empty_r in E'. rewrite E'.
      rewrite !append_empty_r, get_set_same. split; reflexivity.
    + assert (S : startswith (body ++ tail) (var ++ ":") = false).
      { destruct (startswith (body ++ tail) (var ++ ":")) eqn:S; [|reflexivity].
        apply (startswith_cut _ var Cv) in S as [r C].
        destruct (cache_entry_spec _ _ _ _ _ E) as (r' & C' & _).
        rewrite C in C'. injection C' as -> _. congruence. }
      rewrite S. split; [auto|]. intros ? ? ? [= <- _ _ _]. congruence.
  - split; [|discriminate].
    destruct (startswith (body ++ tail) (var ++ ":")) eqn:S; [|auto].
    intros G.
    apply (startswith_cut _ var Cv) in S as [r C].
    rewrite get_set_other; [exact G|].
    (* the text after the colon *)
    assert (Cn : mem newline (var ++ ":") = false)
      by (rewrite mem_append, Nvar; reflexivity).
    assert (R : exists rb, r = (rb ++ tail)%string
                           /\ body = (var ++ ":" ++ rb)%string).
    { destruct (cut_spec _ _ _ _ C) as [El _].
      destruct Tl as [->| ->].
      - exists r. rewrite !append_empty_r in *. split; [reflexivity | exact El].
      - pose proof (cut_here newline body EmptyString Nb) as C1.
        change (String newline EmptyString) with nl in C1.
        rewrite El in C1.
        replace (var ++ String ":" r)%string with ((var ++ ":") ++ r)%string
          in C1 by (now rewrite append_assoc_s).
        rewrite (cut_skip newline _ r Cn) in C1.
        destruct (cut newline r) as [[x y]|] eqn:Cr; [|discriminate].
        injection C1 as <- ->.
        destruct (cut_spec _ _ _ _ Cr) as [-> _].
        exists x. split; [reflexivity | now rewrite append_assoc_s]. }
    destruct R as (rb & -> & Eb).
    assert (Er : mem "=" rb = false).
    { unfold cache_entry in E.
      assert (T : cut newline (body ++ tail)
                  = match tail with
                    | EmptyString => None
                    | _ => Some (body, EmptyString)
                    end).
      { destruct Tl as [->| ->].
        - rewrite append_empty_r. now apply cut_none.
        - now apply (cut_here newline body EmptyString). }
      rewrite T in E.
      assert (C2 : cut ":" body = Some (var, rb))
        by (rewrite Eb; now apply (cut_here ":" var)).
      destruct Tl as [->| ->]; simpl in E; rewrite ?append_empty_r in E;
        rewrite C2 in E;
        (destruct (cut "=" rb) as [[x y]|] eqn:C3; [discriminate|]);
        now apply cut_mem. }
    assert (Nr : mem newline rb = false).
    { rewrite Eb, !mem_append in Nb. simpl in Nb.
      apply orb_false_iff in Nb as [_ Nb]. exact Nb. }
    (* the stripped line *)
    assert (St : strip (body ++ tail) = (var ++ ":" ++ rstrip rb)%string).
    { unfold strip. rewrite Eb.
      replace ((var ++ ":" ++ rb) ++ tail)%string
        with (var ++ String ":" (rb ++ tail))%string
        by (rewrite !append_assoc_s; reflexivity).
      rewrite lstrip_app by (assumption || reflexivity).
      replace (var ++ String ":" (rb ++ tail))%string
        with ((var ++ chr ":") ++ (rb ++ tail))%string
        by (rewrite !append_assoc_s; reflexivity).
      rewrite rstrip_prefix by reflexivity.
      replace (rstrip (rb ++ tail)) with (rstrip rb)
        by (destruct Tl as [->| ->];
            [now rewrite append_empty_r | now rewrite rstrip_newline]).
      now rewrite append_assoc_s. }
    replace ((var ++ ":" ++ rb ++ tail))%string with (body ++ tail)%string
      by (rewrite Eb, !append_assoc_s; reflexivity).
    rewrite St. unfold sub_group.
    destruct (cache_entry (var ++ ":" ++ rstrip rb))
      as [[[[h1 h2] h3] tl]|] eqn:E2.
    + exfalso.
      destruct (cache_entry_parts _ _ _ _ _ E2)
        as (t & -> & El & C1 & Et & N1 & Nt & N3 & Tl2).
      destruct (cache_entry_spec _ _ _ _ _ E2) as (r' & C' & E3 & _).
      change (var ++ ":" ++ rstrip rb)%string
        with (var ++ String ":" (rstrip rb))%string in C'.
      rewrite (cut_here ":" var (rstrip rb) Cv) in C'.
      injection C' as <- <-.
      pose proof (mem_rstrip "=" rb Er) as M.
      injection E3 as E3. rewrite <- E3, !mem_append in M. simpl in M.
      now rewrite orb_true_r in M.
    + intros H.
      assert (M : mem ":" (var ++ ":" ++ rstrip rb) = true)
        by (rewrite mem_append; simpl; apply orb_true_r).
      rewrite <- H in M. congruence.
Qed.

Lemma shape_in (bodies rest : list string) (l : string) :
  Forall (fun x => mem newline x = false) bodies ->
  (rest = [] \/ exists z, rest = [z] /\ mem newline z = false
                          /\ z <> EmptyString) ->
  In l (map (fun x => x ++ nl)%string bodies ++ rest)%list ->
  exists body tail, l = (body ++ tail)%string /\ mem newline body = false
                    /\ (tail = EmptyString \/ tail = nl).
Proof.
  intros Fb R I. apply in_app_iff in I as [I|I].
  - apply in_map_iff in I as (x & <- & I).
    exists x, nl. repeat split; [|now right].
    rewrite Forall_forall in Fb. now apply Fb.
  - destruct R as [->|(z & -> & Nz & _)]; [destruct I|].
    destruct I as [<-|[]]. exists z, EmptyString.
    rewrite append_empty_r. repeat split; [assumption | now left].
Qed.

Lemma getcachevars_fold (var value : string) (ls : list string)
      (values : odict string) :
  mem ":" var = false -> lstrip var = var -> mem newline var = false ->
  mem newline value = false -> rstrip value = value ->
  (forall l, In l ls ->
             exists body tail, l = (body ++ tail)%string
                               /\ mem newline body = false
                               /\ (tail = EmptyString \/ tail = nl)) ->
  let r := fold_left (getcachevars_line [(var ++ ":")%string])
                     (map (rewritten [(var, value)]) ls) values in
  (get values var = Some value -> get r var = Some value)
  /\ ((exists l g2 g3 tl, In l ls
                          /\ cache_entry l = Some (var, g2, g3, tl)) ->
      get r var = Some value).
Proof.
  intros Cv Lv Nvar Nv Rv. revert values.
  induction ls as [|l ls IH]; intros values Sh; simpl.
  - split; [auto|]. intros (l & g2 & g3 & tl & [] & _).
  - destruct (Sh l (or_introl eq_refl)) as (body & tail & -> & Nb & Tl).
    destruct (getcachevars_step var value body tail values
                Cv Lv Nvar Nv Rv Nb Tl) as [K1 K2].
    destruct (IH (getcachevars_line [(var ++ ":")%string] values
                    (rewritten [(var, value)] (body ++ tail)))
                 (fun l I => Sh l (or_intror I))) as [J1 J2].
    split.
    + intros G. apply J1, K1, G.
    + intros (l & g2 & g3 & tl & [<-|I] & E).
      * apply J1. eapply K2, E.
      * apply J2. now exists l, g2, g3, tl.
Qed.

(** [setcachevar] followed by [getcachevar]: a variable that has a record
    in the cache file reads back with the value it was given, when the
    value has no backslash, no line feed, no carriage return and no white
    space at its end. *)
Theorem setcachevar_getcachevar (P : Platform) (fs : FS)
        (builddir var value text t old tail : string) :
  mem ":" var = false -> lstrip var = var ->
  mem backslash value = false -> mem newline value = false ->
  mem cr value = false -> rstrip value = value ->
  files fs (path_join builddir "CMakeCache.txt") = Some text ->
  In (var ++ ":" ++ t ++ "=" ++ old ++ tail)%string (readlines text) ->
  mem "=" t = false -> mem newline old = false ->
  tail = EmptyString \/ tail = nl ->
  exists fs',
    setcachevar P fs builddir var value = inr fs'
    /\ getcachevar fs' builddir var = inr value.
Proof.
  intros Cv Lv Bv Nv Cr Rv Ef Il Et No Tl.
  destruct (line_is_record _ var t old tail Il Cv Et No Tl) as (Nvar & _ & El).
  assert (PV : plain_values [(var, value)]).
  { split.
    - constructor; [intros [] | constructor].
    - intros k v [[= <- <-]|[]]. now split. }
  unfold setcachevar, setcachevars. rewrite Ef.
  rewrite (setcachevars_lines_plain P _ (readlines text) PV).
  eexists. split; [reflexivity|].
  unfold getcachevar, getcachevars. simpl files.
  rewrite String.eqb_refl. simpl map.
  rewrite reread.
  2:{ apply rewritten_lines_no_cr; [|apply readlines_no_cr].
      intros k v G. simpl in G.
      destruct (String.eqb var k); [now injection G as <- | discriminate]. }
  unfold readlines in *.
  destruct (lines_shape (universal text)) as (bodies & rest & Er & Fb & R).
  destruct (rewritten_lines var value bodies rest Nv Fb R)
    as (bodies' & rest' & Er' & Fb' & R').
  rewrite Er, Er', (lines_of_shape bodies' rest' Fb' R'), <- Er'.
  destruct (getcachevars_fold var value
              (map (fun x => x ++ nl)%string bodies ++ rest)%list []
              Cv Lv Nvar Nv Rv (fun l0 I => shape_in bodies rest l0 Fb R I))
    as [_ J].
  rewrite J; [reflexivity|].
  exists (var ++ ":" ++ t ++ "=" ++ old ++ tail)%string, (":" ++ t)%string,
         old, tail.
  split; [now rewrite <- Er | exact El].
Qed.


(** [getvars]: each requested name, once, with the variable that the
    cache has under it or [None]; no other name. *)
Theorem getvars_lookup (c : CMakeCache) (names : list string) (n : string) :
  get (getvars c names) n
  = if existsb (String.eqb n) names then Some (get (items c) n) else None.
Proof.
  unfold getvars.
  assert (K : forall acc,
             get (fold_left (fun out x => set out x (get (items c) x)) names acc) n
             = if existsb (String.eqb n) names then Some (get (items c) n)
               else get acc n).
  { induction names as [|x names IH]; intros acc; simpl; [reflexivity|].
    rewrite IH. destruct (existsb (String.eqb n) names);
      [now rewrite orb_true_r|].
    rewrite orb_false_r.
    destruct (String.eqb_spec n x) as [->|N].
    - now rewrite get_set_same.
    - now rewrite get_set_other. }
  now rewrite K.
Qed.

End CacheFileFacts.

Section SysInfoFacts.
Import Py Sys Re Run Text Raising SysInfo.

Lemma append_inv_head (a x y : string) :
  (a ++ x = a ++ y)%string -> x = y.
Proof.
  induction a as [|c a IH]; simpl; [auto|]. intros [= H]. now apply IH.
Qed.

Lemma strip_prefix_app (h r : string) : strip_prefix h (h ++ r) = Some r.
Proof.
  induction h as [|a h IH]; simpl; [reflexivity|].
  now rewrite Ascii.eqb_refl.
Qed.

Lemma strip_prefix_spec (h l r : string) :
  strip_prefix h l = Some r -> l = (h ++ r)%string.
Proof.
  revert l. induction h as [|a h IH]; intros l; simpl.
  - now intros [= ->].
  - destruct l as [|x l]; [discriminate|].
    destruct (Ascii.eqb_spec a x) as [->|]; [|discriminate].
    intros H. now rewrite (IH _ H).
Qed.

Lemma rcut_end (c : ascii) (x : string) :
  rcut c (x ++ chr c) = Some (x, EmptyString).
Proof.
  induction x as [|a x IH]; simpl.
  - now rewrite Ascii.eqb_refl.
  - now rewrite IH.
Qed.

Lemma rstrip_c_cons (c a : ascii) (z : string) :
  a <> c -> rstrip_c c (String a z) = String a (rstrip_c c z).
Proof.
  intros N. simpl. destruct (rstrip_c c z); [|reflexivity].
  apply Ascii.eqb_neq in N. now rewrite N.
Qed.

Lemma rstrip_c_end (c d : ascii) (x : string) :
  d <> c -> rstrip_c c (x ++ chr d) = (x ++ chr d)%string.
Proof.
  intros N. induction x as [|a x IH]; simpl.
  - apply Ascii.eqb_neq in N. now rewrite N.
  - rewrite IH. destruct (x ++ chr d)%string eqn:E; [|reflexivity].
    destruct x; discriminate.
Qed.

Lemma rstrip_c_drop (c : ascii) (x : string) :
  rstrip_c c (x ++ chr c) = rstrip_c c x.
Proof.
  induction x as [|a x IH]; simpl.
  - now rewrite Ascii.eqb_refl.
  - now rewrite IH.
Qed.

Lemma rstrip_c_prefix (c : ascii) (z : string) :
  exists suf, z = (rstrip_c c z ++ suf)%string.
Proof.
  induction z as [|a z (suf & E)]; [now exists EmptyString|].
  simpl. destruct (rstrip_c c z) eqn:R.
  - destruct (Ascii.eqb a c).
    + now exists (String a z).
    + exists suf. simpl in E. simpl. now rewrite <- E.
  - exists suf. simpl. now rewrite E at 1.
Qed.

Lemma word_char_plain (a : ascii) :
  word_char a = true -> a <> newline /\ a <> " "%char /\ a <> dquote.
Proof.
  intros H. repeat split; intros ->; discriminate.
Qed.

Lemma word_no_newline (n : string) : word n = true -> mem newline n = false.
Proof.
  induction n as [|a n IH]; simpl; [reflexivity|].
  intros H. apply andb_true_iff in H as [Ha Hn].
  destruct (word_char_plain a Ha) as (N & _).
  apply Ascii.eqb_neq in N. now rewrite N, (IH Hn).
Qed.

(** The line as [_getstr] looks at it, for a line that starts with a
    word. *)
Lemma stripped_line (a : ascii) (z : string) :
  word_char a = true ->
  rstrip_c " " (lstrip_c " " (strip_c newline (String a z)))
  = String a (rstrip_c " " (rstrip_c newline z)).
Proof.
  intros Ha. destruct (word_char_plain a Ha) as (N1 & N2 & _).
  unfold strip_c. simpl lstrip_c.
  apply Ascii.eqb_neq in N1 as N1'. rewrite N1'.
  rewrite rstrip_c_cons by assumption. simpl lstrip_c.
  apply Ascii.eqb_neq in N2 as N2'. rewrite N2'.
  now rewrite rstrip_c_cons.
Qed.

Lemma startswith_app (l h : string) :
  startswith l h = true <-> exists r, l = (h ++ r)%string.
Proof. unfold startswith. apply prefix_iff. Qed.

(** A line that does not start with the name and a space is passed
    over. *)
Lemma find_var_skip (E : string -> string -> exn + option string)
      (n l : string) (rest : list string) :
  word n = true -> n <> EmptyString ->
  startswith l (n ++ " ") = false ->
  find_var E n (l :: rest) = find_var E n rest.
Proof.
  intros W Ne S. simpl.
  destruct (startswith l n) eqn:Sn; [|reflexivity].
  unfold match_sub. rewrite W.
  assert (Q : quoted n (rstrip_c " " (lstrip_c " " (strip_c newline l))) = None).
  { apply startswith_app in Sn as [x ->].
    destruct n as [|a n]; [congruence|].
    simpl in W. apply andb_true_iff in W as [Wa Wn].
    simpl append. rewrite (stripped_line a _ Wa).
    unfold quoted.
    destruct (strip_prefix _ _) as [r|] eqn:P; [|reflexivity].
    exfalso. apply strip_prefix_spec in P. simpl in P. injection P as P.
    destruct (rstrip_c_prefix newline (n ++ x)) as (s1 & E1).
    destruct (rstrip_c_prefix " " (rstrip_c newline (n ++ x))) as (s2 & E2).
    rewrite E2, P in E1. rewrite !append_assoc_s in E1.
    apply append_inv_head in E1. subst x.
    assert (T : startswith (String a n ++ " " ++ (chr dquote ++ r) ++ s2 ++ s1)
                           (String a n ++ " ") = true).
    { apply startswith_app. exists ((chr dquote ++ r) ++ s2 ++ s1)%string.
      now rewrite !append_assoc_s. }
    simpl in T, S. congruence. }
  now rewrite Q.
Qed.

Lemma find_var_skips (E : string -> string -> exn + option string)
      (n : string) (pre rest : list string) :
  word n = true -> n <> EmptyString ->
  (forall l, In l pre -> startswith l (n ++ " ") = false) ->
  find_var E n (pre ++ rest) = find_var E n rest.
Proof.
  intros W Ne. induction pre as [|l pre IH]; intros H; [reflexivity|].
  simpl app. rewrite find_var_skip by (auto; apply H; now left).
  apply IH. intros l' I. apply H. now right.
Qed.

(** The line of the variable gives the text between its first and its
    last double quote. *)
Lemma find_var_here (E : string -> string -> exn + option string)
      (n value tail : string) (rest : list string) :
  word n = true -> n <> EmptyString ->
  mem newline value = false -> tail = EmptyString \/ tail = nl ->
  find_var E n ((n ++ " " ++ chr dquote ++ value ++ chr dquote ++ tail) :: rest)
  = inr (Some value).
Proof.
  intros W Ne Nv Tl. cbn [find_var].
  assert (Sn : startswith (n ++ " " ++ chr dquote ++ value ++ chr dquote ++ tail)
                          n = true)
    by (apply startswith_app; now eexists).
  rewrite Sn. unfold match_sub. rewrite W.
  destruct n as [|a n]; [congruence|].
  simpl in W. apply andb_true_iff in W as [Wa Wn].
  simpl append. rewrite (stripped_line a _ Wa).
  assert (R : rstrip_c " " (rstrip_c newline
                (n ++ String " " (String dquote (value ++ String dquote tail))))
              = (n ++ String " " (String dquote (value ++ chr dquote)))%string).
  { replace (n ++ String " " (String dquote (value ++ String dquote tail)))%string
      with (((n ++ " " ++ chr dquote ++ value) ++ chr dquote) ++ tail)%string
      by (rewrite !append_assoc_s; reflexivity).
    replace (n ++ String " " (String dquote (value ++ chr dquote)))%string
      with ((n ++ " " ++ chr dquote ++ value) ++ chr dquote)%string
      by (rewrite !append_assoc_s; reflexivity).
    destruct Tl as [->| ->].
    - rewrite append_empty_r.
      rewrite (rstrip_c_end newline dquote) by discriminate.
      now rewrite (rstrip_c_end " " dquote) by discriminate.
    - change nl with (chr newline). rewrite rstrip_c_drop.
      rewrite (rstrip_c_end newline dquote) by discriminate.
      now rewrite (rstrip_c_end " " dquote) by discriminate. }
  rewrite R. unfold quoted.
  change (String a n ++ " " ++ chr dquote)%string
    with (String a (n ++ " " ++ chr dquote))%string.
  replace (String a (n ++ String " " (String dquote (value ++ chr dquote))))
    with (String a (n ++ " " ++ chr dquote) ++ (value ++ chr dquote))%string
    by (simpl; rewrite !append_assoc_s; reflexivity).
  rewrite strip_prefix_app.
  rewrite (cut_none newline (value ++ chr dquote))
    by (rewrite mem_append, Nv; reflexivity).
  rewrite rcut_end. now rewrite !append_empty_r.
Qed.

(** [_getstr], in cmany and in pycmake: the value is read off the first
    line that starts with the name and a space; lines of other variables,
    also of those whose name merely begins with the name asked for, are
    passed over; the value is what stands between the first and the last
    double quote of the line.  When no line is there for the name the
    exception says so: in pycmake always, in cmany when the name of the
    generator, which is part of the format string there, has no brace. *)
Theorem getstr_reads_the_variable (E : string -> string -> exn + option string)
        (F : string -> string -> error + string)
        (n which_generator : string) (pre : list string) :
  word n = true -> n <> EmptyString ->
  (forall l, In l pre -> startswith l (n ++ " ") = false) ->
  (forall value tail rest,
      mem newline value = false -> tail = EmptyString \/ tail = nl ->
      let line := (n ++ " " ++ chr dquote ++ value ++ chr dquote ++ tail)%string in
      _getstr E F n which_generator (pre ++ line :: rest) = inr value
      /\ pycmake_getstr E n (pre ++ line :: rest) = inr value)
  /\ (mem "{" which_generator = false -> mem "}" which_generator = false ->
      _getstr E F n which_generator pre
      = inl (Raised
               (Exception ("could not find variable " ++ n
                           ++ " in the output of `cmake --system-information`"
                           ++ " for generator " ++ which_generator))))
  /\ pycmake_getstr E n pre
     = inl (Exception ("could not find variable " ++ n
                       ++ " in the output of `cmake --system-information`")).
Proof.
  intros W Ne Sk. split; [|split].
  - intros value tail rest Nv Tl line. unfold _getstr, pycmake_getstr.
    rewrite (find_var_skips E n pre _ W Ne Sk). subst line.
    rewrite (find_var_here E n value tail rest W Ne Nv Tl). split; reflexivity.
  - intros B1 B2. unfold _getstr, not_found. rewrite <- (app_nil_r pre).
    now rewrite (find_var_skips E n pre [] W Ne Sk), B1, B2.
  - unfold pycmake_getstr. rewrite <- (app_nil_r pre).
    now rewrite (find_var_skips E n pre [] W Ne Sk).
Qed.

(** [_genid]: the identifier of a generator has the length of its name and
    none of the three characters that are replaced; computing it twice
    changes nothing, and a name without those characters is its own
    identifier. *)
Theorem genid_is_a_file_name (p : string) :
  String.length (_genid p) = String.length p
  /\ mem "(" (_genid p) = false /\ mem ")" (_genid p) = false
  /\ mem " " (_genid p) = false
  /\ _genid (_genid p) = _genid p
  /\ (mem "(" p = false -> mem ")" p = false -> mem " " p = false ->
      _genid p = p).
Proof.
  induction p as [|a p (L & M1 & M2 & M3 & I & K)]; [repeat split|].
  simpl.
  destruct (Ascii.eqb_spec a "(") as [->|N1]; simpl.
  { rewrite L, M1, M2, M3, I. repeat split. discriminate. }
  destruct (Ascii.eqb_spec a ")") as [->|N2]; simpl.
  { rewrite L, M1, M2, M3, I. repeat split. discriminate. }
  destruct (Ascii.eqb_spec a " ") as [->|N3]; simpl.
  { rewrite L, M1, M2, M3, I. repeat split. discriminate. }
  apply Ascii.eqb_neq in N1, N2, N3. rewrite N1, N2, N3. simpl.
  rewrite L, M1, M2, M3, I. repeat split.
  intros H1 H2 H3. now rewrite K.
Qed.

(** *** The information, fresh and from its file *)

(** The lines of a text as [split] gives them and as they are read. *)
Lemma split_lines (text : string) :
  exists bodies last,
    split newline text = (bodies ++ [last])%list
    /\ lines text
       = (map (fun x => x ++ nl)%string bodies
          ++ if String.eqb last EmptyString then [] else [last])%list
    /\ Forall (fun x => mem newline x = false) bodies
    /\ mem newline last = false.
Proof.
  induction text as [|a text (bodies & last & Es & Er & Fb & Nl)].
  - exists [], EmptyString. repeat split. constructor.
  - simpl. destruct (Ascii.eqb_spec a newline) as [->|N].
    + exists (EmptyString :: bodies), last. rewrite Es, Er.
      repeat split; [now constructor | assumption].
    + assert (Na : (a =? newline)%char = false) by now apply Ascii.eqb_neq.
      rewrite Es, Er. destruct bodies as [|x bodies]; simpl.
      * exists [], (String a last). simpl. rewrite Na, Nl.
        repeat split; [|constructor].
        now destruct last.
      * exists (String a x :: bodies), last. simpl.
        inversion Fb; subst. repeat split; [|assumption].
        constructor; [|assumption]. simpl. now rewrite Na.
Qed.

Lemma prefix_without_newline (n x : string) :
  mem newline n = false ->
  String.prefix n (x ++ nl) = String.prefix n x.
Proof.
  revert x. induction n as [|a n IH]; intros x H.
  - now destruct x.
  - simpl in H. apply orb_false_iff in H as [Ha Hn].
    destruct x as [|y x].
    + simpl. destruct (ascii_dec a newline) as [->|]; [|reflexivity].
      now rewrite Ascii.eqb_refl in Ha.
    + simpl. destruct (ascii_dec a y); [now apply IH | reflexivity].
Qed.

Lemma strip_c_line (x : string) :
  mem newline x = false -> strip_c newline (x ++ nl) = strip_c newline x.
Proof.
  intros H. unfold strip_c. destruct x as [|a x]; [reflexivity|].
  simpl in H. apply orb_false_iff in H as [Ha _].
  simpl lstrip_c. rewrite Ha.
  change (String a (x ++ nl))%string with (String a x ++ chr newline)%string.
  now rewrite rstrip_c_drop.
Qed.

Lemma find_var_line (E : string -> string -> exn + option string)
      (n x : string) (r1 r2 : list string) :
  mem newline n = false -> mem newline x = false ->
  find_var E n r1 = find_var E n r2 ->
  find_var E n (x :: r1) = find_var E n ((x ++ nl)%string :: r2).
Proof.
  intros Nn Nx H. cbn [find_var]. unfold startswith.
  rewrite (prefix_without_newline n x Nn), (strip_c_line x Nx), H.
  reflexivity.
Qed.

Lemma find_var_empty_line (E : string -> string -> exn + option string)
      (n : string) (rest : list string) :
  word n = true ->
  find_var E n (EmptyString :: rest) = find_var E n rest.
Proof.
  intros W. cbn [find_var]. destruct n as [|a n]; [|reflexivity].
  reflexivity.
Qed.

(** Whether a text is split at its line feeds or read line by line,
    [_getstr] finds the same in it. *)
Lemma find_var_split_or_lines (E : string -> string -> exn + option string)
      (n out : string) :
  word n = true ->
  find_var E n (split newline out) = find_var E n (lines out).
Proof.
  intros W. pose proof (word_no_newline n W) as Nn.
  destruct (split_lines out) as (bodies & last & -> & -> & Fb & Nl).
  induction Fb as [|x bodies Nx _ IH]; simpl app.
  - destruct last as [|a last]; [now apply find_var_empty_line|reflexivity].
  - simpl map. simpl app. now apply find_var_line.
Qed.

(** [system_info]: with the file of the generator there, its lines are
    returned and nothing is run; without it, cmake is run once in the
    directory of the generator, its output is written to the file, and from
    then on the file answers.  In the lines of the file [_getstr] finds
    what it finds in the output with its line ends read as a file's are,
    which is the output itself when it has no carriage return. *)
Theorem system_info_is_kept (T : Tools) (gen : string) (w : World) :
  (forall text,
      files (fs w) (info_file T gen) = Some text ->
      system_info T gen w = Ok (readlines text) w)
  /\ (forall got w',
         exists_ (fs w) (info_file T gen) = false ->
         system_info T gen w = Ok got w' ->
         exists cmd out,
           info_cmd T gen = inr cmd
           /\ trace w' = (trace w ++ [(info_dir T gen, cmd)])%list
           /\ files (fs w') (info_file T gen) = Some out
           /\ got = split newline out
           /\ system_info T gen w' = Ok (readlines out) w'
           /\ (forall E n, word n = true ->
                           find_var E n (split newline (universal out))
                           = find_var E n (readlines out))
           /\ (mem cr out = false ->
               forall E n, word n = true ->
                           find_var E n got = find_var E n (readlines out))).
Proof.
  split.
  - intros text F. unfold system_info, exists_. rewrite F.
    now rewrite orb_true_r.
  - intros got w' Ex H. unfold system_info in H. rewrite Ex in H.
    destruct (info_cmd T gen) as [e|cmd]; [discriminate|].
    destruct (runsyscmd T _ _ _) as [[out|] fs2]; [|discriminate].
    injection H as <- <-. exists cmd, out. simpl.
    rewrite String.eqb_refl.
    split; [reflexivity|]. split; [reflexivity|]. split; [reflexivity|].
    split; [reflexivity|]. split; [|split].
    + unfold system_info, exists_. simpl. rewrite String.eqb_refl.
      now rewrite orb_true_r.
    + intros E n W. now apply find_var_split_or_lines.
    + intros C E n W. unfold readlines. rewrite (universal_plain out C).
      now apply find_var_split_or_lines.
Qed.

End SysInfoFacts.

Section UpkeepFacts.
Import Py Sys Re Cache Run Cmany Lifecycle Upkeep.
Local Open Scope py_scope.

Lemma needs_build_value (b : Build) (w : World) :
  needs_build b w = Ok (build_needed b w) w.
Proof.
  unfold needs_build, build_needed, needs_cache_regeneration,
    path_exists, the_cache, bind, ret, build_done.
  destruct (exists_ (fs w) (builddir b)); simpl; [|reflexivity].
  destruct (exists_ (fs w) (path_join (builddir b) "cmany_build.done"));
    simpl; [|reflexivity].
  destruct (exists_ (fs w) (cachefile b) && dirty (caches w (varcache b)));
    reflexivity.
Qed.

Lemma run_trace (T : Tools) (cwd : string) (cmd : list string) (w : World) :
  trace (world_of (run T cwd cmd w)) = (trace w ++ [(cwd, cmd)])%list
  /\ caches (world_of (run T cwd cmd w)) = caches w
  /\ gens (world_of (run T cwd cmd w)) = gens w.
Proof.
  unfold run, after_child.
  destruct (runsyscmd T cwd cmd (fs w)) as [ok fs']. simpl.
  destruct ok; repeat split.
Qed.

(** [clean]: the clean command of the generator is run in the build
    directory whatever comes of it; when [clean] returns, the marker of the
    build is gone and [needs_build()] is true; when the command has run and
    the marker is not there to be removed, [clean] raises. *)
Theorem clean_removes_the_marker (T : Tools) (b : Build) (w : World) :
  let cmd := gen_cmd T (gens w (generator b)) ["clean"] in
  trace (world_of (clean T b w)) = (trace w ++ [(builddir b, cmd)])%list
  /\ (forall w', clean T b w = Ok tt w' ->
        exists_ (fs w') (build_done b) = false
        /\ needs_build b w' = Ok true w'
        /\ caches w' = caches w /\ gens w' = gens w)
  /\ (forall w1, run T (builddir b) cmd (with_builddir b w) = Ok tt w1 ->
        files (fs w1) (build_done b) = None ->
        clean T b w = Raise (IOError (build_done b)) w1).
Proof.
  intros cmd.
  destruct (create_dir_ok b w) as (E1 & _ & _ & C1 & G1 & T1 & _).
  assert (U : clean T b w
              = match run T (builddir b) cmd (with_builddir b w) with
                | Ok _ w1 => os_remove (build_done b) w1
                | Raise e w1 => Raise e w1
                end).
  { unfold clean, bind at 1. rewrite E1.
    unfold bind at 1, the_generator. unfold bind. subst cmd. now rewrite G1. }
  destruct (run_trace T (builddir b) cmd (with_builddir b w)) as (Rt & Rc & Rg).
  rewrite T1 in Rt. rewrite C1 in Rc. rewrite G1 in Rg.
  split; [|split].
  - rewrite U.
    destruct (run T (builddir b) cmd (with_builddir b w)) as [[] w1|e w1];
      simpl in *; [|exact Rt].
    unfold os_remove.
    destruct (dirs (fs w1) (build_done b)); [exact Rt|].
    destruct (files (fs w1) (build_done b)); exact Rt.
  - intros w' H. rewrite U in H.
    destruct (run T (builddir b) cmd (with_builddir b w)) as [[] w1|e w1];
      [|discriminate].
    simpl in *. unfold os_remove in H.
    destruct (dirs (fs w1) (build_done b)) eqn:D; [discriminate|].
    destruct (files (fs w1) (build_done b)); [|discriminate].
    injection H as <-.
    assert (X : exists_ (fs (with_fs w1 (remove (fs w1) (build_done b))))
                        (build_done b) = false).
    { unfold exists_. simpl. now rewrite D, String.eqb_refl. }
    split; [exact X|]. split; [|split; assumption].
    rewrite needs_build_value. unfold build_needed. rewrite X. simpl.
    now rewrite orb_true_r.
  - intros w1 R F. rewrite U, R. unfold os_remove. rewrite F.
    now destruct (dirs (fs w1) (build_done b)).
Qed.

(** [install]: the build directory is made, [build()] runs first exactly
    when [needs_build()] says so, and the install command of the generator
    is the last command run. *)
Theorem install_builds_when_needed (T : Tools) (inner : Methods) (b : Build)
        (w w' : World) :
  install T inner b w = Ok tt w' ->
  exists w1,
    (if build_needed b (with_builddir b w)
     then build T inner b [] (with_builddir b w) = Ok tt w1
     else w1 = with_builddir b w)
    /\ trace w'
       = (trace w1 ++ [(builddir b, gen_install T (gens w1 (generator b)))])%list
    /\ caches w' = caches w1 /\ gens w' = gens w1
    /\ written (fs w') = written (fs w1).
Proof.
  intros H. unfold install in H.
  apply bind_ok in H as ([] & wa & Ha & H).
  destruct (create_dir_ok b w) as (E1 & _).
  rewrite E1 in Ha. injection Ha as <-.
  apply bind_ok in H as (nb & wb & Hb & H).
  rewrite needs_build_value in Hb. injection Hb as <- <-.
  apply bind_ok in H as ([] & w1 & Hc & H).
  apply bind_ok in H as (g & wd & [= <- <-] & H).
  destruct (run_frame T _ _ _ _ H) as (C & G & Tr & W).
  exists w1. split; [|repeat split; assumption].
  apply when_ok in Hc as [[-> Hc]|[-> ->]]; [exact Hc | reflexivity].
Qed.

(** After a [build()] that returned, the marker of the build is there,
    so [needs_build()] is true only when the build directory is gone or
    the cache file exists and the cache is dirty; otherwise [install()]
    goes straight to the install command. *)
Theorem install_after_build (T : Tools) (inner inner' : Methods) (b : Build)
        (targets : list string) (w w1 : World) :
  build T inner b targets w = Ok tt w1 ->
  exists_ (fs w1) (build_done b) = true
  /\ needs_build b w1
     = Ok (negb (exists_ (fs w1) (builddir b))
           || (exists_ (fs w1) (cachefile b)
               && dirty (caches w1 (varcache b)))) w1
  /\ (exists_ (fs w1) (builddir b) = true ->
      exists_ (fs w1) (cachefile b) && dirty (caches w1 (varcache b)) = false ->
      install T inner' b w1
      = run T (builddir b) (gen_install T (gens w1 (generator b))) w1).
Proof.
  intros H.
  destruct (build_split T inner b targets w w1 H) as (wa & wb & cmd & _ & _ & ->).
  assert (X : exists_ (fs (with_fs wb (write_text (fs wb) (build_done b)
                                                  (join " " cmd ++ nl))))
                      (build_done b) = true).
  { simpl. rewrite exists_write_text, String.eqb_refl. apply orb_true_r. }
  set (w1 := with_fs wb _) in *.
  split; [exact X|]. split.
  - rewrite needs_build_value. unfold build_needed. rewrite X. simpl.
    now rewrite orb_false_r.
  - intros Bd Cl. unfold install, bind at 1, create_dir. rewrite Bd. simpl.
    unfold bind at 1. rewrite needs_build_value.
    unfold build_needed. rewrite Bd, X, Cl. simpl.
    reflexivity.
Qed.

(** *** The input *)

(** What a call of [CMakeSysInfo.var] leaves alone. *)
Lemma sysinfo_call_frame (T : Tools) (b : Build) (var : string) (w : World) :
  exists r, sysinfo_call T b var w = Ok r (world_of (sysinfo_call T b var w))
            /\ caches (world_of (sysinfo_call T b var w)) = caches w
            /\ gens (world_of (sysinfo_call T b var w)) = gens w
            /\ exists cmds,
                trace (world_of (sysinfo_call T b var w))
                = (trace w ++ cmds)%list.
Proof.
  unfold sysinfo_call.
  destruct (sysinfo_var T var (gens w (generator b)) (sysinfo w) (fs w))
    as [[[r attrs] fs'] cmds].
  exists r. simpl. repeat split. now exists cmds.
Qed.

(** The call depends on the generator, on the attributes of
    [CMakeSysInfo] and on the file system, and adds to the commands run. *)
Lemma sysinfo_call_same (T : Tools) (b : Build) (var : string)
      (w1 w2 : World) :
  fs w1 = fs w2 -> gens w1 = gens w2 -> sysinfo w1 = sysinfo w2 ->
  trace w1 = trace w2 ->
  value_of (sysinfo_call T b var w1) = value_of (sysinfo_call T b var w2)
  /\ fs (world_of (sysinfo_call T b var w1))
     = fs (world_of (sysinfo_call T b var w2))
  /\ sysinfo (world_of (sysinfo_call T b var w1))
     = sysinfo (world_of (sysinfo_call T b var w2))
  /\ trace (world_of (sysinfo_call T b var w1))
     = trace (world_of (sysinfo_call T b var w2)).
Proof.
  intros F G S Tr. unfold sysinfo_call. rewrite F, G, S, Tr.
  destruct (sysinfo_var T var (gens w2 (generator b)) (sysinfo w2) (fs w2))
    as [[[r attrs] fs'] cmds].
  repeat split.
Qed.

Lemma flags_fold (b : Build) (which : FlagSet -> list CompileOption)
      (with_defines : bool) (l : list FlagSet) (acc : list string) :
  fold_left
    (fun flags fs =>
       let flags := (flags ++ map (fun f => CompileOption_get f (compiler b))
                                  (which fs))%list in
       if with_defines then (flags ++ defines fs)%list else flags)
    l acc
  = (acc ++ flat_map (flags_of b which with_defines) l)%list.
Proof.
  revert acc. induction l as [|x l IH]; intros acc; simpl;
    [now rewrite app_nil_r|].
  rewrite IH. unfold flags_of.
  destruct with_defines; now rewrite ?app_nil_r, <- ?app_assoc.
Qed.

(** [_gather_flags]: when a variable of cmake's system information is
    asked for, [CMakeSysInfo.var] is called first, whatever it does is done,
    and its value, if it returns one, comes first; then comes the
    contribution of each flag set in the order of [_get_flagseq], its flags
    in the spelling for the compiler and then its defines.  The caches and
    the generators are as they were, and without such a variable so is
    everything.  A build without a variant object has no flag sequence:
    [AttributeError] is raised, after the call of [CMakeSysInfo.var]. *)
Theorem gather_flags_in_order (T : Tools) (b : Build)
        (which : FlagSet -> list CompileOption)
        (append_to_sysinfo_var : string) (with_defines : bool) (w : World) :
  let called := sysinfo_call T b append_to_sysinfo_var w in
  let w1 := if truthy append_to_sysinfo_var then world_of called else w in
  let flags0 := if truthy append_to_sysinfo_var
                then match value_of called with
                     | Some (inr x) => [x]
                     | _ => []
                     end
                else [] in
  match variant b with
  | Some v =>
      _gather_flags T b which append_to_sysinfo_var with_defines w
      = Ok (flags0 ++ flat_map (flags_of b which with_defines) (flagseq b v))%list
           w1
  | None =>
      _gather_flags T b which append_to_sysinfo_var with_defines w
      = Raise (AttributeError "'NoneType' object has no attribute 'flags'") w1
  end
  /\ caches w1 = caches w /\ gens w1 = gens w
  /\ (exists cmds, trace w1 = (trace w ++ cmds)%list)
  /\ (truthy append_to_sysinfo_var = false -> w1 = w).
Proof.
  intros called w1 flags0. subst called w1 flags0.
  unfold _gather_flags, _get_flagseq, sysinfo_call, bind, ret, raise.
  destruct (truthy append_to_sysinfo_var).
  - destruct (sysinfo_var T append_to_sysinfo_var (gens w (generator b))
                          (sysinfo w) (fs w)) as [[[r attrs] fs'] cmds].
    simpl. split; [|repeat split; try discriminate; now exists cmds].
    destruct (variant b) as [v|]; [|reflexivity].
    rewrite flags_fold. now destruct r.
  - split; [|repeat split; exists []; now rewrite app_nil_r].
    destruct (variant b) as [v|]; [|reflexivity].
    now rewrite flags_fold.
Qed.

Lemma setvar_other (c : CMakeCache) (n n' v t : string) (kw : Kwargs) :
  n' <> n ->
  get (items (fst (setvar c n v t kw))) n' = get (items c) n'.
Proof.
  intros N. unfold setvar. destruct (get (items c) n) as [v0|].
  - destruct (reset v0 v t kw) as [v' ch]. simpl. now apply get_set_other.
  - simpl. now apply get_set_other.
Qed.

Lemma same_refl (w : World) : same_but_caches w w.
Proof. repeat split. Qed.

Lemma same_trans (w1 w2 w3 : World) :
  same_but_caches w1 w2 -> same_but_caches w2 w3 -> same_but_caches w1 w3.
Proof.
  intros (? & ? & ? & ?) (? & ? & ? & ?). repeat split; congruence.
Qed.

(** One input variable set: the step [_set(pfn, pname, pval)]. *)
Lemma set_step (b : Build) (n v t : string) (kw : Kwargs) (w w' : World) :
  (_ <- on_cache b (fun c => setvar c n v t kw) ;; ret tt) w = Ok tt w' ->
  same_but_caches w w'
  /\ cache_value w' b n = Some (v, t)
  /\ (forall n', n' <> n -> cache_value w' b n' = cache_value w b n')
  /\ (forall k, k <> varcache b -> caches w' k = caches w k).
Proof.
  unfold bind, on_cache, ret.
  destruct (setvar (caches w (varcache b)) n v t kw) as [c' ch] eqn:S.
  intros [= <-]. simpl. split; [repeat split|]. split; [|split].
  - unfold cache_value. simpl. unfold upd. rewrite Nat.eqb_refl.
    replace c' with (fst (setvar (caches w (varcache b)) n v t kw))
      by now rewrite S.
    apply setvar_stores.
  - intros n' N. unfold cache_value. simpl. unfold upd. rewrite Nat.eqb_refl.
    replace c' with (fst (setvar (caches w (varcache b)) n v t kw))
      by now rewrite S.
    now rewrite setvar_other.
  - intros k N. unfold upd. apply Nat.eqb_neq in N. now rewrite N.
Qed.

Lemma only_refl (b : Build) (w : World) : only_this_cache b w w.
Proof. split; [apply same_refl | reflexivity]. Qed.

Lemma only_trans (b : Build) (w1 w2 w3 : World) :
  only_this_cache b w1 w2 -> only_this_cache b w2 w3 ->
  only_this_cache b w1 w3.
Proof.
  intros [S1 C1] [S2 C2]. split; [now apply (same_trans w1 w2 w3)|].
  intros k N. now rewrite C2, C1.
Qed.

Lemma gather_cmake_var_frame (b : Build) (v : string) (w w' : World) :
  gather_cmake_var b v w = Ok tt w' -> only_this_cache b w w'.
Proof.
  unfold gather_cmake_var.
  destruct (parse_assignment v) as [n x|n x t|]; try discriminate.
  intros H. destruct (set_step b n x t input_kwargs w w' H) as (? & _ & _ & ?).
  now split.
Qed.

Lemma for_each_frame {A} (b : Build) (body : A -> M unit) (l : list A)
      (w w' : World) :
  (forall x w1 w2, body x w1 = Ok tt w2 -> only_this_cache b w1 w2) ->
  for_each l body w = Ok tt w' -> only_this_cache b w w'.
Proof.
  intros Fr. revert w. induction l as [|x l IH]; intros w; simpl.
  - intros [= <-]. apply only_refl.
  - intros H. apply bind_ok in H as ([] & w1 & H1 & H).
    apply (only_trans b w w1 w'); [now apply (Fr x) | now apply IH].
Qed.

Lemma gather_cmake_vars_frame (b : Build) (w w' : World) :
  _gather_cmake_vars b w = Ok tt w' -> only_this_cache b w w'.
Proof.
  unfold _gather_cmake_vars. intros H.
  apply bind_ok in H as (fl & w1 & H1 & H).
  unfold _get_flagseq in H1. destruct (variant b); [|discriminate].
  injection H1 as <- <-.
  apply (for_each_frame b _ _ _ _) in H; [exact H|].
  intros x w1 w2. apply for_each_frame. apply gather_cmake_var_frame.
Qed.

Lemma when_set_step (c : bool) (b : Build) (n v t : string) (kw : Kwargs)
      (w w' : World) :
  when c (_ <- on_cache b (fun c => setvar c n v t kw) ;; ret tt) w = Ok tt w' ->
  only_this_cache b w w'
  /\ (c = true -> cache_value w' b n = Some (v, t))
  /\ (forall n', n' <> n -> cache_value w' b n' = cache_value w b n').
Proof.
  intros H. apply when_ok in H as [[-> H]|[-> ->]].
  - destruct (set_step b n v t kw w w' H) as (S & V & O & C).
    split; [now split|]. split; [intros _; exact V | exact O].
  - split; [apply only_refl|]. split; [discriminate | reflexivity].
Qed.

(** [_gather_flags] for a variable of the system information leaves the
    world that the call of [CMakeSysInfo.var] leaves. *)
Lemma gather_flags_world (T : Tools) (b : Build)
      (which : FlagSet -> list CompileOption) (var : string) (wd : bool)
      (fl : list string) (w w' : World) :
  truthy var = true ->
  _gather_flags T b which var wd w = Ok fl w' ->
  w' = world_of (sysinfo_call T b var w).
Proof.
  intros Tv. unfold _gather_flags, _get_flagseq. rewrite Tv.
  unfold sysinfo_call, bind, ret, raise.
  destruct (sysinfo_var T var (gens w (generator b)) (sysinfo w) (fs w))
    as [[[r attrs] fs'] cmds].
  destruct (variant b); [|discriminate]. now intros [= _ <-].
Qed.

(** A world after a call of [CMakeSysInfo.var], against another world
    after the same call. *)
Lemma sysinfo_call_step (T : Tools) (b : Build) (var : string)
      (w1 w2 : World) :
  same_but_caches w1 w2 ->
  same_but_caches (world_of (sysinfo_call T b var w1))
                  (world_of (sysinfo_call T b var w2))
  /\ caches (world_of (sysinfo_call T b var w2)) = caches w2.
Proof.
  intros (F & G & Tr & S). unfold sysinfo_call. rewrite F, G, S, Tr.
  destruct (sysinfo_var T var (gens w1 (generator b)) (sysinfo w1) (fs w1))
    as [[[r attrs] fs'] cmds].
  simpl. repeat split.
Qed.

(** [gather_input_cache_vars], when it returns: the build type and the
    install prefix of the build are in the cache, whatever the cache file
    or the assignments of the flag sets said about them, and so are the two
    compilers unless the generator is Visual Studio; the paths are stored as
    [p] and [f] store them.  No other cache and no generator changes.  The
    file system, the commands run and the attributes of [CMakeSysInfo] are
    as the two calls of [CMakeSysInfo.var] leave them, the one for the
    flags of C and then the one for the flags of C++. *)
Theorem input_variables_are_set (T : Tools) (b : Build) (w w' : World) :
  gather_input_cache_vars T b w = Ok tt w' ->
  cache_value w' b "CMAKE_BUILD_TYPE" = Some (str (buildtype b), "STRING")
  /\ cache_value w' b "CMAKE_INSTALL_PREFIX"
     = Some (stored T (installdir b), "PATH")
  /\ (g_is_msvc (gens w (generator b)) = false ->
      cache_value w' b "CMAKE_C_COMPILER"
      = Some (stored T (c_compiler (compiler b)), "FILEPATH")
      /\ cache_value w' b "CMAKE_CXX_COMPILER"
         = Some (stored T (path (compiler b)), "FILEPATH"))
  /\ (forall k, k <> varcache b -> caches w' k = caches w k)
  /\ gens w' = gens w
  /\ let wc := world_of (sysinfo_call T b "CMAKE_C_FLAGS_INIT" w) in
     let wcxx := world_of (sysinfo_call T b "CMAKE_CXX_FLAGS_INIT" wc) in
     fs w' = fs wcxx /\ trace w' = trace wcxx /\ sysinfo w' = sysinfo wcxx.
Proof.
  intros H. unfold gather_input_cache_vars in H.
  apply bind_ok in H as ([] & w1 & H1 & H).
  pose proof (gather_cmake_vars_frame b w w1 H1) as O1.
  apply bind_ok in H as (g & w2 & [= <- <-] & H).
  apply bind_ok in H as ([] & w3 & H3 & H).
  apply bind_ok in H as ([] & w4 & H4 & H).
  apply (set_step b "CMAKE_BUILD_TYPE" (str (buildtype b)) "STRING"
                  input_kwargs w3 w4) in H4 as (S4 & V4 & O4 & C4).
  apply bind_ok in H as ([] & w5 & H5 & H).
  apply (set_step b "CMAKE_INSTALL_PREFIX" (stored T (installdir b)) "PATH"
                  input_kwargs w4 w5) in H5 as (S5 & V5 & O5 & C5).
  apply bind_ok in H as (cf & w6 & H6 & H).
  apply gather_flags_world in H6; [|reflexivity].
  apply bind_ok in H as ([] & w7 & H7 & H).
  apply (when_set_step _ b "CMAKE_C_FLAGS" (join " " cf) "STRING"
                       input_kwargs w6 w7) in H7 as (O7c & _ & O7).
  apply bind_ok in H as (cxf & w8 & H8 & H).
  apply gather_flags_world in H8; [|reflexivity].
  apply (when_set_step _ b "CMAKE_CXX_FLAGS" (join " " cxf) "STRING"
                       input_kwargs w8 w') in H as (O8c & _ & O8).
  assert (K : only_this_cache b w1 w3
              /\ (g_is_msvc (gens w1 (generator b)) = false ->
                  cache_value w3 b "CMAKE_C_COMPILER"
                  = Some (stored T (c_compiler (compiler b)), "FILEPATH")
                  /\ cache_value w3 b "CMAKE_CXX_COMPILER"
                     = Some (stored T (path (compiler b)), "FILEPATH"))).
  { apply when_ok in H3 as [[Hm H3]|[Hm ->]].
    - apply bind_ok in H3 as ([] & wa & Ha & Hb).
      apply (set_step b "CMAKE_C_COMPILER" (stored T (c_compiler (compiler b)))
                      "FILEPATH" input_kwargs w1 wa)
        in Ha as (Sa & Va & Oa & Ca).
      apply (set_step b "CMAKE_CXX_COMPILER" (stored T (path (compiler b)))
                      "FILEPATH" input_kwargs wa w3)
        in Hb as (Sb & Vb & Ob & Cb).
      split.
      + apply (only_trans b w1 wa w3); now split.
      + intros _. split; [|exact Vb]. rewrite Ob by discriminate. exact Va.
    - split; [apply only_refl|].
      intros Hx. apply negb_false_iff in Hm. congruence. }
  destruct K as (O3 & V3).
  (* the world before the first call, against the world at the start *)
  assert (O05 : only_this_cache b w w5).
  { apply (only_trans b w w1 w5); [exact O1|].
    apply (only_trans b w1 w3 w5); [exact O3|].
    apply (only_trans b w3 w4 w5); now split. }
  destruct O05 as [S05 C05].
  set (wc := world_of (sysinfo_call T b "CMAKE_C_FLAGS_INIT" w)).
  set (wcxx := world_of (sysinfo_call T b "CMAKE_CXX_FLAGS_INIT" wc)).
  destruct (sysinfo_call_step T b "CMAKE_C_FLAGS_INIT" w w5 S05) as [S6 C6].
  rewrite <- H6 in S6, C6. fold wc in S6.
  destruct O7c as [S7 C7].
  pose proof (same_trans wc w6 w7 S6 S7) as S07.
  destruct (sysinfo_call_step T b "CMAKE_CXX_FLAGS_INIT" wc w7 S07) as [S8 C8].
  rewrite <- H8 in S8, C8. fold wcxx in S8.
  destruct O8c as [S9 C9].
  destruct (same_trans wcxx w8 w' S8 S9) as (Ff & Gf & Tf & Sf).
  assert (CV6 : forall n, cache_value w6 b n = cache_value w5 b n)
    by (intros n; unfold cache_value; now rewrite C6).
  assert (CV8 : forall n, cache_value w8 b n = cache_value w7 b n)
    by (intros n; unfold cache_value; now rewrite C8).
  split; [|split; [|split; [|split; [|split]]]].
  - rewrite O8, CV8, O7, CV6, O5 by discriminate. exact V4.
  - rewrite O8, CV8, O7, CV6 by discriminate. exact V5.
  - intros Hm. destruct O1 as [(_ & G1 & _) _]. rewrite <- G1 in Hm.
    destruct (V3 Hm) as [Vc Vx].
    rewrite !O8, !CV8, !O7, !CV6, !O5, !O4 by discriminate. now split.
  - intros k N. rewrite C9, C8, C7, C6 by exact N. now apply C05.
  - destruct S9 as (_ & G9 & _). destruct S8 as (_ & G8 & _).
    rewrite G9, G8. unfold wcxx, wc.
    destruct (sysinfo_call_frame T b "CMAKE_CXX_FLAGS_INIT"
                (world_of (sysinfo_call T b "CMAKE_C_FLAGS_INIT" w)))
      as (_ & _ & _ & Gx & _).
    destruct (sysinfo_call_frame T b "CMAKE_C_FLAGS_INIT" w)
      as (_ & _ & _ & Gc & _).
    now rewrite Gx, Gc.
  - repeat split; assumption.
Qed.

End UpkeepFacts.

Section UtilFacts.
Import Py Sys Run Text Raising Util.

(** [which]: what it returns exists; a command that exists as it is
    given is returned as it is; and on a system that is not Windows the
    directories of [PATH] are never searched, so a command that does not
    exist as given is not found. *)
Theorem which_looks_no_further (E : Env) (fs : FS) (cmd : string) :
  (forall j, which E fs cmd = inr (Some j) -> exists_ fs j = true)
  /\ (exists_ fs cmd = true -> which E fs cmd = inr (Some cmd))
  /\ (forall s p,
         default_system E = inr s -> s <> "windows" ->
         environ_PATH E = Some p ->
         which E fs cmd = inr (if exists_ fs cmd then Some cmd else None))
  /\ (forall s,
         exists_ fs cmd = false -> default_system E = inr s ->
         environ_PATH E = None -> which E fs cmd = inl (KeyError "PATH")).
Proof.
  unfold which. split; [|split; [|split]].
  - intros j. destruct (exists_ fs cmd) eqn:X; [now intros [= <-]|].
    destruct (default_system E) as [e|s]; [discriminate|].
    destruct (environ_PATH E) as [p|]; [|discriminate].
    intros [= H]. now apply find_some in H.
  - now intros ->.
  - intros s p -> N ->. destruct (exists_ fs cmd); [reflexivity|].
    apply String.eqb_neq in N. rewrite N. unfold candidates.
    assert (K : forall l, flat_map (fun path : string =>
                            map (fun e => os_path_join E path (cmd ++ e)) [])
                          l = []).
    { induction l; simpl; auto. }
    now rewrite K.
  - now intros s -> -> ->.
Qed.

(** [cmember]: once the attribute is set it answers, and [function] is
    not called again: after a call that returned, any further call returns
    the same value and leaves everything as it is. *)
Theorem cmember_calls_once {V X : Type} (name : string)
        (function : Run.M (odict V * X) V) (st st' : odict V * X) (v : V) :
  cmember name function st = Ok v st' ->
  forall g, cmember name g st' = Ok v st'.
Proof.
  unfold cmember. intros H g.
  destruct (get (fst st) name) as [val|] eqn:G.
  - injection H as <- <-. now rewrite G.
  - destruct (function st) as [val st1|e st1]; [|discriminate].
    injection H as <- <-. simpl. now rewrite get_set_same.
Qed.

(** [cslist]: the pieces have no comma, there is at least one, and
    joining them with commas gives the argument back. *)
Theorem cslist_join (arg : string) :
  join "," (cslist arg) = arg
  /\ cslist arg <> []
  /\ Forall (fun x => mem "," x = false) (cslist arg).
Proof.
  unfold cslist. split; [|split; [apply split_nonempty|]].
  - induction arg as [|a arg IH]; [reflexivity|].
    simpl. destruct (Ascii.eqb_spec a ",") as [->|N].
    + destruct (split "," arg) as [|h t] eqn:E; [now apply split_nonempty in E|].
      change (join "," (EmptyString :: h :: t))
        with ("" ++ "," ++ join "," (h :: t))%string.
      now rewrite IH.
    + destruct (split "," arg) as [|h t] eqn:E; [now apply split_nonempty in E|].
      destruct t as [|h' t].
      * simpl in *. now rewrite IH.
      * change (join "," (String a h :: h' :: t))
          with (String a (h ++ "," ++ join "," (h' :: t)))%string.
        change (join "," (h :: h' :: t))
          with (h ++ "," ++ join "," (h' :: t))%string in IH.
        now rewrite IH.
  - induction arg as [|a arg IH]; [repeat constructor|].
    simpl. destruct (Ascii.eqb_spec a ",") as [->|N].
    + now constructor.
    + destruct (split "," arg) as [|h t] eqn:E; [now apply split_nonempty in E|].
      inversion IH; subst. constructor; [|assumption].
      simpl. apply Ascii.eqb_neq in N. now rewrite N.
Qed.

End UtilFacts.

Section AxesFacts.
Import Py Sys Text Axes.

Lemma lower_char_idem (a : ascii) : lower_char (lower_char a) = lower_char a.
Proof.
  destruct a as [[] [] [] [] [] [] [] []]; reflexivity.
Qed.

Lemma lower_idem (z : string) : lower (lower z) = lower z.
Proof.
  induction z as [|a z IH]; simpl; [reflexivity|].
  now rewrite lower_char_idem, IH.
Qed.

Lemma lower_char_digit (a d : ascii) :
  (Nat.leb 48 (nat_of_ascii d) && Nat.leb (nat_of_ascii d) 57) = true ->
  Ascii.eqb d (lower_char a) = Ascii.eqb d a.
Proof.
  destruct d as [[] [] [] [] [] [] [] []]; try discriminate; intros _;
    destruct a as [[] [] [] [] [] [] [] []]; reflexivity.
Qed.

Lemma lower_char_not_capital (a : ascii) : lower_char a <> "D"%char.
Proof.
  destruct a as [[] [] [] [] [] [] [] []]; discriminate.
Qed.

Lemma starts_64_lower (z : string) :
  starts "64" (lower z) = starts "64" z.
Proof.
  destruct z as [|a [|a' z]]; cbn [starts lower].
  - reflexivity.
  - now rewrite (lower_char_digit a "6" eq_refl).
  - now rewrite (lower_char_digit a "6" eq_refl),
      (lower_char_digit a' "4" eq_refl).
Qed.

Lemma contains_64_lower (z : string) :
  contains "64" (lower z) = contains "64" z.
Proof.
  induction z as [|a z IH]; [reflexivity|].
  change (contains "64" (lower (String a z)))
    with (starts "64" (lower (String a z)) || contains "64" (lower z)).
  change (contains "64" (String a z))
    with (starts "64" (String a z) || contains "64" z).
  now rewrite starts_64_lower, IH.
Qed.

(** The defaults of the two axes that cmake reports.  The system is the
    reported name in lower case, with ["mac os x"] turned into ["mac"]; the
    comparison with ["Darwin"] comes after the lower-casing and never
    holds.  The architecture is the reported name in lower case with
    ["amd64"] turned into ["x86_64"], and it counts as 64 bit exactly when
    the reported name has "64" in it. *)
Theorem defaults_of_the_host (reported : string) :
  System_default_str reported
  = (if String.eqb (lower reported) "mac os x" then "mac" else lower reported)
  /\ System_default_str reported <> "Darwin"
  /\ System_default_str reported <> "mac os x"
  /\ lower (System_default_str reported) = System_default_str reported
  /\ Architecture_default_str reported
     = (if String.eqb (lower reported) "amd64" then "x86_64" else lower reported)
  /\ is64 (Architecture_default_str reported) = contains "64" reported
  /\ is32 (Architecture_default_str reported) = negb (contains "64" reported).
Proof.
  assert (D : String.eqb (lower reported) "Darwin" = false).
  { apply String.eqb_neq. destruct reported as [|a r]; [discriminate|].
    simpl. intros [= H _]. now apply (lower_char_not_capital a). }
  assert (S1 : System_default_str reported
               = (if String.eqb (lower reported) "mac os x" then "mac"
                  else lower reported)).
  { unfold System_default_str, system_name. rewrite D.
    now rewrite orb_false_r. }
  assert (A64 : is64 (Architecture_default_str reported) = contains "64" reported).
  { unfold is64, Architecture_default_str, architecture.
    destruct (String.eqb_spec (lower reported) "amd64") as [E|N].
    - rewrite <- (contains_64_lower reported), E. reflexivity.
    - apply contains_64_lower. }
  split; [exact S1|]. split; [|split; [|split; [|split; [|split]]]].
  - rewrite S1. destruct (String.eqb (lower reported) "mac os x");
      [discriminate|]. now apply String.eqb_neq.
  - rewrite S1. destruct (String.eqb_spec (lower reported) "mac os x");
      [discriminate | assumption].
  - rewrite S1. destruct (String.eqb (lower reported) "mac os x");
      [reflexivity | apply lower_idem].
  - reflexivity.
  - exact A64.
  - unfold is32. now rewrite A64.
Qed.

(** The presets of compile options: a name of the table gives the option
    of that name, whose spelling for gcc-like compilers is a dash option
    and whose spelling for Visual Studio is a slash option or empty; any
    other name raises. *)
Theorem preset_by_name (n : string) :
  match get_compile_option_preset n with
  | inr o =>
      name o = n /\ In (n, o) option_presets
      /\ startswith (gcclike o) "-" = true
      /\ (vs o = EmptyString \/ startswith (vs o) "/" = true)
      /\ get_option o false = gcclike o /\ get_option o true = vs o
  | inl e =>
      e = Exception ("could not find compile option preset: " ++ n)
      /\ ~ In n (map fst option_presets)
  end.
Proof.
  unfold get_compile_option_preset.
  destruct (get option_presets n) as [o|] eqn:G.
  - apply get_in in G.
    assert (F : Forall (fun kv : string * CompileOption =>
                          name (snd kv) = fst kv
                          /\ startswith (gcclike (snd kv)) "-" = true
                          /\ (vs (snd kv) = EmptyString
                              \/ startswith (vs (snd kv)) "/" = true))
                       option_presets).
    { unfold option_presets, _opt.
      repeat (constructor; [simpl; repeat split; auto|]). constructor. }
    rewrite Forall_forall in F. destruct (F _ G) as (Hn & Hg & Hv).
    repeat split; assumption.
  - split; [reflexivity | now apply get_none_notin].
Qed.

End AxesFacts.

Section PycmakeFacts.
Import Py Sys Run Pycmake PycmakeOps.
Local Open Scope py_scope.

Lemma pycmake_create_dir (b : Build) (w : World) :
  create_dir b w = Ok tt (with_dir b w)
  /\ exists_ (fs (with_dir b w)) (builddir b) = true
  /\ trace (with_dir b w) = trace w
  /\ files (fs (with_dir b w)) = files (fs w)
  /\ written (fs (with_dir b w)) = written (fs w)
  /\ with_dir b (with_dir b w) = with_dir b w.
Proof.
  unfold with_dir, create_dir.
  destruct (exists_ (fs w) (builddir b)) eqn:E; simpl.
  - rewrite E. simpl. repeat split; auto.
  - rewrite exists_makedirs, String.eqb_refl, orb_true_r. simpl.
    repeat split; auto.
Qed.

(** [configure] and [build] of pycmake need a preload file that is
    already there: without it [create_preload_file] is called, which asks
    the generator for a method it does not have, so the build directory is
    made, nothing is run, nothing is written, and [AttributeError] comes
    out.  With the file there, [configure] runs cmake once in the build
    directory, on the file's base name, and writes the command to its
    marker. *)
Theorem pycmake_configure_wants_its_preload_file (T : Tools) (b : Build)
        (w : World) :
  let err := AttributeError
               "'Generator' object has no attribute 'compile_flags'" in
  (exists_ (fs (with_dir b w)) (preload_file b) = false ->
   configure T b w = Raise err (with_dir b w)
   /\ (forall targets,
          exists_ (fs (with_dir b w)) (configure_done b) = false ->
          build T b targets w = Raise err (with_dir b w)))
  /\ (exists_ (fs (with_dir b w)) (preload_file b) = true ->
      forall w', configure T b w = Ok tt w' ->
        trace w' = (trace w ++ [(builddir b, configure_cmd b)])%list
        /\ files (fs w') (configure_done b)
           = Some (join " " (configure_cmd b) ++ nl)%string).
Proof.
  intros err.
  destruct (pycmake_create_dir b w) as (E1 & Bd & T1 & F1 & W1 & I1).
  split.
  - intros NP.
    assert (C : configure T b (with_dir b w) = Raise err (with_dir b w)).
    { unfold configure, bind at 1.
      destruct (pycmake_create_dir b (with_dir b w)) as (-> & _).
      rewrite I1. unfold bind at 1, path_exists. rewrite NP. simpl.
      unfold bind at 1, create_preload_file, bind, raise.
      destruct (pycmake_create_dir b (with_dir b w)) as (-> & _).
      now rewrite I1. }
    split.
    + unfold configure, bind at 1. rewrite E1.
      unfold bind at 1, path_exists. rewrite NP. simpl.
      unfold bind at 1, create_preload_file, bind, raise.
      destruct (pycmake_create_dir b (with_dir b w)) as (-> & _).
      now rewrite I1.
    + intros targets NC. unfold build, bind at 1. rewrite E1.
      unfold bind at 1, path_exists. unfold configure_done in NC. rewrite NC.
      simpl. unfold bind at 1, when. now rewrite C.
  - intros YP w' H. unfold configure in H.
    apply bind_ok in H as ([] & w1 & H1 & H).
    rewrite E1 in H1. injection H1 as <-.
    apply bind_ok in H as (e & w2 & [= <- <-] & H).
    rewrite YP in H. simpl in H.
    apply bind_ok in H as (x & w3 & [= <- <-] & H).
    apply bind_ok in H as ([] & w4 & H4 & H).
    unfold write_file in H. injection H as <-. simpl.
    unfold configure_done. rewrite String.eqb_refl. split; [|reflexivity].
    unfold run, after_child in H4.
    destruct (runsyscmd T _ _ _) as [ok fs']. simpl in H4.
    destruct ok; [|discriminate]. injection H4 as <-. simpl.
    now rewrite T1.
Qed.

(** *** Installing and cleaning *)

Lemma pycmake_run_trace (T : Tools) (cwd : string) (c : list string) (w : World) :
  trace (world_of (run T cwd c w)) = (trace w ++ [(cwd, c)])%list.
Proof.
  unfold run, after_child.
  destruct (runsyscmd T cwd c (fs w)) as [ok fs']. simpl. now destruct ok.
Qed.

(** [install] of pycmake: [build()] runs first exactly when the marker
    of the build is not in the build directory, and the install command is
    the last command run; right after a [build()] that returned, with the
    build directory still there, [install()] runs the install command and
    nothing else. *)
Theorem pycmake_install_builds_once (T : Tools) (b : Build) (w : World) :
  (forall w', install T b w = Ok tt w' ->
     exists w1,
       (if exists_ (fs (with_dir b w)) (build_done b)
        then w1 = with_dir b w
        else build T b [] (with_dir b w) = Ok tt w1)
       /\ trace w' = (trace w1 ++ [(builddir b, install_cmd b)])%list)
  /\ (forall targets w0,
         build T b targets w0 = Ok tt w ->
         exists_ (fs w) (build_done b) = true
         /\ (exists_ (fs w) (builddir b) = true ->
             install T b w = run T (builddir b) (install_cmd b) w)).
Proof.
  destruct (pycmake_create_dir b w) as (E1 & Bd & T1 & F1 & W1 & I1).
  split.
  - intros w' H. unfold install in H.
    apply bind_ok in H as ([] & wa & Ha & H).
    rewrite E1 in Ha. injection Ha as <-.
    apply bind_ok in H as (e & wb & [= <- <-] & H).
    apply bind_ok in H as ([] & w1 & Hc & H).
    exists w1. unfold build_done. split.
    + apply when_ok in Hc as [[Hn Hc]|[Hn ->]].
      * apply negb_true_iff in Hn. rewrite Hn.
        destruct (pycmake_create_dir b (with_dir b w)) as (E2 & _).
        unfold build, bind at 1. rewrite E2, I1. unfold build in Hc.
        unfold bind at 1 in Hc. rewrite E2, I1 in Hc. exact Hc.
      * apply negb_false_iff in Hn. now rewrite Hn.
    + pose proof (pycmake_run_trace T (builddir b) (install_cmd b) w1) as R.
      now rewrite H in R.
  - intros targets w0 H. unfold build in H.
    apply bind_ok in H as ([] & wa & _ & H).
    apply bind_ok in H as (e & wb & _ & H).
    apply bind_ok in H as ([] & wc & _ & H).
    apply bind_ok in H as (c & wd & _ & H).
    apply bind_ok in H as ([] & we & _ & H).
    unfold write_file in H. injection H as <-.
    assert (X : exists_ (fs {| fs := write_text (fs we)
                                        (path_join (builddir b) "pycmake_build.done")
                                        (join " " c ++ nl);
                               trace := trace we |}) (build_done b) = true).
    { simpl. unfold build_done.
      rewrite exists_write_text, String.eqb_refl. apply orb_true_r. }
    split; [exact X|]. intros Bd'.
    unfold install, bind at 1, create_dir. rewrite Bd'. simpl negb. cbv iota.
    unfold bind at 1, path_exists. unfold build_done in X. rewrite X.
    reflexivity.
Qed.

(** [clean] of pycmake: when it returns, the command that the generator
    gives for the target [clean] has been run in the build directory, make,
    msbuild on the solution file or cmake --build, and the marker of the
    build is gone, so the next [install()] builds again; when the command
    has been run and there is no marker to remove, [clean] raises. *)
Theorem pycmake_clean_removes_the_marker (T : Tools) (b : Build) (w : World) :
  (forall w', clean T b w = Ok tt w' ->
     exists c,
       cmd T (generator b) (builddir b) ["clean"] b (with_dir b w)
       = Ok c (with_dir b w)
       /\ trace w' = (trace w ++ [(builddir b, c)])%list
       /\ exists_ (fs w') (build_done b) = false
       /\ (is_makefile (generator b) = true ->
           c = ["make"; "-j"; num_jobs (generator b); "clean"])
       /\ (is_makefile (generator b) = false ->
           g_is_msvc (generator b) = true ->
           exists sln,
             c = [msbuild (compiler b); sln;
                  ("/maxcpucount:" ++ num_jobs (generator b))%string;
                  ("/property:Configuration=" ++ str (buildtype b))%string;
                  "/target:clean"])
       /\ (is_makefile (generator b) = false ->
           g_is_msvc (generator b) = false ->
           c = ["cmake"; "--build"; "."; "--config"; str (buildtype b);
                "--target clean"]))
  /\ (forall c w1 w2,
         cmd T (generator b) (builddir b) ["clean"] b (with_dir b w) = Ok c w1 ->
         run T (builddir b) c w1 = Ok tt w2 ->
         files (fs w2) (build_done b) = None ->
         clean T b w = Raise (IOError (build_done b)) w2).
Proof.
  destruct (pycmake_create_dir b w) as (E1 & Bd & T1 & F1 & W1 & I1).
  split.
  - intros w' H. unfold clean in H.
    apply bind_ok in H as ([] & wa & Ha & H).
    rewrite E1 in Ha. injection Ha as <-.
    apply bind_ok in H as (c & wb & Hb & H).
    apply bind_ok in H as ([] & wc & Hc & H).
    exists c.
    destruct (pycmake_cmd_value T b ["clean"] c (with_dir b w) wb Hb)
      as (-> & K1 & K2 & K3).
    pose proof (pycmake_run_trace T (builddir b) c (with_dir b w)) as R.
    rewrite Hc in R. simpl in R.
    unfold os_remove in H. fold (build_done b) in H.
    destruct (dirs (fs wc) (build_done b)) eqn:D; [discriminate|].
    destruct (files (fs wc) (build_done b)); [|discriminate].
    injection H as <-. simpl.
    split; [exact Hb|]. split; [now rewrite R, T1|]. split.
    { unfold exists_. simpl. now rewrite D, String.eqb_refl. }
    split; [exact K1|]. split; [|exact K3].
    intros M V. destruct (K2 M V) as (sl & _ & ->). now exists sl.
  - intros c w1 w2 Hc Hr F. unfold clean, bind at 1. rewrite E1.
    unfold bind at 1. rewrite Hc. unfold bind at 1. rewrite Hr.
    unfold os_remove. fold (build_done b). rewrite F.
    now destruct (dirs (fs w2) (build_done b)).
Qed.

(** *** Base names *)

Lemma basename_from_plain (acc n : string) :
  mem "/" n = false -> basename_from acc n = acc.
Proof.
  induction n as [|a n IH]; simpl; [reflexivity|].
  intros H. apply orb_false_iff in H as [Ha Hn]. rewrite Ha. now apply IH.
Qed.

Lemma basename_from_app (acc d n : string) :
  mem "/" n = false ->
  basename_from (acc ++ n) (d ++ n) = (basename_from acc d ++ n)%string.
Proof.
  intros Hn. revert acc. induction d as [|a d IH]; intros acc; simpl.
  - now apply basename_from_plain.
  - destruct (Ascii.eqb a "/"); apply IH.
Qed.

Lemma ends_with_slash (d : string) :
  String.substring (String.length d - 1) 1 d = "/" ->
  exists x, d = (x ++ "/")%string.
Proof.
  induction d as [|a d IH]; [discriminate|].
  simpl String.length. rewrite Nat.sub_1_r. simpl Nat.pred.
  destruct d as [|a' d].
  - simpl. intros [= ->]. now exists EmptyString.
  - simpl String.length. simpl String.substring.
    simpl String.length in IH. rewrite Nat.sub_1_r in IH. simpl Nat.pred in IH.
    intros H. destruct (IH H) as (x & ->). now exists (String a x).
Qed.

Lemma basename_path_join (d n : string) :
  mem "/" n = false -> basename (path_join d n) = n.
Proof.
  intros Hn. unfold path_join.
  assert (S : startswith n "/" = false).
  { destruct (startswith n "/") eqn:S; [|reflexivity].
    unfold startswith in S. apply prefix_iff in S as [r ->]. discriminate. }
  rewrite S. unfold basename.
  destruct (negb (truthy d) || endswith d "/") eqn:E.
  - rewrite basename_from_app by assumption.
    apply orb_true_iff in E as [E|E].
    + destruct d; [reflexivity | discriminate].
    + unfold endswith in E. apply andb_true_iff in E as [_ E].
      apply String.eqb_eq in E. simpl String.length in E.
      destruct (ends_with_slash d E) as (x & ->).
      replace (basename_from (x ++ "/") (x ++ "/")) with EmptyString;
        [reflexivity|].
      symmetry. clear.
      assert (K : forall acc, basename_from acc (x ++ "/") = EmptyString).
      { induction x as [|a x IH]; intros acc; simpl; [reflexivity|].
        destruct (Ascii.eqb a "/"); apply IH. }
      apply K.
  - replace (d ++ "/" ++ n)%string with ((d ++ "/") ++ n)%string
      by now rewrite append_assoc_s.
    rewrite basename_from_app by assumption.
    assert (K : forall acc, basename_from acc (d ++ "/") = EmptyString).
    { clear. induction d as [|a d IH]; intros acc; simpl; [reflexivity|].
      destruct (Ascii.eqb a "/"); apply IH. }
    now rewrite K.
Qed.

(** The preload file as [configure] names it to cmake: for a build whose
    paths [__init__] has set, the base name is the name of the preload
    file, which, in the build directory where cmake runs, is that file. *)
Theorem preload_file_by_its_base_name (abspath : string -> string)
        (b0 : Build) (proj_root build_root install_root : string) :
  let b := init_paths abspath b0 proj_root build_root install_root in
  basename (preload_file b) = "pycmake_preload.cmake"
  /\ path_join (builddir b) (basename (preload_file b)) = preload_file b
  /\ configure_cmd b
     = (["cmake"; "-C"; "pycmake_preload.cmake"]
        ++ configure_args (generator b0) ++ [proj_root])%list.
Proof.
  intros b.
  assert (B : basename (preload_file b) = "pycmake_preload.cmake")
    by (apply basename_path_join; reflexivity).
  split; [exact B|]. split.
  - now rewrite B.
  - unfold configure_cmd. now rewrite B.
Qed.

(** *** Selecting *)

Lemma h_filter (li : list Build) (g : option string) (attr : Build -> string) :
  _h li g attr
  = filter (fun b => match g with
                     | None => true
                     | Some g => String.eqb (attr b) g
                     end) li.
Proof.
  unfold _h. destruct g as [g|].
  - assert (K : forall acc,
               fold_left (fun lo b => if String.eqb (attr b) g
                                      then (lo ++ [b])%list else lo) li acc
               = (acc ++ filter (fun b => String.eqb (attr b) g) li)%list).
    { induction li as [|b li IH]; intros acc; simpl; [now rewrite app_nil_r|].
      rewrite IH. destruct (String.eqb (attr b) g); [|reflexivity].
      now rewrite <- app_assoc. }
    apply K.
  - induction li as [|b li IH]; simpl; [reflexivity | now rewrite <- IH].
Qed.

Lemma filter_filter {A} (f g : A -> bool) (l : list A) :
  filter g (filter f l) = filter (fun x => f x && g x) l.
Proof.
  induction l as [|x l IH]; simpl; [reflexivity|].
  destruct (f x); simpl; [|exact IH].
  destruct (g x); now rewrite IH.
Qed.

(** [select] returns, in the order of the project, exactly the builds
    that agree with every keyword given; a build without a variant agrees
    with the variant ["None"]; selecting again among the selected changes
    nothing. *)
Theorem select_is_a_filter (builds : list Build) (kw : Selection) :
  select builds kw = filter (asked kw) builds
  /\ (forall b, In b (select builds kw) <-> In b builds /\ asked kw b = true)
  /\ select (select builds kw) kw = select builds kw
  /\ select builds (mkSelection None None None None None) = builds.
Proof.
  assert (E : forall l, select l kw = filter (asked kw) l).
  { intros l. unfold select. rewrite !h_filter, !filter_filter.
    apply filter_ext. intros b. unfold asked. cbv zeta beta.
    now rewrite ?andb_assoc. }
  split; [apply E|]. split; [|split].
  - intros b. rewrite E. apply filter_In.
  - rewrite !E. rewrite filter_filter. apply filter_ext.
    intros b. now destruct (asked kw b).
  - unfold select. rewrite !h_filter. simpl.
    induction builds as [|b l IH]; simpl; [reflexivity|]. now rewrite IH at 1.
Qed.

End PycmakeFacts.

Section ReloadFacts.
Import Py Sys Re Cache CacheOps Raising CacheFile.

(** *** A commit, and the cache as the next run loads it *)








End ReloadFacts.

Section MoreWitnesses.
Import Raising CacheFile Text SysInfo Util.
Import Py Sys Re Cache CacheOps Run Cmany Lifecycle SampleRuns Upkeep MoreSamples.
Local Open Scope py_scope.

Lemma str_loadvars_round_trip_witness :
  CMakeCache_init printed_fs (Some "/b")
  = inr (mkCache [("X", mkVar "X" "1" "STRING" false false);
                  ("Y", mkVar "Y" "ON" "BOOL" false false)] false).
Proof.
  assert (H1 : Forall (fun v => printable v = true) printed_vars)
    by (repeat constructor).
  assert (H2 : NoDup (map name printed_vars)).
  { repeat constructor; simpl; intuition discriminate. }
  assert (H3 : exists_ printed_fs "/b" = true) by (vm_compute; reflexivity).
  assert (H4 : files printed_fs (path_join "/b" "CMakeCache.txt")
               = Some (writelines (map (fun v => __str__ v ++ nl)%string
                                       printed_vars)))
    by (vm_compute; reflexivity).
  exact (str_loadvars_round_trip printed_fs "/b" printed_vars H1 H2 H3 H4).
Defined.

Lemma setcachevar_getcachevar_witness :
  In ("X:STRING=1" ++ nl)%string (readlines Sample.cache_text)
  /\ exists fs',
      setcachevar Sample.posix Sample.cache_fs "/b" "X" "a b=c" = inr fs'
      /\ getcachevar fs' "/b" "X" = inr "a b=c".
Proof.
  assert (H1 : mem ":" "X" = false) by reflexivity.
  assert (H2 : lstrip "X" = "X") by reflexivity.
  assert (H3 : mem backslash "a b=c" = false) by reflexivity.
  assert (H4 : mem newline "a b=c" = false) by reflexivity.
  assert (H4' : mem cr "a b=c" = false) by reflexivity.
  assert (H5 : rstrip "a b=c" = "a b=c") by reflexivity.
  assert (H6 : files Sample.cache_fs (path_join "/b" "CMakeCache.txt")
               = Some Sample.cache_text) by (vm_compute; reflexivity).
  assert (H7 : In ("X:STRING=1" ++ nl)%string (readlines Sample.cache_text))
    by (left; vm_compute; reflexivity).
  split; [exact H7|].
  exact (setcachevar_getcachevar Sample.posix Sample.cache_fs "/b" "X" "a b=c"
           Sample.cache_text "STRING" "1" nl
           H1 H2 H3 H4 H4' H5 H6 H7 eq_refl eq_refl (or_intror eq_refl)).
Defined.


Lemma getstr_reads_the_variable_witness :
  _getstr no_engine no_format "CMAKE_C_COMPILER" "default" info_lines
  = inr "/usr/bin/cc"
  /\ pycmake_getstr no_engine "CMAKE_C_COMPILER" info_lines = inr "/usr/bin/cc".
Proof.
  assert (H1 : word "CMAKE_C_COMPILER" = true) by reflexivity.
  assert (H2 : "CMAKE_C_COMPILER" <> EmptyString) by discriminate.
  assert (H3 : forall l, In l (firstn 2 info_lines) ->
                         startswith l ("CMAKE_C_COMPILER" ++ " ") = false).
  { intros l I. vm_compute in I.
    destruct I as [<-|[<-|[]]]; vm_compute; reflexivity. }
  exact (proj1 (getstr_reads_the_variable no_engine no_format
                  "CMAKE_C_COMPILER" "default"
                  (firstn 2 info_lines) H1 H2 H3)
               "/usr/bin/cc" nl (skipn 3 info_lines)
               eq_refl (or_intror eq_refl)).
Defined.

Lemma install_builds_when_needed_witness :
  install Sample.tools (methods Sample.tools 1) Sample.fresh_build fresh_world
  = Ok tt installed_world
  /\ build_needed Sample.fresh_build
                  (with_builddir Sample.fresh_build fresh_world) = true
  /\ exists w1,
      build Sample.tools (methods Sample.tools 1) Sample.fresh_build []
            (with_builddir Sample.fresh_build fresh_world) = Ok tt w1
      /\ trace installed_world
         = (trace w1 ++ [(builddir Sample.fresh_build, ["make"; "install"])])%list.
Proof.
  assert (H : install Sample.tools (methods Sample.tools 1) Sample.fresh_build
                      fresh_world = Ok tt installed_world)
    by (vm_compute; reflexivity).
  assert (N : build_needed Sample.fresh_build
                (with_builddir Sample.fresh_build fresh_world) = true)
    by (vm_compute; reflexivity).
  split; [exact H|]. split; [exact N|].
  destruct (install_builds_when_needed Sample.tools (methods Sample.tools 1)
              Sample.fresh_build fresh_world installed_world H)
    as (w1 & B & Tr & _).
  rewrite N in B. exists w1. split; [exact B | exact Tr].
Defined.

Lemma install_after_build_witness :
  build Sample.tools (methods Sample.tools 1) Sample.fresh_build ["a"; "b"]
        fresh_world = Ok tt built_world
  /\ exists_ (fs built_world) (build_done Sample.fresh_build) = true
  /\ needs_build Sample.fresh_build built_world
     = Ok (negb (exists_ (fs built_world) (builddir Sample.fresh_build))
           || (exists_ (fs built_world) (cachefile Sample.fresh_build)
               && dirty (caches built_world (varcache Sample.fresh_build))))
          built_world.
Proof.
  assert (H : build Sample.tools (methods Sample.tools 1) Sample.fresh_build
                    ["a"; "b"] fresh_world
              = Ok tt built_world) by (vm_compute; reflexivity).
  split; [exact H|].
  destruct (install_after_build Sample.tools (methods Sample.tools 1)
              (methods Sample.tools 1) Sample.fresh_build ["a"; "b"]
              fresh_world built_world H) as (M & N & _).
  split; [exact M | exact N].
Defined.

Lemma input_variables_are_set_witness :
  gather_input_cache_vars Sample.tools Sample.fresh_build fresh_world
  = Ok tt regathered_world
  /\ cache_value regathered_world Sample.fresh_build "CMAKE_BUILD_TYPE"
     = Some ("Release", "STRING")
  /\ cache_value regathered_world Sample.fresh_build "CMAKE_INSTALL_PREFIX"
     = Some ("/install/linux-x86_64-gcc5.4-Release", "PATH").
Proof.
  assert (H : gather_input_cache_vars Sample.tools Sample.fresh_build fresh_world
              = Ok tt regathered_world) by (vm_compute; reflexivity).
  split; [exact H|].
  destruct (input_variables_are_set Sample.tools Sample.fresh_build
              fresh_world regathered_world H) as (B & I & _).
  split; [exact B | exact I].
Defined.

Lemma cmember_calls_once_witness :
  cmember "_generator_default" ask_cmake no_attributes
  = Ok "Unix Makefiles" ([("_generator_default", "Unix Makefiles")], tt)
  /\ cmember "_generator_default" (fun st => Raise (Exception "not asked") st)
             ([("_generator_default", "Unix Makefiles")], tt)
     = Ok "Unix Makefiles" ([("_generator_default", "Unix Makefiles")], tt).
Proof.
  assert (H : cmember "_generator_default" ask_cmake no_attributes
              = Ok "Unix Makefiles"
                   ([("_generator_default", "Unix Makefiles")], tt))
    by reflexivity.
  split; [exact H|].
  exact (cmember_calls_once "_generator_default" ask_cmake no_attributes
           ([("_generator_default", "Unix Makefiles")], tt) "Unix Makefiles" H
           (fun st => Raise (Exception "not asked") st)).
Defined.


End MoreWitnesses.
